(** * file-exchanger: the wire protocol of [server.py] and [client.py]

    A shallow embedding of the protocol engine: the line framer and the
    command dispatcher of [FileServer] in its two runtimes (one thread per
    connection over a blocking socket, one task per connection over an
    [asyncio] stream pair), the upload, download and listing handlers, and
    [FileClient.upload] and [FileClient.download].

    Conventions of the model.
    - [bytes] is [list byte]; [str] is [string].  The protocol is ASCII:
      [encode]/[decode] are the byte-for-byte conversions and the character
      predicates ([isspace], [upper]) the ASCII ones.  Wherever the code
      decodes received bytes or encodes names, text outside ASCII leaves the
      modelled fragment.
    - A handler is a computation over a [world]: the storage directory, the
      inbound byte stream of the connection as the chunks in which it
      arrives, and the list of frames written to the peer.  A computation
      ends normally, raises a Python exception, or is [Stuck] when it leaves
      the modelled fragment; [Stuck] is never caught by an [except] clause.
    - A read returns at most the bytes of the next arrival, cut to the size
      asked for; writing to the peer always succeeds.  After the last
      arrival the peer has closed its side.
    - The storage directory is the flat list of its immediate entries, keyed
      by entry name.  A name received on the wire that cannot be an entry
      name (empty, [.], [..], with a slash or a NUL character, outside
      ASCII, longer than 255 bytes) may resolve to something else than an
      entry, and leaves the modelled fragment where the file system is
      asked about it.
    - Calls to [logging] are left out. *)

From Stdlib Require Import List String Ascii Bool Arith Lia DecimalString.
From Stdlib Require Import ZArith DecimalNat.
From Stdlib.Strings Require Import Byte.
Import ListNotations.

Local Open Scope string_scope.
Local Open Scope nat_scope.
Local Open Scope list_scope.

(** String concatenation, kept apart from list concatenation [++]. *)
Infix "+++" := String.append (right associativity, at level 60).

(** ** Python values *)

Definition bytes := list byte.
Definition str := string.

Definition LF : ascii := "010"%char.
Definition nl : str := String LF EmptyString.

(** [s.encode()] and [b.decode()] on the ASCII range, where neither can
    fail.  Where the code decodes received bytes or encodes stored names,
    the model is [Stuck] on text outside ASCII. *)
Definition encode (s : str) : bytes := list_byte_of_string s.
Definition decode (b : bytes) : str := string_of_list_byte b.

(** The upload and download sentinel [b"<END>\n"]. *)
Definition END_MARK : bytes := encode ("<END>" +++ nl).

Module Py.

(** *** bytes *)

Definition byte_eqb (x y : byte) : bool := Byte.eqb x y.

(** [strip_prefix sep s] is [Some r] when [s = sep ++ r]. *)
Fixpoint strip_prefix (sep s : bytes) : option bytes :=
  match sep, s with
  | [], _ => Some s
  | _ :: _, [] => None
  | x :: sep', y :: s' => if byte_eqb x y then strip_prefix sep' s' else None
  end.

(** [split_once sep s] is [s.split(sep, 1)] when [sep in s], the bytes
    before the first occurrence of [sep] and the bytes after it, and [None]
    when [sep in s] is false. *)
Fixpoint split_once (sep s : bytes) : option (bytes * bytes) :=
  match strip_prefix sep s with
  | Some rest => Some ([], rest)
  | None =>
      match s with
      | [] => None
      | x :: s' =>
          match split_once sep s' with
          | Some (pre, post) => Some (x :: pre, post)
          | None => None
          end
      end
  end.

(** [len(s)] *)
Definition len (s : bytes) : nat := List.length s.

Definition is_empty (s : bytes) : bool :=
  match s with [] => true | _ :: _ => false end.

(** *** str *)

(** [c.isspace()] for an ASCII character: space, [\t \n \v \f \r] and the
    four separators [\x1c .. \x1f]. *)
Definition isspace (c : ascii) : bool :=
  let n := nat_of_ascii c in
  (n =? 32) || ((9 <=? n) && (n <=? 13)) || ((28 <=? n) && (n <=? 31)).

Definition str_is_empty (s : str) : bool :=
  match s with EmptyString => true | String _ _ => false end.

(** [s.split()]: the maximal runs of non-whitespace characters. *)
Fixpoint split_from (tok : str) (s : str) : list str :=
  match s with
  | EmptyString => if str_is_empty tok then [] else [tok]
  | String c s' =>
      if isspace c
      then (if str_is_empty tok then split_from EmptyString s'
            else tok :: split_from EmptyString s')
      else split_from (tok +++ String c EmptyString) s'
  end.

Definition split (s : str) : list str := split_from EmptyString s.

Fixpoint lstrip (s : str) : str :=
  match s with
  | EmptyString => EmptyString
  | String c s' => if isspace c then lstrip s' else s
  end.

Fixpoint rstrip (s : str) : str :=
  match s with
  | EmptyString => EmptyString
  | String c s' =>
      let r := rstrip s' in
      if str_is_empty r && isspace c then EmptyString else String c r
  end.

(** [s.strip()] *)
Definition strip (s : str) : str := rstrip (lstrip s).

Definition upper_char (c : ascii) : ascii :=
  let n := nat_of_ascii c in
  if (97 <=? n) && (n <=? 122) then ascii_of_nat (n - 32) else c.

(** [s.upper()] *)
Fixpoint upper (s : str) : str :=
  match s with
  | EmptyString => EmptyString
  | String c s' => String (upper_char c) (upper s')
  end.

(** [s.replace("*", ".*")] *)
Fixpoint replace_star (s : str) : str :=
  match s with
  | EmptyString => EmptyString
  | String c s' =>
      if Ascii.eqb c "*" then String "." (String "*" (replace_star s'))
      else String c (replace_star s')
  end.

(** [sep.join(l)] *)
Fixpoint join (sep : str) (l : list str) : str :=
  match l with
  | [] => EmptyString
  | [x] => x
  | x :: l' => x +++ sep +++ join sep l'
  end.

(** [str(n)] for a non-negative integer. *)
Definition str_of_nat (n : nat) : str := NilZero.string_of_uint (Nat.to_uint n).

(** [os.path.basename(p)]: what follows the last slash. *)
Fixpoint basename_from (acc : str) (p : str) : str :=
  match p with
  | EmptyString => acc
  | String c p' =>
      if Ascii.eqb c "/" then basename_from EmptyString p'
      else basename_from (acc +++ String c EmptyString) p'
  end.

Definition basename (p : str) : str := basename_from EmptyString p.

Definition str_endswith_slash (p : str) : bool :=
  match rev (list_ascii_of_string p) with
  | c :: _ => Ascii.eqb c "/"
  | [] => false
  end.

Definition str_startswith_slash (p : str) : bool :=
  match p with
  | String c _ => Ascii.eqb c "/"
  | EmptyString => false
  end.

(** [os.path.join(a, b)] on POSIX. *)
Definition path_join (a b : str) : str :=
  if str_startswith_slash b then b
  else if str_is_empty a || str_endswith_slash a then a +++ b
  else a +++ "/" +++ b.

End Py.

(** More of Python's [str], for ASCII text. *)
Module PyStr.

(** [s.startswith(prefix)] *)
Fixpoint startswith (prefix s : str) : bool :=
  match prefix, s with
  | EmptyString, _ => true
  | String _ _, EmptyString => false
  | String x p', String y s' => Ascii.eqb x y && startswith p' s'
  end.

(** [s.endswith(suffix)] *)
Definition endswith (suffix s : str) : bool :=
  startswith (string_of_list_ascii (rev (list_ascii_of_string suffix)))
    (string_of_list_ascii (rev (list_ascii_of_string s))).

(** [s.isascii()] *)
Fixpoint is_ascii (s : str) : bool :=
  match s with
  | EmptyString => true
  | String c s' => (nat_of_ascii c <? 128) && is_ascii s'
  end.

Definition is_digit (c : ascii) : bool :=
  (48 <=? nat_of_ascii c) && (nat_of_ascii c <=? 57).

(** The digits of a decimal literal: one digit or more, with single
    underscores between digits. *)
Fixpoint digits (acc : Z) (after_digit : bool) (s : str) : option Z :=
  match s with
  | EmptyString => if after_digit then Some acc else None
  | String c s' =>
      if is_digit c
      then digits (10 * acc + Z.of_nat (nat_of_ascii c - 48))%Z true s'
      else if Ascii.eqb c "_" && after_digit then digits acc false s'
      else None
  end.

(** [int(s)] for a string without whitespace: an optional sign and the
    digits; [None] where [int] raises [ValueError]. *)
Definition int (s : str) : option Z :=
  match s with
  | String "+" s' => digits 0 false s'
  | String "-" s' => option_map Z.opp (digits 0 false s')
  | _ => digits 0 false s
  end.

Fixpoint contains (c : ascii) (s : str) : bool :=
  match s with
  | EmptyString => false
  | String x s' => Ascii.eqb x c || contains c s'
  end.

Definition hex_digit (n : nat) : ascii :=
  if n <? 10 then ascii_of_nat (48 + n) else ascii_of_nat (87 + n).

Definition backslash : ascii := "092"%char.
Definition double_quote : ascii := "034"%char.
Definition single_quote : ascii := "039"%char.

(** One character of [repr(s)] between the quotes. *)
Definition repr_char (quote : ascii) (c : ascii) : str :=
  let n := nat_of_ascii c in
  if Ascii.eqb c backslash then String backslash (String backslash EmptyString)
  else if Ascii.eqb c quote then String backslash (String quote EmptyString)
  else if n =? 9 then String backslash "t"
  else if n =? 10 then String backslash "n"
  else if n =? 13 then String backslash "r"
  else if (n <? 32) || (n =? 127)
  then String backslash
         (String "x" (String (hex_digit (n / 16)) (String (hex_digit (n mod 16)) EmptyString)))
  else String c EmptyString.

Fixpoint repr_body (quote : ascii) (s : str) : str :=
  match s with
  | EmptyString => EmptyString
  | String c s' => repr_char quote c +++ repr_body quote s'
  end.

(** [repr(s)]: single quotes, unless the string has a single quote and no
    double quote. *)
Definition repr (s : str) : str :=
  let quote :=
    if contains single_quote s && negb (contains double_quote s)
    then double_quote else single_quote in
  String quote (repr_body quote s +++ String quote EmptyString).

End PyStr.

(** ** Exceptions and computations *)

(** The exception classes of [shared.py] and the built-in ones the handlers
    can meet. *)
Inductive exn_kind : Type :=
| FileNotFound
| ErrorDuringUpload
| ErrorDuringDownload
| PeerDisconnected
| IndexError
| IsADirectoryError.

(** An exception with [str(e)].  [ErrorDuringUpload(e)] built from another
    exception prints as that exception does. *)
Record exn : Type := mkExn { exn_class : exn_kind; exn_str : str }.

Inductive outcome (A : Type) : Type :=
| Ok (a : A)
| Raise (e : exn)
| Stuck.

Arguments Ok {A} a.
Arguments Raise {A} e.
Arguments Stuck {A}.

Definition M (W A : Type) : Type := W -> outcome A * W.

Definition ret {W A} (a : A) : M W A := fun w => (Ok a, w).

Definition bind {W A B} (m : M W A) (k : A -> M W B) : M W B :=
  fun w =>
    match m w with
    | (Ok a, w') => k a w'
    | (Raise e, w') => (Raise e, w')
    | (Stuck, w') => (Stuck, w')
    end.

Definition raise {W A} (e : exn) : M W A := fun w => (Raise e, w).

Definition stuck {W A} : M W A := fun w => (Stuck, w).

(** [try: m  except Exception as e: h e] *)
Definition try_except {W A} (m : M W A) (h : exn -> M W A) : M W A :=
  fun w =>
    match m w with
    | (Raise e, w') => h e w'
    | r => r
    end.

(** [try: m  except Exception: (log)  finally: fin]; this is how both
    connection loops end. *)
Definition try_finally {W} (m : M W unit) (fin : M W unit) : M W unit :=
  fun w =>
    match m w with
    | (Stuck, w') => (Stuck, w')
    | (_, w') => fin w'
    end.

Notation "x <- m ;; k" := (bind m (fun x => k))
  (at level 61, m at next level, right associativity).
Notation "m ;; k" := (bind m (fun _ => k))
  (at level 61, right associativity).

(** ** The storage directory *)

Inductive entry : Type :=
| File (content : bytes)
| Dir.

(** The immediate entries of a directory, in [os.listdir] order. *)
Definition storage := list (str * entry).

Module Storage.

Fixpoint lookup (name : str) (st : storage) : option entry :=
  match st with
  | [] => None
  | (k, v) :: st' => if String.eqb k name then Some v else lookup name st'
  end.

Fixpoint put (name : str) (e : entry) (st : storage) : storage :=
  match st with
  | [] => [(name, e)]
  | (k, v) :: st' =>
      if String.eqb k name then (k, e) :: st' else (k, v) :: put name e st'
  end.

Fixpoint remove (name : str) (st : storage) : storage :=
  match st with
  | [] => []
  | (k, v) :: st' =>
      if String.eqb k name then st' else (k, v) :: remove name st'
  end.

(** [os.path.isfile] *)
Definition isfile (name : str) (st : storage) : bool :=
  match lookup name st with Some (File _) => true | _ => false end.

(** The content of a regular file; empty for anything else. *)
Definition read (name : str) (st : storage) : bytes :=
  match lookup name st with Some (File c) => c | _ => [] end.

(** [os.path.getsize] *)
Definition getsize (name : str) (st : storage) : nat := Py.len (read name st).

(** [os.listdir] *)
Definition listdir (st : storage) : list str := map fst st.

(** [f.write(data)] on a file opened for writing: the data is appended. *)
Definition append (name : str) (data : bytes) (st : storage) : storage :=
  put name (File (read name st ++ data)) st.

End Storage.

(** ** Regular expressions

    The fragment of Python's [re] that the listing handler can build from a
    pattern free of the metacharacters other than [.] and [*]: literal
    characters, [.], [.*], a leading [^] and a trailing [$] (no flags:
    [.] does not match a newline, [$] matches at the end and before a final
    newline).  [compile] answers [None] outside this fragment. *)
Module Re.

Inductive item : Type :=
| Lit (c : ascii)
| AnyChar
| AnyStar.

Record regex : Type := mkRegex { items : list item; dollar : bool }.

(** The special characters of [re] apart from [.], [*], [^] and [$]. *)
Definition is_special (c : ascii) : bool :=
  existsb (Ascii.eqb c) (list_ascii_of_string "+?{}[]\|()").

Fixpoint parse (s : str) : option regex :=
  match s with
  | EmptyString => Some (mkRegex [] false)
  | String c s' =>
      let cons_item (i : item) (r : option regex) :=
        match r with
        | Some (mkRegex its d) => Some (mkRegex (i :: its) d)
        | None => None
        end in
      if Ascii.eqb c "." then
        match s' with
        | String c' s'' =>
            if Ascii.eqb c' "*" then cons_item AnyStar (parse s'')
            else cons_item AnyChar (parse s')
        | EmptyString => cons_item AnyChar (parse s')
        end
      else if Ascii.eqb c "$" then
        (if Py.str_is_empty s' then Some (mkRegex [] true) else None)
      else if Ascii.eqb c "*" || Ascii.eqb c "^" || is_special c then None
      else cons_item (Lit c) (parse s')
  end.

(** [re.compile(s)] *)
Definition compile (s : str) : option regex :=
  match s with
  | String c s' => if Ascii.eqb c "^" then parse s' else parse s
  | EmptyString => parse s
  end.

Definition at_end (s : str) : bool :=
  match s with
  | EmptyString => true
  | String c EmptyString => Ascii.eqb c LF
  | _ => false
  end.

Fixpoint match_items (d : bool) (its : list item) : str -> bool :=
  match its with
  | [] => fun s => if d then at_end s else true
  | Lit c :: r =>
      fun s =>
        match s with
        | String x s' => Ascii.eqb c x && match_items d r s'
        | EmptyString => false
        end
  | AnyChar :: r =>
      fun s =>
        match s with
        | String x s' => negb (Ascii.eqb x LF) && match_items d r s'
        | EmptyString => false
        end
  | AnyStar :: r =>
      fix star (s : str) : bool :=
        match_items d r s
        || match s with
           | String x s' => negb (Ascii.eqb x LF) && star s'
           | EmptyString => false
           end
  end.

(** [regex.match(s)]: a match starting at the first character of [s]. *)
Definition match_ (r : regex) (s : str) : bool := match_items (dollar r) (items r) s.

End Re.


(** ** One connection of the server *)

(** What a connection handler can see and change: the storage directory; the
    bytes still to come from the peer, as the chunks in which they arrive
    (after the last one the peer has closed its side); the buffer of the
    [asyncio.StreamReader], which only the async runtime uses; the frames
    written to the peer, one per [sendall] or [writer.write]; and whether the
    server has closed the connection. *)
Record world : Type := mkWorld {
  fs : storage;
  inbound : list bytes;
  rbuf : bytes;
  sent : list bytes;
  closed : bool
}.

Definition set_fs (f : storage -> storage) (w : world) : world :=
  mkWorld (f (fs w)) (inbound w) (rbuf w) (sent w) (closed w).

Definition set_inbound (i : list bytes) (w : world) : world :=
  mkWorld (fs w) i (rbuf w) (sent w) (closed w).

Definition set_rbuf (b : bytes) (w : world) : world :=
  mkWorld (fs w) (inbound w) b (sent w) (closed w).

Definition push_sent (data : bytes) (w : world) : world :=
  mkWorld (fs w) (inbound w) (rbuf w) (sent w ++ [data]) (closed w).

Definition set_closed (w : world) : world :=
  mkWorld (fs w) (inbound w) (rbuf w) (sent w) true.

(** The number of bytes the peer has still to deliver. *)
Definition pending (i : list bytes) : nat :=
  fold_right (fun c n => Py.len c + n) 0 i.

(** Enough iterations for a loop that consumes at least one byte a turn. *)
Definition fuel_of (w : world) : nat := S (Py.len (rbuf w) + pending (inbound w)).

Definition with_fuel {A} (body : nat -> M world A) : M world A :=
  fun w => body (fuel_of w) w.

Module Socket.

(** The next bytes to arrive and what follows them; nothing once the peer
    has closed. *)
Fixpoint next_arrival (i : list bytes) : bytes * list bytes :=
  match i with
  | [] => ([], [])
  | c :: rest => if Py.is_empty c then next_arrival rest else (c, rest)
  end.

(** What [recv(n)] returns and what stays in flight: at most [n] bytes of
    the next arrival. *)
Definition take (n : nat) (i : list bytes) : bytes * list bytes :=
  let (c, rest) := next_arrival i in
  if Py.len c <=? n then (c, rest) else (firstn n c, skipn n c :: rest).

(** [conn.recv(n)] *)
Definition recv (n : nat) : M world bytes :=
  fun w => let (data, rest) := take n (inbound w) in (Ok data, set_inbound rest w).

(** [conn.sendall(data)] *)
Definition sendall (data : bytes) : M world unit :=
  fun w => (Ok tt, push_sent data w).

(** [conn.close()] *)
Definition close : M world unit := fun w => (Ok tt, set_closed w).

End Socket.

Module Stream.

(** The bytes [StreamReader.readline] returns: the buffered bytes up to and
    including the first newline, waiting for more arrivals while there is
    none; what is left when the peer closes first. *)
Fixpoint readline_from (i : list bytes) (buf : bytes) : bytes * bytes * list bytes :=
  match Py.split_once (encode nl) buf with
  | Some (line, rest) => (line ++ encode nl, rest, i)
  | None =>
      match i with
      | [] => (buf, [], [])
      | c :: i' => readline_from i' (buf ++ c)
      end
  end.

(** [StreamReader.readline] with the reader's default limit of 64 KiB: a
    longer line makes [readline] fail, which is not modelled. *)
Definition readline : M world bytes :=
  fun w =>
    match readline_from (inbound w) (rbuf w) with
    | (line, buf, i) =>
        if (Z.of_nat (Py.len line) <=? 65536)%Z
        then (Ok line, set_rbuf buf (set_inbound i w))
        else (Stuck, w)
    end.

(** [StreamReader.read(n)]: at most [n] buffered bytes, after waiting for
    one arrival when the buffer is empty. *)
Definition read (n : nat) : M world bytes :=
  fun w =>
    let (buf, i) :=
      match rbuf w with
      | [] => Socket.next_arrival (inbound w)
      | _ :: _ => (rbuf w, inbound w)
      end in
    (Ok (firstn n buf), set_rbuf (skipn n buf) (set_inbound i w)).

(** [StreamReader.at_eof] *)
Definition at_eof : M world bool :=
  fun w => (Ok (Py.is_empty (rbuf w) && (pending (inbound w) =? 0)), w).

(** [writer.write(data)] followed by [await writer.drain()] *)
Definition write (data : bytes) : M world unit :=
  fun w => (Ok tt, push_sent data w).

(** [writer.close()] and [await writer.wait_closed()] *)
Definition close : M world unit := fun w => (Ok tt, set_closed w).

End Stream.

(** Files of the storage directory, as the handlers use them. *)
Module Files.

(** A name that can only be an entry of the directory it is joined to: not
    empty, not [.] or [..], without a slash or a NUL character, in ASCII and
    of at most 255 bytes. *)
Definition entry_name (name : str) : bool :=
  negb (Py.str_is_empty name)
  && negb (String.eqb name ".") && negb (String.eqb name "..")
  && negb (PyStr.contains "/" name) && negb (PyStr.contains "000" name)
  && PyStr.is_ascii name && (String.length name <=? 255).

(** [os.path.isfile(os.path.join(storage_dir, name))].  A name that is not
    among the entries is absent from the directory when it is an entry
    name; any other name may resolve elsewhere. *)
Definition isfile (name : str) : M world bool :=
  fun w =>
    match Storage.lookup name (fs w) with
    | Some _ => (Ok (Storage.isfile name (fs w)), w)
    | None => if entry_name name then (Ok false, w) else (Stuck, w)
    end.

Definition getsize (name : str) : M world nat :=
  fun w => (Ok (Storage.getsize name (fs w)), w).

Definition listdir : M world (list str) :=
  fun w => (Ok (Storage.listdir (fs w)), w).

(** [open(path, "wb")] for an entry name: the file is created or
    truncated; a directory cannot be opened. *)
Definition open_wb (path name : str) : M world unit :=
  fun w =>
    if negb (entry_name name) then (Stuck, w)
    else
      match Storage.lookup name (fs w) with
      | Some Dir =>
          if PyStr.is_ascii path
          then (Raise (mkExn IsADirectoryError
                         ("[Errno 21] Is a directory: " +++ PyStr.repr path)), w)
          else (Stuck, w)
      | _ => (Ok tt, set_fs (Storage.put name (File [])) w)
      end.

(** [f.write(data)] *)
Definition write (name : str) (data : bytes) : M world unit :=
  fun w => (Ok tt, set_fs (Storage.append name data) w).

(** [open(path, "rb")]: the bytes the reads will return. *)
Definition open_rb (name : str) : M world bytes :=
  fun w => (Ok (Storage.read name (fs w)), w).

End Files.

(** ** The server *)

Record FileServer : Type := mkFileServer {
  storage_dir : str;
  mode : str
}.

Module Server.

Section Handlers.

Variable self : FileServer.

(** *** Upload *)

(** The [while True] loop of [_cmd_load]. *)
Fixpoint load_loop (fuel : nat) (n : nat) (filename : str) (buffer : bytes)
  : M world unit :=
  match fuel with
  | O => stuck
  | S fuel' =>
      chunk <- Socket.recv n ;;
      if Py.is_empty chunk
      then raise (mkExn PeerDisconnected "Connection lost during upload")
      else
        let buffer := buffer ++ chunk in
        match Py.split_once END_MARK buffer with
        | Some (content, _) => Files.write filename content
        | None => Files.write filename buffer ;; load_loop fuel' n filename []
        end
  end.

Definition _cmd_load (filename : str) : M world unit :=
  Socket.sendall (encode ("READY" +++ nl)) ;;
  let file_path := Py.path_join (storage_dir self) filename in
  try_except
    (Files.open_wb file_path filename ;;
     with_fuel (fun fuel => load_loop fuel 4096 filename []))
    (fun e => raise (mkExn ErrorDuringUpload (exn_str e))).

(** The [while True] loop of [_cmd_load_async]. *)
Fixpoint load_loop_async (fuel : nat) (n : nat) (filename : str) : M world unit :=
  match fuel with
  | O => stuck
  | S fuel' =>
      chunk <- Stream.read n ;;
      if Py.is_empty chunk
      then raise (mkExn PeerDisconnected "Connection lost during upload")
      else
        match Py.split_once END_MARK chunk with
        | Some (content, _) => Files.write filename content
        | None => Files.write filename chunk ;; load_loop_async fuel' n filename
        end
  end.

Definition _cmd_load_async (filename : str) : M world unit :=
  Stream.write (encode ("READY" +++ nl)) ;;
  let file_path := Py.path_join (storage_dir self) filename in
  try_except
    (Files.open_wb file_path filename ;;
     with_fuel (fun fuel => load_loop_async fuel 4096 filename))
    (fun e => raise (mkExn ErrorDuringUpload (exn_str e))).

(** *** Download *)

(** The read loop of the download handlers: [f.read(n)] until it returns
    nothing, each chunk handed to [send]. *)
Fixpoint send_chunks (fuel : nat) (n : nat) (send : bytes -> M world unit)
  (rest : bytes) : M world unit :=
  match fuel with
  | O => stuck
  | S fuel' =>
      let chunk := firstn n rest in
      if Py.is_empty chunk then ret tt
      else send chunk ;; send_chunks fuel' n send (skipn n rest)
  end.

Definition _cmd_get_file (filename : str) : M world unit :=
  present <- Files.isfile filename ;;
  if negb present
  then Socket.sendall (encode ("ERROR FileNotFound " +++ filename +++ nl))
  else
    size <- Files.getsize filename ;;
    Socket.sendall (encode ("READY " +++ Py.str_of_nat size +++ nl)) ;;
    (f <- Files.open_rb filename ;;
     send_chunks (S (Py.len f)) 4096 Socket.sendall f) ;;
    Socket.sendall END_MARK.

Definition _cmd_get_file_async (filename : str) : M world unit :=
  present <- Files.isfile filename ;;
  if negb present
  then Stream.write (encode ("ERROR FileNotFound " +++ filename +++ nl))
  else
    size <- Files.getsize filename ;;
    Stream.write (encode ("READY " +++ Py.str_of_nat size +++ nl)) ;;
    (f <- Files.open_rb filename ;;
     send_chunks (S (Py.len f)) 4096 Stream.write f) ;;
    Stream.write END_MARK.

(** *** Listing *)

(** The regular expression both listing handlers build. *)
Definition listing_regex (pattern : str) : option Re.regex :=
  if String.eqb (Py.upper pattern) "ALL"
  then Re.compile ".*"
  else Re.compile ("^" +++ Py.replace_star pattern +++ "$").

(** Patterns and names outside ASCII are not modelled: [upper], the
    regular expression and [encode] are the ASCII ones. *)
Definition _cmd_get_files (pattern : str) : M world unit :=
  match listing_regex pattern with
  | None => stuck
  | Some regex =>
      names <- Files.listdir ;;
      if negb (PyStr.is_ascii pattern && forallb PyStr.is_ascii names) then stuck
      else
        let matches := filter (Re.match_ regex) names in
        Socket.sendall (encode (Py.join nl matches +++ nl))
  end.

Definition _cmd_get_files_async (pattern : str) : M world unit :=
  match listing_regex pattern with
  | None => stuck
  | Some regex =>
      names <- Files.listdir ;;
      if negb (PyStr.is_ascii pattern && forallb PyStr.is_ascii names) then stuck
      else
        let matches := filter (Re.match_ regex) names in
        Stream.write (encode (Py.join nl matches +++ nl))
  end.

(** *** Dispatch *)

(** [parts[i]] *)
Definition index (parts : list str) (i : nat) : M world str :=
  match nth_error parts i with
  | Some p => ret p
  | None => raise (mkExn IndexError "list index out of range")
  end.

(** The [except] clauses of [_dispatch_command]. *)
Definition report (e : exn) : M world unit :=
  match exn_class e with
  | FileNotFound =>
      Socket.sendall (encode ("ERROR FileNotFound " +++ exn_str e +++ nl))
  | ErrorDuringUpload =>
      Socket.sendall (encode ("ERROR ErrorDuringUpload " +++ exn_str e +++ nl))
  | PeerDisconnected =>
      Socket.sendall (encode ("ERROR PeerDisconnected " +++ exn_str e +++ nl))
  | _ =>
      Socket.sendall (encode ("ERROR " +++ exn_str e +++ nl))
  end.

Definition _dispatch_command (line : str) : M world unit :=
  let parts := Py.split line in
  match parts with
  | [] => ret tt
  | p0 :: _ =>
      let cmd := Py.upper p0 in
      try_except
        (if String.eqb cmd "LOAD" then
           filename <- index parts 1 ;;
           _cmd_load filename
         else if String.eqb cmd "GET" && (3 <=? List.length parts) then
           sub <- index parts 1 ;;
           let sub := Py.upper sub in
           if String.eqb sub "FILE" then
             filename <- index parts 2 ;; _cmd_get_file filename
           else if String.eqb sub "FILES" then
             pattern <- index parts 2 ;; _cmd_get_files pattern
           else Socket.sendall (encode ("ERROR Unknown GET subcommand" +++ nl))
         else Socket.sendall (encode ("ERROR Unknown command" +++ nl)))
        report
  end.

Definition _dispatch_command_async (line : str) : M world unit :=
  let parts := Py.split line in
  let cmd := match parts with p0 :: _ => Py.upper p0 | [] => "" end in
  if String.eqb cmd "LOAD" then
    filename <- index parts 1 ;;
    _cmd_load_async filename
  else if String.eqb cmd "GET" && (3 <=? List.length parts) then
    sub <- index parts 1 ;;
    let sub := Py.upper sub in
    if String.eqb sub "FILE" then
      filename <- index parts 2 ;; _cmd_get_file_async filename
    else if String.eqb sub "FILES" then
      pattern <- index parts 2 ;; _cmd_get_files_async pattern
    else ret tt
  else Stream.write (encode ("ERROR Unknown command" +++ nl)).

(** *** The connection loops *)

(** The inner loop of [_handle_client]: one dispatch per complete line of
    the buffer; the incomplete tail is returned.  A line outside ASCII is
    not modelled. *)
Fixpoint dispatch_lines (fuel : nat) (buffer : bytes) : M world bytes :=
  match fuel with
  | O => stuck
  | S fuel' =>
      match Py.split_once (encode nl) buffer with
      | Some (line, buffer') =>
          if negb (PyStr.is_ascii (decode line)) then stuck
          else
            _dispatch_command (Py.strip (decode line)) ;;
            dispatch_lines fuel' buffer'
      | None => ret buffer
      end
  end.

(** The outer loop of [_handle_client]. *)
Fixpoint client_loop (fuel : nat) (n : nat) (buffer : bytes) : M world unit :=
  match fuel with
  | O => stuck
  | S fuel' =>
      data <- Socket.recv n ;;
      if Py.is_empty data then ret tt
      else
        let buffer := buffer ++ data in
        buffer <- dispatch_lines (S (Py.len buffer)) buffer ;;
        client_loop fuel' n buffer
  end.

Definition _handle_client : M world unit :=
  try_finally (with_fuel (fun fuel => client_loop fuel 1024 [])) Socket.close.

(** The loop of [_handle_client_async].  A line outside ASCII is not
    modelled. *)
Fixpoint client_loop_async (fuel : nat) : M world unit :=
  match fuel with
  | O => stuck
  | S fuel' =>
      eof <- Stream.at_eof ;;
      if eof then ret tt
      else
        data <- Stream.readline ;;
        if Py.is_empty data then ret tt
        else if negb (PyStr.is_ascii (decode data)) then stuck
        else
          _dispatch_command_async (Py.strip (decode data)) ;;
          client_loop_async fuel'
  end.

Definition _handle_client_async : M world unit :=
  try_finally (with_fuel client_loop_async) Stream.close.

(** [start] runs one of the two loops on every accepted connection. *)
Definition serve : M world unit :=
  if String.eqb (mode self) "threaded" then _handle_client
  else _handle_client_async.

End Handlers.

End Server.


(** ** The client *)

(** What [FileClient] can see and change: whether [client_socket] is set;
    the local files, keyed by path as the caller spells it, one key a file;
    the bytes still to come from the server,
    as the chunks in which they arrive; the frames sent, one per [sendall];
    and the calls made to the progress callback. *)
Record client : Type := mkClient {
  connected : bool;
  local_fs : storage;
  from_server : list bytes;
  to_server : list bytes;
  progress : list nat
}.

Module FileClient.

Definition sendall (data : bytes) : M client unit :=
  fun c => (Ok tt, mkClient (connected c) (local_fs c) (from_server c)
                     (to_server c ++ [data]) (progress c)).

Definition recv (n : nat) : M client bytes :=
  fun c =>
    let (data, rest) := Socket.take n (from_server c) in
    (Ok data, mkClient (connected c) (local_fs c) rest (to_server c) (progress c)).

Definition isfile (path : str) : M client bool :=
  fun c => (Ok (Storage.isfile path (local_fs c)), c).

Definition open_rb (path : str) : M client bytes :=
  fun c => (Ok (Storage.read path (local_fs c)), c).

(** Writing a whole file at [path], as [zipfile.ZipFile(path, "w")] does
    for the archive: a directory at [path] cannot be opened. *)
Definition write_file (path : str) (data : bytes) : M client unit :=
  fun c =>
    match Storage.lookup path (local_fs c) with
    | Some Dir =>
        if PyStr.is_ascii path
        then (Raise (mkExn IsADirectoryError
                       ("[Errno 21] Is a directory: " +++ PyStr.repr path)), c)
        else (Stuck, c)
    | _ =>
        (Ok tt, mkClient (connected c) (Storage.put path (File data) (local_fs c))
                  (from_server c) (to_server c) (progress c))
    end.

(** [os.remove(path)] inside [try: ... except OSError: pass] *)
Definition remove (path : str) : M client unit :=
  fun c => (Ok tt, mkClient (connected c) (Storage.remove path (local_fs c))
                     (from_server c) (to_server c) (progress c)).

(** [progress_cb(n)] when a callback was given. *)
Definition notify (progress_cb : bool) (n : nat) : M client unit :=
  fun c =>
    if progress_cb
    then (Ok tt, mkClient (connected c) (local_fs c) (from_server c)
                   (to_server c) (progress c ++ [n]))
    else (Ok tt, c).

Definition is_connected : M client bool := fun c => (Ok (connected c), c).

Section Archive.

(** The archive writer behind [compress_file]: the bytes of a zip archive
    holding the given content under the given member name. *)
Variable zip_archive : str -> bytes -> bytes.

Definition compress_file (path : str) : M client str :=
  let zip_path := path +++ ".zip" in
  content <- open_rb path ;;
  write_file zip_path (zip_archive (Py.basename path) content) ;;
  ret zip_path.

(** The read loop of [upload]. *)
Fixpoint stream_file (fuel : nat) (n : nat) (progress_cb : bool) (rest : bytes)
  : M client unit :=
  match fuel with
  | O => stuck
  | S fuel' =>
      let chunk := firstn n rest in
      if Py.is_empty chunk then ret tt
      else
        sendall chunk ;;
        notify progress_cb (Py.len chunk) ;;
        stream_file fuel' n progress_cb (skipn n rest)
  end.

Definition upload (file_name : str) (compress : bool) (progress_cb : bool)
  : M client unit :=
  sock <- is_connected ;;
  if negb sock then ret tt
  else
    present <- isfile file_name ;;
    if negb present
    then raise (mkExn FileNotFound ("File " +++ file_name +++ " not found."))
    else
      file_to_send <- (if compress then compress_file file_name else ret file_name) ;;
      let label := Py.basename file_to_send in
      try_except
        (let command :=
           "LOAD " +++ label +++ " " +++ (if compress then "COMPRESSED" else "") +++ nl in
         sendall (encode command) ;;
         data <- recv 1024 ;;
         if negb (PyStr.is_ascii (decode data)) then stuck
         else
         let resp := Py.strip (decode data) in
         if negb (String.eqb resp "READY") then ret tt
         else
           (f <- open_rb file_to_send ;;
            stream_file (S (Py.len f)) 4096 progress_cb f) ;;
           sendall END_MARK ;;
           if compress then remove file_to_send else ret tt)
        (fun e => raise (mkExn ErrorDuringUpload (exn_str e))).

End Archive.

End FileClient.


(** ** Vocabulary of the statements *)

(** The world after the given frames have been written to the peer, in
    order, and nothing else has changed. *)
Definition push_all (frames : list bytes) (w : world) : world :=
  mkWorld (fs w) (inbound w) (rbuf w) (sent w ++ frames) (closed w).

(** The chunks the read loops cut a byte string into. *)
Fixpoint chunks (fuel : nat) (n : nat) (rest : bytes) : list bytes :=
  match fuel with
  | O => []
  | S fuel' =>
      let chunk := firstn n rest in
      if Py.is_empty chunk then []
      else chunk :: chunks fuel' n (skipn n rest)
  end.

(** One read of at most [n] bytes: what [recv(n)] can return before the peer
    closes. *)
Definition one_read (n : nat) (c : bytes) : Prop := c <> [] /\ Py.len c <= n.

Module Spec.

(** The glob of the specification: [*] stands for any run of characters,
    every other character for itself, and the whole name must be matched. *)
Fixpoint glob_match (p : str) : str -> bool :=
  match p with
  | EmptyString => fun s => Py.str_is_empty s
  | String c p' =>
      if Ascii.eqb c "*" then
        fix star (s : str) : bool :=
          glob_match p' s
          || match s with
             | String _ s' => star s'
             | EmptyString => false
             end
      else
        fun s =>
          match s with
          | String x s' => Ascii.eqb c x && glob_match p' s'
          | EmptyString => false
          end
  end.

(** The same with a second wildcard: [.] stands for any one character. *)
Fixpoint wild_match (p : str) : str -> bool :=
  match p with
  | EmptyString => fun s => Py.str_is_empty s
  | String c p' =>
      if Ascii.eqb c "*" then
        fix star (s : str) : bool :=
          wild_match p' s
          || match s with
             | String _ s' => star s'
             | EmptyString => false
             end
      else
        fun s =>
          match s with
          | String x s' => (Ascii.eqb c "." || Ascii.eqb c x) && wild_match p' s'
          | EmptyString => false
          end
  end.

(** The regular expression items a pattern of [*], [.] and literal
    characters stands for. *)
Fixpoint items_of (p : str) : list Re.item :=
  match p with
  | EmptyString => []
  | String c p' =>
      (if Ascii.eqb c "*" then Re.AnyStar
       else if Ascii.eqb c "." then Re.AnyChar
       else Re.Lit c) :: items_of p'
  end.

(** A pattern free of the characters [^ $ + ? { } [ ] \ | ( )]. *)
Fixpoint plain (p : str) : bool :=
  match p with
  | EmptyString => true
  | String c p' =>
      negb (Ascii.eqb c "^" || Ascii.eqb c "$" || Re.is_special c) && plain p'
  end.

Fixpoint no_newline (s : str) : bool :=
  match s with
  | EmptyString => true
  | String c s' => negb (Ascii.eqb c LF) && no_newline s'
  end.

Fixpoint dot_free (p : str) : bool :=
  match p with
  | EmptyString => true
  | String c p' => negb (Ascii.eqb c ".") && dot_free p'
  end.

(** The word [ALL] in any letter case. *)
Definition ALL_up_to_case (p : str) : Prop :=
  exists a l1 l2 : ascii,
    p = String a (String l1 (String l2 EmptyString))
    /\ (a = "A"%char \/ a = "a"%char)
    /\ (l1 = "L"%char \/ l1 = "l"%char)
    /\ (l2 = "L"%char \/ l2 = "l"%char).

(** The byte string has no occurrence of the sentinel. *)
Definition sentinel_free (content : bytes) : Prop :=
  Py.split_once END_MARK content = None.

End Spec.

(** ** Concrete servers, storages and peers *)

Module Scenario.

Definition threaded : FileServer := mkFileServer "/srv/database" "threaded".
Definition async : FileServer := mkFileServer "/srv/database" "async".

(** A fresh connection: nothing read, nothing written, not closed. *)
Definition accepted (st : storage) (arrivals : list bytes) : world :=
  mkWorld st arrivals [] [] false.

(** [s] followed by a newline, as bytes. *)
Definition line (s : str) : bytes := encode (s +++ nl).

Definition logs : storage :=
  [("one.log", File (encode "x")); ("two.txt", File (encode "x"));
   ("three.log", File (encode "x"))].

(** A file of 4094 bytes: with the six bytes of the sentinel it is four
    bytes longer than one read of the upload handler. *)
Definition payload_4094 : bytes := repeat "a"%byte 4094.

(** An archive writer to run the client with. *)
Definition stored_zip (member : str) (content : bytes) : bytes :=
  encode "PK:" ++ encode member ++ encode ":" ++ content.

End Scenario.

(** ** Vocabulary of the further properties *)

(** The complete lines of a byte string, without their newline, and the
    bytes after its last newline; [cur] is the line being read. *)
Fixpoint lines_from (cur : bytes) (s : bytes) : list bytes * bytes :=
  match s with
  | [] => ([], cur)
  | b :: s' =>
      if Py.byte_eqb b "010"%byte
      then (let (ls, r) := lines_from [] s' in (cur :: ls, r))
      else lines_from (cur ++ [b]) s'
  end.

(** The first word of the line, in upper case, is LOAD. *)
Definition is_load (line : str) : bool :=
  match Py.split line with
  | p0 :: _ => String.eqb (Py.upper p0) "LOAD"
  | [] => false
  end.

(** A line the connection loops can hand to a dispatcher without starting an
    upload: ASCII text whose first word is not LOAD. *)
Definition plain_command (l : bytes) : bool :=
  PyStr.is_ascii (decode l) && negb (is_load (Py.strip (decode l))).

(** The threaded dispatcher on the given lines, one after the other. *)
Fixpoint run_lines (self : FileServer) (ls : list bytes) : M world unit :=
  match ls with
  | [] => ret tt
  | l :: ls' =>
      Server._dispatch_command self (Py.strip (decode l)) ;;
      run_lines self ls'
  end.

(** What a peer and the operator can see of a run: how it ended, the
    storage directory, the frames written and whether the connection was
    closed. *)
Definition observe (r : outcome unit * world)
  : outcome unit * storage * list bytes * bool :=
  (fst r, fs (snd r), sent (snd r), closed (snd r)).

(** A computation that neither reads the inbound stream nor depends on it. *)
Definition keeps_inbound {A} (m : M world A) : Prop :=
  forall w i, m (set_inbound i w) = (fst (m w), set_inbound i (snd (m w))).

(** The storage after the given reads have been appended to a file. *)
Definition appended (name : str) (reads : list bytes) (st : storage) : storage :=
  fold_left (fun s p => Storage.append name p s) reads st.

(** No character of the string is whitespace. *)
Fixpoint no_space (s : str) : bool :=
  match s with
  | EmptyString => true
  | String c s' => negb (Py.isspace c) && no_space s'
  end.

(** A word: what [str.split] returns as one piece. *)
Definition is_word (s : str) : bool := negb (Py.str_is_empty s) && no_space s.

(** ** The client's download *)

Module Download.

(** [parts[i]] *)
Definition index (parts : list str) (i : nat) : M client str :=
  match nth_error parts i with
  | Some p => ret p
  | None => raise (mkExn IndexError "list index out of range")
  end.

(** [int(s)].  The [ValueError] of a malformed number can only leave
    [download] as an [ErrorDuringDownload] with the same text, and is raised
    as such. *)
Definition int (s : str) : M client Z :=
  match PyStr.int s with
  | Some z => ret z
  | None =>
      raise (mkExn ErrorDuringDownload
               ("invalid literal for int() with base 10: " +++ PyStr.repr s))
  end.

(** A file name that names an entry of the directory it is joined to: not
    empty, not [.] or [..], without a slash or a NUL character. *)
Definition plain_name (name : str) : bool :=
  negb (Py.str_is_empty name)
  && negb (String.eqb name ".") && negb (String.eqb name "..")
  && negb (PyStr.contains "/" name) && negb (PyStr.contains "000" name).

(** [os.makedirs(path, exist_ok=True)] on a directory that exists, and on a
    regular file (a [FileExistsError], raised as what it leaves [download]
    as).  The creation of directories is not modelled. *)
Definition makedirs (path : str) : M client unit :=
  fun c =>
    match Storage.lookup path (local_fs c) with
    | Some Dir => (Ok tt, c)
    | Some (File _) =>
        (Raise (mkExn ErrorDuringDownload
                  ("[Errno 17] File exists: " +++ PyStr.repr path)), c)
    | None => (Stuck, c)
    end.

(** [open(path, "wb")] in an existing directory. *)
Definition open_wb (path : str) : M client unit :=
  fun c =>
    match Storage.lookup path (local_fs c) with
    | Some Dir =>
        (Raise (mkExn IsADirectoryError
                  ("[Errno 21] Is a directory: " +++ PyStr.repr path)), c)
    | _ => (Ok tt, mkClient (connected c) (Storage.put path (File []) (local_fs c))
                     (from_server c) (to_server c) (progress c))
    end.

(** [f.write(data)] *)
Definition write (path : str) (data : bytes) : M client unit :=
  fun c => (Ok tt, mkClient (connected c) (Storage.append path data (local_fs c))
                     (from_server c) (to_server c) (progress c)).

(** [os.remove(path)] outside any [try]: a missing file is a
    [FileNotFoundError], raised as what it leaves [download] as.  What
    removing a directory raises depends on the platform and is not
    modelled. *)
Definition remove (path : str) : M client unit :=
  fun c =>
    match Storage.lookup path (local_fs c) with
    | Some (File _) =>
        (Ok tt, mkClient (connected c) (Storage.remove path (local_fs c))
                  (from_server c) (to_server c) (progress c))
    | Some Dir => (Stuck, c)
    | None =>
        (Raise (mkExn ErrorDuringDownload
                  ("[Errno 2] No such file or directory: " +++ PyStr.repr path)), c)
    end.

(** Enough iterations for a loop that consumes at least one byte a turn. *)
Definition with_fuel {A} (body : nat -> M client A) : M client A :=
  fun c => body (S (pending (from_server c))) c.

(** The [while received < total_size] loop of [download]. *)
Fixpoint receive (fuel : nat) (output_path : str) (progress_cb : bool)
  (total_size : Z) (received : Z) : M client unit :=
  match fuel with
  | O => stuck
  | S fuel' =>
      if (received <? total_size)%Z then
        chunk <- FileClient.recv (Z.to_nat (Z.min 4096 (total_size - received))) ;;
        if Py.is_empty chunk
        then raise (mkExn PeerDisconnected "Connection lost during download")
        else
          write output_path chunk ;;
          FileClient.notify progress_cb (Py.len chunk) ;;
          receive fuel' output_path progress_cb total_size
            (received + Z.of_nat (Py.len chunk))%Z
      else ret tt
  end.

Section Archive.

(** [decompress_file], which hands the archive to [zipfile]: any
    computation on the local files. *)
Variable decompress_file : str -> str -> M client unit.

(** [download].  Replies outside ASCII, and file names and directories that
    are not plain ASCII names, are not modelled. *)
Definition download (file_name : str) (decompress : bool) (output_dir : str)
  (progress_cb : bool) : M client unit :=
  sock <- FileClient.is_connected ;;
  if negb sock then ret tt
  else
    try_except
      (FileClient.sendall (encode ("GET FILE " +++ file_name +++ nl)) ;;
       data <- FileClient.recv 1024 ;;
       if negb (PyStr.is_ascii (decode data)) then stuck
       else
         let line := Py.strip (decode data) in
         if PyStr.startswith "ERROR" line then raise (mkExn FileNotFound line)
         else
           let parts := Py.split line in
           p0 <- index parts 0 ;;
           if negb (String.eqb p0 "READY") || negb (List.length parts =? 2)
           then raise (mkExn ErrorDuringDownload
                         ("Unexpected response from server: " +++ line))
           else
             p1 <- index parts 1 ;;
             total_size <- int p1 ;;
             if negb (plain_name file_name && PyStr.is_ascii file_name
                      && PyStr.is_ascii output_dir)
             then stuck
             else
               makedirs output_dir ;;
               let output_path := Py.path_join output_dir file_name in
               (open_wb output_path ;;
                with_fuel (fun fuel =>
                  receive fuel output_path progress_cb total_size 0%Z)) ;;
               if decompress && PyStr.endswith ".zip" output_path
               then decompress_file output_path output_dir ;; remove output_path
               else ret tt)
      (fun e =>
         match exn_class e with
         | FileNotFound | ErrorDuringDownload => raise e
         | _ => raise (mkExn ErrorDuringDownload (exn_str e))
         end).

End Archive.

End Download.

(** ** Vocabulary of the async framer *)

(** The async dispatcher on the given lines, one after the other. *)
Fixpoint run_lines_async (self : FileServer) (ls : list bytes) : M world unit :=
  match ls with
  | [] => ret tt
  | l :: ls' =>
      Server._dispatch_command_async self (Py.strip (decode l)) ;;
      run_lines_async self ls'
  end.

(** What [readline] returns up to the end of a stream, without the
    newlines: the complete lines, and the bytes after the last newline when
    there are any. *)
Definition lines_read (s : bytes) : list bytes :=
  fst (lines_from [] s)
  ++ (if Py.is_empty (snd (lines_from [] s)) then [] else [snd (lines_from [] s)]).

(** A line [readline] returns within the default limit of the stream
    reader, with or without its newline. *)
Definition within_limit (l : bytes) : bool := (Z.of_nat (Py.len l) <? 65536)%Z.

(** A computation that neither reads the stream reader nor depends on it. *)
Definition keeps_stream {A} (m : M world A) : Prop :=
  forall w i b,
    m (set_rbuf b (set_inbound i w))
    = (fst (m w), set_rbuf b (set_inbound i (snd (m w)))).

(** ** Chunking *)

Lemma firstn_empty_inv (n : nat) (l : bytes) :
  0 < n -> Py.is_empty (firstn n l) = true -> l = [].
Proof.
  intros Hn H. destruct n as [|n]; [inversion Hn|].
  destruct l as [|x l]; [reflexivity|discriminate].
Qed.

Lemma chunks_concat (fuel n : nat) :
  0 < n -> forall rest, Py.len rest < fuel -> List.concat (chunks fuel n rest) = rest.
Proof.
  intros Hn. induction fuel as [|fuel IH]; intros rest Hlt.
  - inversion Hlt.
  - simpl. destruct (Py.is_empty (firstn n rest)) eqn:E.
    + simpl. symmetry. now apply firstn_empty_inv with n.
    + simpl. rewrite IH.
      * apply firstn_skipn.
      * unfold Py.len in *. rewrite length_skipn.
        destruct rest; [destruct n; discriminate|].
        cbn [List.length] in *. lia.
Qed.

Lemma chunks_bounded (fuel n : nat) :
  forall rest, Forall (fun c => 0 < Py.len c <= n) (chunks fuel n rest).
Proof.
  induction fuel as [|fuel IH]; intros rest; simpl.
  - constructor.
  - destruct (Py.is_empty (firstn n rest)) eqn:E.
    + constructor.
    + constructor; [|apply IH].
      unfold Py.len. split.
      * destruct (firstn n rest); [discriminate|simpl; lia].
      * apply firstn_le_length.
Qed.

Lemma chunks_pieces (n : nat) :
  forall fuel rest,
    Forall (fun c => exists x z, rest = x ++ c ++ z) (chunks fuel n rest).
Proof.
  induction fuel as [|fuel IH]; intros rest; cbn [chunks].
  - constructor.
  - destruct (Py.is_empty (firstn n rest)); constructor.
    + exists [], (skipn n rest). simpl. symmetry. apply firstn_skipn.
    + specialize (IH (skipn n rest)).
      eapply Forall_impl; [|exact IH].
      intros c (x & z & Hc). exists (firstn n rest ++ x), z.
      rewrite <- app_assoc, <- Hc. symmetry. apply firstn_skipn.
Qed.

(** ** Frames written to the peer *)

Lemma push_all_nil (w : world) : push_all [] w = w.
Proof.
  destruct w. unfold push_all. simpl. now rewrite app_nil_r.
Qed.

Lemma push_all_push_sent (data : bytes) (frames : list bytes) (w : world) :
  push_all frames (push_sent data w) = push_all (data :: frames) w.
Proof.
  unfold push_all, push_sent. simpl. now rewrite <- app_assoc.
Qed.

Lemma push_sent_push_all (data : bytes) (frames : list bytes) (w : world) :
  push_sent data (push_all frames w) = push_all (frames ++ [data]) w.
Proof.
  unfold push_all, push_sent. simpl. now rewrite app_assoc.
Qed.

Lemma push_all_app (f g : list bytes) (w : world) :
  push_all g (push_all f w) = push_all (f ++ g) w.
Proof.
  unfold push_all. simpl. now rewrite app_assoc.
Qed.

(** ** Searching a separator *)

Lemma byte_eqb_refl (x : byte) : Py.byte_eqb x x = true.
Proof.
  now apply Byte.byte_dec_lb.
Qed.

Lemma strip_prefix_app (sep rest : bytes) :
  Py.strip_prefix sep (sep ++ rest) = Some rest.
Proof.
  induction sep as [|x sep IH]; simpl.
  - now destruct rest.
  - now rewrite byte_eqb_refl.
Qed.

Lemma strip_prefix_sound (sep : bytes) :
  forall s r, Py.strip_prefix sep s = Some r -> s = sep ++ r.
Proof.
  induction sep as [|x sep IH]; intros s r H.
  - destruct s; simpl in H; now inversion H.
  - destruct s as [|y s]; simpl in H; [discriminate|].
    destruct (Py.byte_eqb x y) eqn:E; [|discriminate].
    apply Byte.byte_dec_bl in E. subst y.
    simpl. f_equal. now apply IH.
Qed.

(** [split_once] finds an occurrence: what it returns rebuilds the input. *)
Lemma split_once_sound (sep : bytes) :
  forall s pre post, Py.split_once sep s = Some (pre, post) -> s = pre ++ sep ++ post.
Proof.
  induction s as [|x s IH]; intros pre post H.
  - simpl in H. destruct (Py.strip_prefix sep []) eqn:E; [|discriminate].
    inversion H; subst. simpl. now apply strip_prefix_sound.
  - simpl in H. destruct (Py.strip_prefix sep (x :: s)) eqn:E.
    + inversion H; subst. simpl. now apply strip_prefix_sound.
    + destruct (Py.split_once sep s) as [[pre' post']|] eqn:E'; [|discriminate].
      inversion H; subst. simpl. f_equal. now apply IH.
Qed.

Lemma split_once_unfold (sep s : bytes) :
  Py.split_once sep s =
  match Py.strip_prefix sep s with
  | Some rest => Some ([], rest)
  | None =>
      match s with
      | [] => None
      | x :: s' =>
          match Py.split_once sep s' with
          | Some (pre, post) => Some (x :: pre, post)
          | None => None
          end
      end
  end.
Proof.
  destruct s; reflexivity.
Qed.

Lemma split_once_here (sep rest : bytes) :
  Py.split_once sep (sep ++ rest) = Some ([], rest).
Proof.
  now rewrite split_once_unfold, strip_prefix_app.
Qed.

(** [split_once] misses no occurrence. *)
Lemma split_once_complete (sep : bytes) :
  forall u v, Py.split_once sep (u ++ sep ++ v) <> None.
Proof.
  induction u as [|x u IH]; intros v.
  - simpl. now rewrite split_once_here.
  - specialize (IH v).
    change ((x :: u) ++ sep ++ v) with (x :: (u ++ sep ++ v)).
    rewrite split_once_unfold.
    destruct (Py.strip_prefix sep (x :: u ++ sep ++ v)); [discriminate|].
    destruct (Py.split_once sep (u ++ sep ++ v)) as [[pre post]|]; [discriminate|].
    contradiction.
Qed.

(** A piece of a byte string without the sentinel has none either. *)
Lemma sentinel_free_piece (x y z : bytes) :
  Spec.sentinel_free (x ++ y ++ z) -> Spec.sentinel_free y.
Proof.
  unfold Spec.sentinel_free. intros H.
  destruct (Py.split_once END_MARK y) as [[u v]|] eqn:E; [|reflexivity].
  apply split_once_sound in E. subst y.
  exfalso. apply (split_once_complete END_MARK (x ++ u) (v ++ z)).
  rewrite <- H. f_equal. now rewrite <- !app_assoc.
Qed.

Section Unbordered.

(** A separator whose first byte does not occur again in it. *)
Variable a : byte.
Variable t : bytes.
Hypothesis first_byte_unique : ~ In a t.

Lemma strip_prefix_overlap (p : bytes) :
  forall s u r,
    Py.strip_prefix p (s ++ a :: u) = Some r ->
    Py.strip_prefix p s = None ->
    In a p.
Proof.
  induction p as [|y p IH]; intros s u r Hsome Hnone.
  - destruct s; discriminate.
  - destruct s as [|x s]; simpl in *.
    + destruct (Py.byte_eqb y a) eqn:E; [|discriminate].
      left. now apply Byte.byte_dec_bl.
    + destruct (Py.byte_eqb y x); [|discriminate].
      right. now apply IH with s u r.
Qed.

(** After bytes that do not contain the separator, the first occurrence is
    the one that follows them. *)
Lemma split_once_after_free (s rest : bytes) :
  Py.split_once (a :: t) s = None ->
  Py.split_once (a :: t) (s ++ (a :: t) ++ rest) = Some (s, rest).
Proof.
  induction s as [|x s IH]; intros Hfree.
  - exact (split_once_here (a :: t) rest).
  - cbn [Py.split_once] in Hfree.
    destruct (Py.strip_prefix (a :: t) (x :: s)) eqn:Ehead; [discriminate|].
    destruct (Py.split_once (a :: t) s) as [[pre post]|] eqn:Etail; [discriminate|].
    change ((x :: s) ++ (a :: t) ++ rest) with (x :: (s ++ (a :: t) ++ rest)).
    cbn [Py.split_once].
    destruct (Py.strip_prefix (a :: t) (x :: s ++ (a :: t) ++ rest)) eqn:Elong.
    + exfalso. apply first_byte_unique.
      cbn [Py.strip_prefix] in Ehead, Elong.
      destruct (Py.byte_eqb a x); [|discriminate].
      change (s ++ (a :: t) ++ rest) with (s ++ a :: (t ++ rest)) in Elong.
      now apply strip_prefix_overlap with s (t ++ rest) b.
    + now rewrite IH.
Qed.

End Unbordered.

Lemma sentinel_first_byte_unique :
  ~ In "<"%byte (encode ("END>" +++ nl)).
Proof.
  intros H. repeat (destruct H as [H | H]; [discriminate|]). exact H.
Qed.

(** A byte string without the sentinel, the sentinel, anything: the first
    sentinel is the one written. *)
Lemma split_once_sentinel_free (content rest : bytes) :
  Spec.sentinel_free content ->
  Py.split_once END_MARK (content ++ END_MARK ++ rest) = Some (content, rest).
Proof.
  exact (split_once_after_free "<"%byte (encode ("END>" +++ nl))
           sentinel_first_byte_unique content rest).
Qed.

(** ** Facts about the storage directory *)

Lemma lookup_put (name : str) (e : entry) (st : storage) :
  Storage.lookup name (Storage.put name e st) = Some e.
Proof.
  induction st as [|[k v] st IH]; simpl.
  - now rewrite String.eqb_refl.
  - destruct (String.eqb k name) eqn:E; simpl; rewrite E; [reflexivity|exact IH].
Qed.

Lemma put_put (name : str) (e1 e2 : entry) (st : storage) :
  Storage.put name e2 (Storage.put name e1 st) = Storage.put name e2 st.
Proof.
  induction st as [|[k v] st IH]; simpl.
  - now rewrite String.eqb_refl.
  - destruct (String.eqb k name) eqn:E; simpl; rewrite E; [reflexivity|].
    now rewrite IH.
Qed.

Lemma read_put (name : str) (content : bytes) (st : storage) :
  Storage.read name (Storage.put name (File content) st) = content.
Proof.
  unfold Storage.read. now rewrite lookup_put.
Qed.

Lemma append_append (name : str) (x y : bytes) (st : storage) :
  Storage.append name y (Storage.append name x st) = Storage.append name (x ++ y) st.
Proof.
  unfold Storage.append. rewrite read_put, put_put. now rewrite app_assoc.
Qed.

Lemma append_put (name : str) (x y : bytes) (st : storage) :
  Storage.append name y (Storage.put name (File x) st) = Storage.put name (File (x ++ y)) st.
Proof.
  unfold Storage.append. now rewrite read_put, put_put.
Qed.

(** ** Reads *)

Lemma next_arrival_one_read (n : nat) (c : bytes) (rest : list bytes) :
  one_read n c -> Socket.next_arrival (c :: rest) = (c, rest).
Proof.
  intros [Hne _]. destruct c; [contradiction|reflexivity].
Qed.

Lemma take_one_read (n : nat) (c : bytes) (rest : list bytes) :
  one_read n c -> Socket.take n (c :: rest) = (c, rest).
Proof.
  intros Hc. unfold Socket.take. rewrite (next_arrival_one_read n) by exact Hc.
  destruct Hc as [_ Hlen]. apply Nat.leb_le in Hlen. now rewrite Hlen.
Qed.

Lemma one_read_not_empty (n : nat) (c : bytes) :
  one_read n c -> Py.is_empty c = false.
Proof.
  intros [Hne _]. destruct c; [contradiction|reflexivity].
Qed.

Lemma read_one_read (n : nat) (c : bytes) (rest : list bytes)
  (st : storage) (sn : list bytes) (cl : bool) :
  one_read n c ->
  Stream.read n (mkWorld st (c :: rest) [] sn cl) = (Ok c, mkWorld st rest [] sn cl).
Proof.
  intros Hc. unfold Stream.read. cbn [rbuf inbound].
  rewrite (next_arrival_one_read n) by exact Hc.
  destruct Hc as [_ Hlen]. unfold Py.len in Hlen.
  unfold set_rbuf, set_inbound. cbn [fs inbound rbuf sent closed].
  now rewrite firstn_all2, skipn_all2 by exact Hlen.
Qed.

(** A read takes out of the stream what it returns. *)
Lemma next_arrival_pending (i : list bytes) :
  pending (snd (Socket.next_arrival i)) + Py.len (fst (Socket.next_arrival i)) = pending i.
Proof.
  induction i as [|c i IH]; [reflexivity|].
  cbn [Socket.next_arrival]. destruct c as [|x c]; cbn [Py.is_empty].
  - exact IH.
  - cbn [fst snd pending fold_right]. lia.
Qed.

Lemma take_pending (n : nat) (i : list bytes) :
  pending (snd (Socket.take n i)) + Py.len (fst (Socket.take n i)) = pending i.
Proof.
  unfold Socket.take. pose proof (next_arrival_pending i) as H.
  destruct (Socket.next_arrival i) as [c rest]. cbn [fst snd] in H.
  destruct (Py.len c <=? n) eqn:E; cbn [fst snd].
  - exact H.
  - apply Nat.leb_gt in E. unfold Py.len in *. cbn [pending fold_right].
    fold (pending rest). unfold Py.len.
    rewrite length_skipn, length_firstn. lia.
Qed.

Lemma pending_at_least (n : nat) (pre rest : list bytes) :
  Forall (fun p => one_read n p /\ Spec.sentinel_free p) pre ->
  List.length pre <= pending (pre ++ rest).
Proof.
  induction 1 as [|p pre [[Hne _] _] _ IH]; simpl; [lia|].
  destruct p; [contradiction|]. unfold Py.len. simpl. lia.
Qed.

(** ** Download *)

Section SendChunks.

Variable send : bytes -> M world unit.
Hypothesis send_pushes : forall data w, send data w = (Ok tt, push_sent data w).

Lemma send_chunks_frames (n : nat) :
  0 < n ->
  forall fuel rest w,
    Py.len rest < fuel ->
    Server.send_chunks fuel n send rest w = (Ok tt, push_all (chunks fuel n rest) w).
Proof.
  intros Hn. induction fuel as [|fuel IH]; intros rest w Hlt.
  - inversion Hlt.
  - cbn [Server.send_chunks chunks].
    destruct (Py.is_empty (firstn n rest)) eqn:E.
    + unfold ret. now rewrite push_all_nil.
    + unfold bind. rewrite send_pushes. rewrite IH.
      * now rewrite push_all_push_sent.
      * unfold Py.len in *. rewrite length_skipn.
        destruct rest; [destruct n; discriminate|].
        cbn [List.length] in *. lia.
Qed.

End SendChunks.

Lemma lookup_file_isfile (name : str) (content : bytes) (st : storage) :
  Storage.lookup name st = Some (File content) ->
  Storage.isfile name st = true /\ Storage.read name st = content.
Proof.
  intros H. unfold Storage.isfile, Storage.read. now rewrite H.
Qed.

(** The frames of a download, by both handlers. *)
Lemma get_file_frames (filename : str) (content : bytes) (w : world) :
  Storage.lookup filename (fs w) = Some (File content) ->
  Server._cmd_get_file filename w =
    (Ok tt,
     push_all ([encode ("READY " +++ Py.str_of_nat (Py.len content) +++ nl)]
               ++ chunks (S (Py.len content)) 4096 content ++ [END_MARK]) w)
  /\ Server._cmd_get_file_async filename w =
    (Ok tt,
     push_all ([encode ("READY " +++ Py.str_of_nat (Py.len content) +++ nl)]
               ++ chunks (S (Py.len content)) 4096 content ++ [END_MARK]) w).
Proof.
  intros Hfile.
  destruct (lookup_file_isfile _ _ _ Hfile) as [Hpresent Hread].
  assert (Hpos : 0 < 4096) by apply Nat.lt_0_succ.
  assert (Hsize : Storage.getsize filename (fs w) = Py.len content)
    by (unfold Storage.getsize; now rewrite Hread).
  split.
  - unfold Server._cmd_get_file, bind, Files.isfile, Files.getsize, Files.open_rb.
    rewrite Hfile, Hpresent. cbn [negb]. rewrite Hsize.
    unfold Socket.sendall at 1. cbn [fs push_sent]. rewrite Hread.
    rewrite (send_chunks_frames Socket.sendall (fun _ _ => eq_refl) 4096 Hpos)
      by apply Nat.lt_succ_diag_r.
    unfold Socket.sendall.
    rewrite push_sent_push_all, push_all_push_sent.
    reflexivity.
  - unfold Server._cmd_get_file_async, bind, Files.isfile, Files.getsize, Files.open_rb.
    rewrite Hfile, Hpresent. cbn [negb]. rewrite Hsize.
    unfold Stream.write at 1. cbn [fs push_sent]. rewrite Hread.
    rewrite (send_chunks_frames Stream.write (fun _ _ => eq_refl) 4096 Hpos)
      by apply Nat.lt_succ_diag_r.
    unfold Stream.write.
    rewrite push_sent_push_all, push_all_push_sent.
    reflexivity.
Qed.

(** C4. For a stored file of [n] bytes, GET FILE writes the line
    [READY <n>], then frames of at most 4096 bytes each that together are
    exactly the [n] bytes of the file, then the sentinel, in this order and
    nothing else; the handler returns normally and changes nothing besides.
    The threaded and the async handler agree. *)
Theorem get_file_sends_ready_payload_sentinel
  (filename : str) (content : bytes) (w : world) :
  Storage.lookup filename (fs w) = Some (File content) ->
  exists payload : list bytes,
    List.concat payload = content
    /\ Forall (fun c => 0 < Py.len c <= 4096) payload
    /\ Server._cmd_get_file filename w =
         (Ok tt,
          push_all ([encode ("READY " +++ Py.str_of_nat (Py.len content) +++ nl)]
                    ++ payload ++ [END_MARK]) w)
    /\ Server._cmd_get_file_async filename w =
         (Ok tt,
          push_all ([encode ("READY " +++ Py.str_of_nat (Py.len content) +++ nl)]
                    ++ payload ++ [END_MARK]) w).
Proof.
  intros Hfile.
  exists (chunks (S (Py.len content)) 4096 content).
  split; [apply chunks_concat; [apply Nat.lt_0_succ|apply Nat.lt_succ_diag_r]|].
  split; [apply chunks_bounded|].
  now apply get_file_frames.
Qed.

(** The download of the seven bytes [data123] stored as [up.txt]. *)
Lemma get_file_sends_ready_payload_sentinel_witness :
  Storage.lookup "up.txt" (fs (Scenario.accepted [("up.txt", File (encode "data123"))] []))
    = Some (File (encode "data123"))
  /\ exists payload : list bytes,
       List.concat payload = encode "data123"
       /\ Server._cmd_get_file "up.txt"
            (Scenario.accepted [("up.txt", File (encode "data123"))] [])
          = (Ok tt,
             push_all ([encode ("READY 7" +++ nl)] ++ payload ++ [END_MARK])
               (Scenario.accepted [("up.txt", File (encode "data123"))] [])).
Proof.
  split; [reflexivity|].
  destruct (get_file_sends_ready_payload_sentinel "up.txt" (encode "data123")
              (Scenario.accepted [("up.txt", File (encode "data123"))] [])
              eq_refl)
    as (payload & Hcat & _ & Hsync & _).
  exists payload. split; [exact Hcat|exact Hsync].
Defined.



(** ** Upload: the sentinel and the reads *)

(** The threaded loop over reads without a sentinel and one read that holds
    it: everything before that sentinel is written, the rest of the read is
    dropped. *)
Lemma load_loop_scan (n : nat) (name : str) (c content after : bytes) (more : list bytes) :
  one_read n c ->
  Py.split_once END_MARK c = Some (content, after) ->
  forall pre fuel st rb sn cl,
    Forall (fun p => one_read n p /\ Spec.sentinel_free p) pre ->
    List.length pre < fuel ->
    Server.load_loop fuel n name [] (mkWorld st (pre ++ c :: more) rb sn cl)
    = (Ok tt, mkWorld (Storage.append name (List.concat pre ++ content) st) more rb sn cl).
Proof.
  intros Hc Hsplit. induction pre as [|p pre IH]; intros fuel st rb sn cl Hpre Hfuel.
  - destruct fuel as [|fuel]; [inversion Hfuel|].
    cbn [Server.load_loop app List.concat].
    unfold bind, Socket.recv. cbn [inbound].
    rewrite take_one_read by exact Hc.
    rewrite (one_read_not_empty n) by exact Hc.
    rewrite Hsplit. reflexivity.
  - destruct fuel as [|fuel]; [inversion Hfuel|].
    inversion Hpre as [|? ? [Hp Hfree] Hpre']; subst.
    change ((p :: pre) ++ c :: more) with (p :: (pre ++ c :: more)).
    cbn [Server.load_loop].
    unfold bind at 1. unfold Socket.recv. cbn [inbound].
    rewrite take_one_read by exact Hp.
    rewrite (one_read_not_empty n) by exact Hp.
    cbn [app]. unfold Spec.sentinel_free in Hfree. rewrite Hfree.
    unfold bind, Files.write, set_inbound, set_fs.
    cbn [fs inbound rbuf sent closed].
    rewrite IH by (try exact Hpre'; cbn [List.length] in Hfuel; lia).
    rewrite append_append. cbn [List.concat]. now rewrite app_assoc.
Qed.

(** The same for the async loop, on an empty reader buffer. *)
Lemma load_loop_async_scan (n : nat) (name : str) (c content after : bytes)
  (more : list bytes) :
  one_read n c ->
  Py.split_once END_MARK c = Some (content, after) ->
  forall pre fuel st sn cl,
    Forall (fun p => one_read n p /\ Spec.sentinel_free p) pre ->
    List.length pre < fuel ->
    Server.load_loop_async fuel n name (mkWorld st (pre ++ c :: more) [] sn cl)
    = (Ok tt, mkWorld (Storage.append name (List.concat pre ++ content) st) more [] sn cl).
Proof.
  intros Hc Hsplit. induction pre as [|p pre IH]; intros fuel st sn cl Hpre Hfuel.
  - destruct fuel as [|fuel]; [inversion Hfuel|].
    cbn [Server.load_loop_async app List.concat].
    unfold bind. rewrite read_one_read by exact Hc.
    rewrite (one_read_not_empty n) by exact Hc.
    rewrite Hsplit. reflexivity.
  - destruct fuel as [|fuel]; [inversion Hfuel|].
    inversion Hpre as [|? ? [Hp Hfree] Hpre']; subst.
    change ((p :: pre) ++ c :: more) with (p :: (pre ++ c :: more)).
    cbn [Server.load_loop_async].
    unfold bind at 1. rewrite read_one_read by exact Hp.
    rewrite (one_read_not_empty n) by exact Hp.
    unfold Spec.sentinel_free in Hfree. rewrite Hfree.
    unfold bind, Files.write, set_fs.
    cbn [fs inbound rbuf sent closed].
    rewrite IH by (try exact Hpre'; cbn [List.length] in Hfuel; lia).
    rewrite append_append. cbn [List.concat]. now rewrite app_assoc.
Qed.

Lemma cmd_load_stores_reads (self : FileServer) (filename : str)
  (pre : list bytes) (c content after : bytes) (more : list bytes) (w : world) :
  Files.entry_name filename = true ->
  inbound w = pre ++ c :: more ->
  Forall (fun p => one_read 4096 p /\ Spec.sentinel_free p) pre ->
  one_read 4096 c ->
  Py.split_once END_MARK c = Some (content, after) ->
  Storage.lookup filename (fs w) <> Some Dir ->
  Server._cmd_load self filename w =
    (Ok tt,
     mkWorld (Storage.put filename (File (List.concat pre ++ content)) (fs w))
       more (rbuf w) (sent w ++ [encode ("READY" +++ nl)]) (closed w)).
Proof.
  intros Hname Hin Hpre Hc Hsplit Hdir.
  destruct w as [st i rb sn cl]. cbn [fs inbound rbuf sent closed] in *. subst i.
  assert (Hfuel : List.length pre < S (Py.len rb + pending (pre ++ c :: more)))
    by (pose proof (pending_at_least 4096 pre (c :: more) Hpre); lia).
  unfold Server._cmd_load, bind, Socket.sendall, try_except, Files.open_wb.
  rewrite Hname. cbn [negb].
  unfold with_fuel, fuel_of, set_fs, push_sent.
  cbn [fs inbound rbuf sent closed].
  destruct (Storage.lookup filename st) as [[content0|]|] eqn:E;
    try (exfalso; now apply Hdir).
  - rewrite (load_loop_scan 4096 filename c content after more Hc Hsplit)
      by assumption.
    now rewrite append_put.
  - rewrite (load_loop_scan 4096 filename c content after more Hc Hsplit)
      by assumption.
    now rewrite append_put.
Qed.

Lemma cmd_load_async_stores_reads (self : FileServer) (filename : str)
  (pre : list bytes) (c content after : bytes) (more : list bytes) (w : world) :
  Files.entry_name filename = true ->
  inbound w = pre ++ c :: more ->
  rbuf w = [] ->
  Forall (fun p => one_read 4096 p /\ Spec.sentinel_free p) pre ->
  one_read 4096 c ->
  Py.split_once END_MARK c = Some (content, after) ->
  Storage.lookup filename (fs w) <> Some Dir ->
  Server._cmd_load_async self filename w =
    (Ok tt,
     mkWorld (Storage.put filename (File (List.concat pre ++ content)) (fs w))
       more [] (sent w ++ [encode ("READY" +++ nl)]) (closed w)).
Proof.
  intros Hname Hin Hbuf Hpre Hc Hsplit Hdir.
  destruct w as [st i rb sn cl]. cbn [fs inbound rbuf sent closed] in *. subst i rb.
  assert (Hfuel : List.length pre < S (Py.len [] + pending (pre ++ c :: more)))
    by (pose proof (pending_at_least 4096 pre (c :: more) Hpre); lia).
  unfold Server._cmd_load_async, bind, Stream.write, try_except, Files.open_wb.
  rewrite Hname. cbn [negb].
  unfold with_fuel, fuel_of, set_fs, push_sent.
  cbn [fs inbound rbuf sent closed].
  destruct (Storage.lookup filename st) as [[content0|]|] eqn:E;
    try (exfalso; now apply Hdir).
  - rewrite (load_loop_async_scan 4096 filename c content after more Hc Hsplit)
      by assumption.
    now rewrite append_put.
  - rewrite (load_loop_async_scan 4096 filename c content after more Hc Hsplit)
      by assumption.
    now rewrite append_put.
Qed.

(** The async upload handler starts with what the reader has buffered: the
    bytes that arrived behind the LOAD line are the first bytes of the file. *)
Lemma cmd_load_async_reads_buffer_first (self : FileServer) (filename : str)
  (r : bytes) (pre : list bytes) (c content after : bytes) (more : list bytes)
  (w : world) :
  Files.entry_name filename = true ->
  rbuf w = r ->
  one_read 4096 r ->
  Spec.sentinel_free r ->
  inbound w = pre ++ c :: more ->
  Forall (fun p => one_read 4096 p /\ Spec.sentinel_free p) pre ->
  one_read 4096 c ->
  Py.split_once END_MARK c = Some (content, after) ->
  Storage.lookup filename (fs w) <> Some Dir ->
  Server._cmd_load_async self filename w =
    (Ok tt,
     mkWorld (Storage.put filename (File (r ++ List.concat pre ++ content)) (fs w))
       more [] (sent w ++ [encode ("READY" +++ nl)]) (closed w)).
Proof.
  intros Hname Hbuf Hr Hfree Hin Hpre Hc Hsplit Hdir.
  destruct w as [st i rb sn cl]. cbn [fs inbound rbuf sent closed] in *. subst i rb.
  assert (Hfuel : List.length pre < Py.len r + pending (pre ++ c :: more))
    by (pose proof (pending_at_least 4096 pre (c :: more) Hpre);
        destruct Hr as [Hne _]; destruct r; [contradiction|];
        unfold Py.len; cbn [List.length]; lia).
  assert (Hread : forall st0 sn0,
             Stream.read 4096 (mkWorld st0 (pre ++ c :: more) r sn0 cl)
             = (Ok r, mkWorld st0 (pre ++ c :: more) [] sn0 cl)).
  { intros st0 sn0. unfold Stream.read. cbn [rbuf inbound].
    destruct Hr as [Hne Hlen]. destruct r as [|x r]; [contradiction|].
    unfold set_rbuf, set_inbound. cbn [fs inbound rbuf sent closed].
    unfold Py.len in Hlen.
    now rewrite firstn_all2, skipn_all2 by exact Hlen. }
  unfold Server._cmd_load_async, bind, Stream.write, try_except, Files.open_wb.
  rewrite Hname. cbn [negb].
  unfold with_fuel, fuel_of, set_fs, push_sent.
  cbn [fs inbound rbuf sent closed].
  unfold Spec.sentinel_free in Hfree.
  destruct (Storage.lookup filename st) as [[content0|]|] eqn:E;
    try (exfalso; now apply Hdir).
  - cbn [Server.load_loop_async]. unfold bind at 1. rewrite Hread.
    rewrite (one_read_not_empty 4096) by exact Hr. rewrite Hfree.
    unfold bind, Files.write, set_fs. cbn [fs inbound rbuf sent closed].
    rewrite (load_loop_async_scan 4096 filename c content after more Hc Hsplit)
      by assumption.
    now rewrite append_append, append_put.
  - cbn [Server.load_loop_async]. unfold bind at 1. rewrite Hread.
    rewrite (one_read_not_empty 4096) by exact Hr. rewrite Hfree.
    unfold bind, Files.write, set_fs. cbn [fs inbound rbuf sent closed].
    rewrite (load_loop_async_scan 4096 filename c content after more Hc Hsplit)
      by assumption.
    now rewrite append_append, append_put.
Qed.

Lemma chunks_are_reads (n : nat) (fuel : nat) (content : bytes) :
  Spec.sentinel_free content ->
  Forall (fun p => one_read n p /\ Spec.sentinel_free p) (chunks fuel n content).
Proof.
  intros Hfree.
  pose proof (chunks_bounded fuel n content) as Hb.
  pose proof (chunks_pieces n fuel content) as Hp.
  rewrite Forall_forall in *. intros c Hc. split.
  - destruct (Hb c Hc) as [Hpos Hle]. split; [|exact Hle].
    intros ->. inversion Hpos.
  - destruct (Hp c Hc) as (x & z & Heq). subst content.
    now apply sentinel_free_piece with x z.
Qed.

Lemma reads_of_free_stream (n : nat) (pre : list bytes) (content : bytes) :
  Forall (one_read n) pre ->
  Spec.sentinel_free (List.concat pre ++ content) ->
  Forall (fun p => one_read n p /\ Spec.sentinel_free p) pre.
Proof.
  intros Hreads Hfree. rewrite Forall_forall in *. intros p Hp.
  split; [now apply Hreads|].
  destruct (in_split _ _ Hp) as (l1 & l2 & ->).
  rewrite concat_app in Hfree. cbn [List.concat] in Hfree.
  rewrite <- !app_assoc in Hfree.
  now apply sentinel_free_piece with (List.concat l1) (List.concat l2 ++ content).
Qed.

Lemma sentinel_is_one_read : one_read 4096 END_MARK.
Proof.
  split; [discriminate|]. apply Nat.leb_le. reflexivity.
Qed.

(** When the first sentinel of the stream lies within one read, both upload
    handlers store exactly the bytes before it, drop the sentinel and what
    follows it in that read, and return normally. *)
Theorem upload_truncates_at_sentinel_within_one_read
  (self : FileServer) (filename : str)
  (pre : list bytes) (c content after : bytes) (more : list bytes) (w : world) :
  Files.entry_name filename = true ->
  inbound w = pre ++ c :: more ->
  rbuf w = [] ->
  Forall (one_read 4096) pre ->
  one_read 4096 c ->
  Py.split_once END_MARK c = Some (content, after) ->
  Spec.sentinel_free (List.concat pre ++ content) ->
  Storage.lookup filename (fs w) <> Some Dir ->
  Py.split_once END_MARK (List.concat (pre ++ [c]))
    = Some (List.concat pre ++ content, after)
  /\ Server._cmd_load self filename w =
       (Ok tt,
        mkWorld (Storage.put filename (File (List.concat pre ++ content)) (fs w))
          more [] (sent w ++ [encode ("READY" +++ nl)]) (closed w))
  /\ Server._cmd_load_async self filename w =
       (Ok tt,
        mkWorld (Storage.put filename (File (List.concat pre ++ content)) (fs w))
          more [] (sent w ++ [encode ("READY" +++ nl)]) (closed w)).
Proof.
  intros Hname Hin Hbuf Hreads Hc Hsplit Hfree Hdir.
  pose proof (reads_of_free_stream 4096 pre content Hreads Hfree) as Hpre.
  split; [|split].
  - rewrite concat_app. cbn [List.concat]. rewrite app_nil_r.
    rewrite (split_once_sound END_MARK c content after Hsplit).
    rewrite app_assoc. now apply split_once_sentinel_free.
  - rewrite (cmd_load_stores_reads self filename pre c content after more w)
      by assumption.
    now rewrite Hbuf.
  - now apply cmd_load_async_stores_reads with c after.
Qed.

(** When every read of the server returns what one [sendall] of the client
    sent (the chunks of the file, then the sentinel), a file without the
    sentinel is stored as it is and GET FILE sends it back. *)
Theorem upload_then_download_when_reads_follow_sends
  (self : FileServer) (filename : str) (content : bytes) (more : list bytes)
  (w : world) :
  Files.entry_name filename = true ->
  Spec.sentinel_free content ->
  Storage.lookup filename (fs w) <> Some Dir ->
  inbound w = chunks (S (Py.len content)) 4096 content ++ END_MARK :: more ->
  exists w' payload,
    Server._cmd_load self filename w = (Ok tt, w')
    /\ Storage.lookup filename (fs w') = Some (File content)
    /\ List.concat payload = content
    /\ Server._cmd_get_file filename w' =
         (Ok tt,
          push_all ([encode ("READY " +++ Py.str_of_nat (Py.len content) +++ nl)]
                    ++ payload ++ [END_MARK]) w').
Proof.
  intros Hname Hfree Hdir Hin.
  assert (Hcat : List.concat (chunks (S (Py.len content)) 4096 content) = content)
    by (apply chunks_concat; [apply Nat.lt_0_succ|apply Nat.lt_succ_diag_r]).
  pose proof (cmd_load_stores_reads self filename
                (chunks (S (Py.len content)) 4096 content) END_MARK [] [] more w
                Hname Hin (chunks_are_reads 4096 _ content Hfree)
                sentinel_is_one_read eq_refl Hdir) as Hload.
  rewrite app_nil_r, Hcat in Hload.
  eexists. exists (chunks (S (Py.len content)) 4096 content).
  split; [exact Hload|].
  cbn [fs]. split; [apply lookup_put|]. split; [exact Hcat|].
  apply get_file_frames. cbn [fs]. apply lookup_put.
Qed.

(** *** The upload loops end *)

Lemma load_loop_ends (n : nat) (name : str) :
  forall fuel buffer w,
    pending (inbound w) < fuel ->
    fst (Server.load_loop fuel n name buffer w) <> Stuck.
Proof.
  induction fuel as [|fuel IH]; intros buffer w Hfuel; [inversion Hfuel|].
  cbn [Server.load_loop]. unfold bind at 1. unfold Socket.recv.
  pose proof (take_pending n (inbound w)) as Hp.
  destruct (Socket.take n (inbound w)) as [data rest]. cbn [fst snd] in Hp.
  destruct data as [|x data]; cbn [Py.is_empty].
  - discriminate.
  - destruct (Py.split_once END_MARK (buffer ++ x :: data)) as [[content after]|].
    + discriminate.
    + unfold bind, Files.write. apply IH.
      unfold set_fs, set_inbound. cbn [inbound].
      unfold Py.len in Hp. cbn [List.length] in Hp. lia.
Qed.

(** For an entry name, the threaded upload handler returns or raises on
    every stream. *)
Lemma cmd_load_ends (self : FileServer) (filename : str) (w : world) :
  Files.entry_name filename = true ->
  PyStr.is_ascii (Py.path_join (storage_dir self) filename) = true ->
  fst (Server._cmd_load self filename w) <> Stuck.
Proof.
  intros Hname Hpath.
  unfold Server._cmd_load, bind, Socket.sendall, try_except, Files.open_wb.
  rewrite Hname, Hpath. cbn [negb fs push_sent].
  destruct (Storage.lookup filename (fs w)) as [[content0|]|];
    try discriminate.
  - unfold with_fuel.
    match goal with
    | |- context [Server.load_loop ?f ?n ?nm ?b ?w'] =>
        pose proof (load_loop_ends n nm f b w') as H;
        destruct (Server.load_loop f n nm b w') as [[u|e|] w'']
    end; try discriminate.
    exfalso. apply H; [|reflexivity].
    unfold fuel_of, set_fs. cbn [inbound rbuf]. lia.
  - unfold with_fuel.
    match goal with
    | |- context [Server.load_loop ?f ?n ?nm ?b ?w'] =>
        pose proof (load_loop_ends n nm f b w') as H;
        destruct (Server.load_loop f n nm b w') as [[u|e|] w'']
    end; try discriminate.
    exfalso. apply H; [|reflexivity].
    unfold fuel_of, set_fs. cbn [inbound rbuf]. lia.
Qed.

Lemma try_except_rewraps {A} (m : M world A) (k : exn_kind) (w w' : world) (e : exn) :
  try_except m (fun e0 => raise (mkExn k (exn_str e0))) w = (Raise e, w') ->
  exn_class e = k.
Proof.
  unfold try_except, raise.
  destruct (m w) as [[a|e0|] w0]; intros H; inversion H; reflexivity.
Qed.

(** Whatever the threaded upload handler raises is an [ErrorDuringUpload]. *)
Lemma cmd_load_raises_upload_error (self : FileServer) (filename : str)
  (w w' : world) (e : exn) :
  Server._cmd_load self filename w = (Raise e, w') ->
  exn_class e = ErrorDuringUpload.
Proof.
  unfold Server._cmd_load, bind, Socket.sendall.
  intros H. now apply try_except_rewraps in H.
Qed.

(** *** Reads that end inside the sentinel *)

(** C6 is violated by the code when a read ends inside the sentinel.  The
    stream [x<END>\n] contains the sentinel after one byte; it arrives as
    [x<EN] and [D>\n].  Neither handler sees the sentinel: all seven bytes are
    written to the file and the handler fails once the peer has closed. *)
Theorem upload_misses_sentinel_split_across_reads :
  Py.split_once END_MARK (encode "x<EN" ++ encode ("D>" +++ nl)) = Some (encode "x", [])
  /\ Server._cmd_load Scenario.threaded "f"
       (Scenario.accepted [] [encode "x<EN"; encode ("D>" +++ nl)])
     = (Raise (mkExn ErrorDuringUpload "Connection lost during upload"),
        mkWorld [("f", File (encode ("x<END>" +++ nl)))] [] []
          [Scenario.line "READY"] false)
  /\ Server._cmd_load_async Scenario.async "f"
       (Scenario.accepted [] [encode "x<EN"; encode ("D>" +++ nl)])
     = (Raise (mkExn ErrorDuringUpload "Connection lost during upload"),
        mkWorld [("f", File (encode ("x<END>" +++ nl)))] [] []
          [Scenario.line "READY"] false).
Proof.
  repeat split; vm_compute; reflexivity.
Qed.

(** C1 is violated by the code for a file of 4094 bytes whose last chunk and
    sentinel reach the server together.  The client sends the command, the
    file and the sentinel; the first read of 4096 bytes ends two bytes into
    the sentinel, so the server stores the file followed by the sentinel and
    reports an upload error when the client has gone; GET FILE then serves
    4100 bytes. *)
Theorem roundtrip_lost_when_read_ends_inside_sentinel :
  Spec.sentinel_free Scenario.payload_4094
  /\ to_server
       (snd (FileClient.upload Scenario.stored_zip "/tmp/up.bin" false false
               (mkClient true [("/tmp/up.bin", File Scenario.payload_4094)]
                  [Scenario.line "READY"] [] [])))
     = [Scenario.line "LOAD up.bin "; Scenario.payload_4094; END_MARK]
  /\ Server.serve Scenario.threaded
       (Scenario.accepted []
          [Scenario.line "LOAD up.bin "; Scenario.payload_4094 ++ END_MARK])
     = (Ok tt,
        mkWorld [("up.bin", File (Scenario.payload_4094 ++ END_MARK))] [] []
          [Scenario.line "READY";
           Scenario.line "ERROR ErrorDuringUpload Connection lost during upload"]
          true)
  /\ sent (snd (Server._cmd_get_file "up.bin"
                  (Scenario.accepted
                     [("up.bin", File (Scenario.payload_4094 ++ END_MARK))] [])))
     = [Scenario.line "READY 4100";
        Scenario.payload_4094 ++ encode "<E"; encode ("ND>" +++ nl); END_MARK].
Proof.
  repeat split; vm_compute; reflexivity.
Qed.

(** ** Listing *)

Lemma filter_all {A} (f : A -> bool) (l : list A) :
  (forall x, f x = true) -> filter f l = l.
Proof.
  intros Hf. induction l as [|x l IH]; simpl; [reflexivity|].
  now rewrite Hf, IH.
Qed.

Lemma dot_star_matches_everything (s : str) :
  Re.match_ (Re.mkRegex [Re.AnyStar] false) s = true.
Proof.
  destruct s; reflexivity.
Qed.

Lemma upper_ALL_up_to_case (pattern : str) :
  Spec.ALL_up_to_case pattern -> Py.upper pattern = "ALL".
Proof.
  intros (a & l1 & l2 & -> & [-> | ->] & [-> | ->] & [-> | ->]); reflexivity.
Qed.

Lemma is_ascii_ALL_up_to_case (pattern : str) :
  Spec.ALL_up_to_case pattern -> PyStr.is_ascii pattern = true.
Proof.
  intros (a & l1 & l2 & -> & [-> | ->] & [-> | ->] & [-> | ->]); reflexivity.
Qed.

(** C10. The ALL check of the listing handlers ignores letter case: for a
    pattern that is the word ALL in any letter case, GET FILES answers with
    every entry of the storage directory, newline-joined, whatever the
    ASCII names of the entries are; the pattern is never used as a glob.
    The threaded and the async handler agree. *)
Theorem get_files_ALL_is_case_insensitive (pattern : str) (w : world) :
  Spec.ALL_up_to_case pattern ->
  forallb PyStr.is_ascii (Storage.listdir (fs w)) = true ->
  Server._cmd_get_files pattern w =
    (Ok tt, push_all [encode (Py.join nl (Storage.listdir (fs w)) +++ nl)] w)
  /\ Server._cmd_get_files_async pattern w =
    (Ok tt, push_all [encode (Py.join nl (Storage.listdir (fs w)) +++ nl)] w).
Proof.
  intros Hall Hnames.
  pose proof (is_ascii_ALL_up_to_case pattern Hall) as Hpattern.
  apply upper_ALL_up_to_case in Hall.
  unfold Server._cmd_get_files, Server._cmd_get_files_async, Server.listing_regex.
  rewrite Hall. cbn [String.eqb Ascii.eqb Bool.eqb Re.compile Re.parse].
  change (Re.compile ".*") with (Some (Re.mkRegex [Re.AnyStar] false)).
  unfold bind, Files.listdir. rewrite Hpattern, Hnames. cbn [andb negb].
  rewrite (filter_all _ _ dot_star_matches_everything).
  split; reflexivity.
Qed.

(** GET FILES [All] over a storage that holds a file named [all]. *)
Lemma get_files_ALL_is_case_insensitive_witness :
  Spec.ALL_up_to_case "All"
  /\ Server._cmd_get_files "All"
       (Scenario.accepted [("all", File []); ("b.txt", File [])] []) =
     (Ok tt,
      push_all [encode ("all" +++ nl +++ "b.txt" +++ nl)]
        (Scenario.accepted [("all", File []); ("b.txt", File [])] [])).
Proof.
  assert (H : Spec.ALL_up_to_case "All").
  { exists "A"%char, "l"%char, "l"%char. repeat split; auto. }
  split; [exact H|].
  exact (proj1 (get_files_ALL_is_case_insensitive "All"
                  (Scenario.accepted [("all", File []); ("b.txt", File [])] [])
                  H eq_refl)).
Defined.

(** *** Patterns *)

(** The pattern [all] is other than [ALL], and by the check above the
    handler lists every name for it, also [b.txt], which the glob [all] does
    not match. *)
Lemma lowercase_all_lists_every_name :
  "all" <> "ALL"
  /\ Server._cmd_get_files "all"
       (Scenario.accepted [("all", File []); ("b.txt", File [])] [])
     = (Ok tt,
        push_all [encode ("all" +++ nl +++ "b.txt" +++ nl)]
          (Scenario.accepted [("all", File []); ("b.txt", File [])] []))
  /\ Spec.glob_match "all" "b.txt" = false.
Proof.
  split; [discriminate|]. split; reflexivity.
Qed.

(** C5 is violated by the code.  The handlers turn the pattern into the
    regular expression [^] + pattern with [*] replaced by [.*] + [$] and do
    not escape the other characters, so the dot of [*.log], a literal
    character of the glob, stands for any character: over a storage that
    holds the one name alog, GET FILES [*.log] answers alog in both
    runtimes, a name the glob [*.log] does not match. *)
Theorem listing_pattern_dot_matches_any_character :
  Py.upper "*.log" <> "ALL"
  /\ Server._cmd_get_files "*.log" (Scenario.accepted [("alog", File [])] [])
     = (Ok tt,
        push_all [Scenario.line "alog"] (Scenario.accepted [("alog", File [])] []))
  /\ Server._cmd_get_files_async "*.log" (Scenario.accepted [("alog", File [])] [])
     = (Ok tt,
        push_all [Scenario.line "alog"] (Scenario.accepted [("alog", File [])] []))
  /\ Spec.glob_match "*.log" "alog" = false.
Proof.
  split; [discriminate|]. repeat split; vm_compute; reflexivity.
Qed.

Lemma cons_item_parse (i : Re.item) (s : str) (its : list Re.item) (d : bool) :
  Re.parse s = Some (Re.mkRegex its d) ->
  match Re.parse s with
  | Some (Re.mkRegex its' d') => Some (Re.mkRegex (i :: its') d')
  | None => None
  end = Some (Re.mkRegex (i :: its) d).
Proof.
  intros ->. reflexivity.
Qed.

(** What the translated pattern starts with is never a star. *)
Lemma replace_star_head (p : str) :
  exists c s, Py.replace_star p +++ "$" = String c s /\ Ascii.eqb c "*" = false.
Proof.
  destruct p as [|c p]; simpl.
  - now exists "$"%char, EmptyString.
  - destruct (Ascii.eqb c "*") eqn:E; simpl.
    + now eexists _, _.
    + now eexists _, _.
Qed.

Lemma plain_cons (c : ascii) (p : str) :
  Spec.plain (String c p) = true ->
  Ascii.eqb c "^" = false /\ Ascii.eqb c "$" = false
  /\ Re.is_special c = false /\ Spec.plain p = true.
Proof.
  simpl. intros H. apply andb_true_iff in H as [H Hp].
  apply negb_true_iff in H.
  apply orb_false_iff in H as [H Hs]. apply orb_false_iff in H as [H1 H2].
  auto.
Qed.

Lemma parse_translated_pattern (p : str) :
  Spec.plain p = true ->
  Re.parse (Py.replace_star p +++ "$") = Some (Re.mkRegex (Spec.items_of p) true).
Proof.
  induction p as [|c p IH]; intros Hplain.
  - reflexivity.
  - apply plain_cons in Hplain as (Hcaret & Hdollar & Hspecial & Hp).
    specialize (IH Hp).
    cbn [Py.replace_star Spec.items_of].
    destruct (Ascii.eqb c "*") eqn:Estar.
    + cbn [String.append Re.parse Ascii.eqb Bool.eqb].
      now apply cons_item_parse.
    + cbn [String.append Re.parse].
      destruct (Ascii.eqb c ".") eqn:Edot.
      * destruct (replace_star_head p) as (c' & s' & Hhead & Hc').
        rewrite Hhead in *. rewrite Hc'.
        now apply cons_item_parse.
      * rewrite Hdollar, Estar, Hcaret, Hspecial. cbn [orb].
        now apply cons_item_parse.
Qed.

Lemma at_end_no_newline (s : str) :
  Spec.no_newline s = true -> Re.at_end s = Py.str_is_empty s.
Proof.
  destruct s as [|c [|c' s]]; simpl; try reflexivity.
  intros H. apply andb_true_iff in H as [H _].
  now apply negb_true_iff in H.
Qed.

Lemma match_items_wild (p : str) :
  forall s, Spec.no_newline s = true ->
            Re.match_items true (Spec.items_of p) s = Spec.wild_match p s.
Proof.
  induction p as [|c p IH]; intros s Hs.
  - simpl. now apply at_end_no_newline.
  - cbn [Spec.items_of Spec.wild_match].
    destruct (Ascii.eqb c "*") eqn:Estar.
    + induction s as [|x s IHs].
      * simpl. now rewrite IH.
      * simpl in Hs. apply andb_true_iff in Hs as [Hx Hs].
        cbn [Re.match_items] in *. rewrite IH by (simpl; now rewrite Hx, Hs).
        rewrite Hx. cbn [andb]. f_equal. now apply IHs.
    + destruct (Ascii.eqb c ".") eqn:Edot.
      * destruct s as [|x s]; [reflexivity|].
        simpl in Hs. apply andb_true_iff in Hs as [Hx Hs].
        cbn [Re.match_items]. rewrite Hx. cbn [andb orb]. now apply IH.
      * destruct s as [|x s]; [reflexivity|].
        simpl in Hs. apply andb_true_iff in Hs as [Hx Hs].
        cbn [Re.match_items orb]. f_equal. now apply IH.
Qed.

Lemma wild_match_dot_free (p : str) :
  Spec.dot_free p = true -> forall s, Spec.wild_match p s = Spec.glob_match p s.
Proof.
  induction p as [|c p IH]; intros Hp s.
  - reflexivity.
  - simpl in Hp. apply andb_true_iff in Hp as [Hc Hp].
    apply negb_true_iff in Hc.
    cbn [Spec.wild_match Spec.glob_match].
    destruct (Ascii.eqb c "*").
    + induction s as [|x s IHs]; simpl; rewrite IH by exact Hp; [reflexivity|].
      f_equal. exact IHs.
    + destruct s as [|x s]; [reflexivity|].
      rewrite Hc. cbn [orb]. f_equal. now apply IH.
Qed.

Lemma listing_regex_of_plain (pattern : str) :
  Py.upper pattern <> "ALL" ->
  Spec.plain pattern = true ->
  Server.listing_regex pattern = Some (Re.mkRegex (Spec.items_of pattern) true).
Proof.
  intros Hall Hplain. apply String.eqb_neq in Hall.
  unfold Server.listing_regex. rewrite Hall.
  change (Re.compile ("^" +++ Py.replace_star pattern +++ "$"))
    with (Re.parse (Py.replace_star pattern +++ "$")).
  now apply parse_translated_pattern.
Qed.

(** What the handlers compute on a pattern of [*], [.] and literal
    characters: [*] stands for any run of characters, [.] for any one. *)
Lemma listing_pattern_wild (pattern name : str) :
  Py.upper pattern <> "ALL" ->
  Spec.plain pattern = true ->
  Spec.no_newline name = true ->
  exists regex,
    Server.listing_regex pattern = Some regex
    /\ Re.match_ regex name = Spec.wild_match pattern name.
Proof.
  intros Hall Hplain Hname.
  exists (Re.mkRegex (Spec.items_of pattern) true).
  split; [now apply listing_regex_of_plain|].
  unfold Re.match_. cbn [Re.dollar Re.items]. now apply match_items_wild.
Qed.

(** For a pattern that is not the word ALL in any letter case and has none
    of the characters [. ^ $ + ? { } [ ] \ | ( )], the listing handlers
    answer with the names the pattern matches as a glob, in which [*] is the
    only wildcard, every other character stands for itself and the whole
    name must be matched; the names are in the order of the directory.
    Pattern and names are ASCII, the names without a newline. *)
Theorem listing_pattern_matches_whole_name (pattern : str) (w : world) :
  Py.upper pattern <> "ALL" ->
  Spec.plain pattern = true ->
  Spec.dot_free pattern = true ->
  PyStr.is_ascii pattern = true ->
  forallb PyStr.is_ascii (Storage.listdir (fs w)) = true ->
  forallb Spec.no_newline (Storage.listdir (fs w)) = true ->
  Server._cmd_get_files pattern w =
    (Ok tt,
     push_all [encode (Py.join nl (filter (Spec.glob_match pattern)
                                     (Storage.listdir (fs w))) +++ nl)] w)
  /\ Server._cmd_get_files_async pattern w =
    (Ok tt,
     push_all [encode (Py.join nl (filter (Spec.glob_match pattern)
                                     (Storage.listdir (fs w))) +++ nl)] w).
Proof.
  intros Hall Hplain Hdot Hpattern Hascii Hnames.
  unfold Server._cmd_get_files, Server._cmd_get_files_async.
  rewrite (listing_regex_of_plain pattern Hall Hplain).
  unfold bind, Files.listdir. rewrite Hpattern, Hascii. cbn [andb negb].
  assert (Hfilter : filter (Re.match_ (Re.mkRegex (Spec.items_of pattern) true))
                      (Storage.listdir (fs w))
                    = filter (Spec.glob_match pattern) (Storage.listdir (fs w))).
  { apply filter_ext_in. intros name Hin.
    rewrite forallb_forall in Hnames.
    unfold Re.match_. cbn [Re.dollar Re.items].
    rewrite match_items_wild by now apply Hnames.
    now apply wild_match_dot_free. }
  rewrite Hfilter. split; reflexivity.
Qed.

(** The pattern [report-*] over four names. *)
Lemma listing_pattern_matches_whole_name_witness :
  Server._cmd_get_files "report-*"
    (Scenario.accepted
       [("report-2024", File []); ("old-report-1", File []);
        ("report-", File []); ("reports", File [])] [])
  = (Ok tt,
     push_all [encode ("report-2024" +++ nl +++ "report-" +++ nl)]
       (Scenario.accepted
          [("report-2024", File []); ("old-report-1", File []);
           ("report-", File []); ("reports", File [])] [])).
Proof.
  refine (proj1 (listing_pattern_matches_whole_name "report-*"
                   (Scenario.accepted
                      [("report-2024", File []); ("old-report-1", File []);
                       ("report-", File []); ("reports", File [])] [])
                   _ eq_refl eq_refl eq_refl eq_refl eq_refl)).
  discriminate.
Defined.

(** ** Dispatch *)

Lemma report_returns (e : exn) (w : world) :
  fst (Server.report e w) = Ok tt.
Proof.
  unfold Server.report. destruct (exn_class e); reflexivity.
Qed.

(** No exception leaves the threaded dispatcher. *)
Lemma dispatch_command_never_raises (self : FileServer) (line : str) (w : world) (e : exn) :
  fst (Server._dispatch_command self line w) <> Raise e.
Proof.
  unfold Server._dispatch_command.
  destruct (Py.split line) as [|p0 rest]; [discriminate|].
  cbv zeta. unfold try_except.
  match goal with
  | |- context [match ?m w with _ => _ end] => destruct (m w) as [[u|e0|] w0]
  end; try discriminate.
  rewrite report_returns. discriminate.
Qed.

(** The threaded dispatcher turns a failed upload into an error frame and
    returns normally: the connection loop goes on with the next line. *)
Lemma dispatch_command_reports_upload_error
  (self : FileServer) (line p0 filename : str) (rest : list str)
  (w w' : world) (e : exn) :
  Py.split line = p0 :: filename :: rest ->
  Py.upper p0 = "LOAD" ->
  Server._cmd_load self filename w = (Raise e, w') ->
  Server._dispatch_command self line w =
    (Ok tt, push_all [encode ("ERROR ErrorDuringUpload " +++ exn_str e +++ nl)] w').
Proof.
  intros Hsplit Hverb Hload.
  pose proof (cmd_load_raises_upload_error self filename w w' e Hload) as Hclass.
  unfold Server._dispatch_command. rewrite Hsplit. cbv zeta. rewrite Hverb.
  cbn [String.eqb Ascii.eqb Bool.eqb].
  unfold try_except, bind, Server.index. cbn [nth_error ret].
  rewrite Hload. unfold Server.report. rewrite Hclass. reflexivity.
Qed.



(** The inner loop of the threaded connection handler goes on with the rest
    of its buffer after every ASCII line, whatever the handler of that line
    did. *)
Lemma threaded_loop_goes_on (self : FileServer) (fuel : nat)
  (buffer line rest : bytes) (w : world) :
  Py.split_once (encode nl) buffer = Some (line, rest) ->
  PyStr.is_ascii (decode line) = true ->
  fst (Server._dispatch_command self (Py.strip (decode line)) w) <> Stuck ->
  exists w',
    Server._dispatch_command self (Py.strip (decode line)) w = (Ok tt, w')
    /\ Server.dispatch_lines self (S fuel) buffer w
       = Server.dispatch_lines self fuel rest w'.
Proof.
  intros Hline Hascii Hends.
  pose proof (dispatch_command_never_raises self (Py.strip (decode line)) w) as Hcatch.
  cbn [Server.dispatch_lines]. rewrite Hline, Hascii. cbn [negb]. unfold bind.
  destruct (Server._dispatch_command self (Py.strip (decode line)) w)
    as [[[]|e|] w'] eqn:E.
  - exists w'. split; reflexivity.
  - exfalso. now apply (Hcatch e).
  - exfalso. now apply Hends.
Qed.

(** *** Lines that are no command *)

(** C7 is violated by the async runtime.  For a GET line of three words
    whose subcommand is neither FILE nor FILES the async dispatcher has no
    branch: it returns without writing any frame, where the threaded
    dispatcher answers [ERROR Unknown GET subcommand].  For a LOAD line
    without a name the async dispatcher raises the [IndexError] of
    [parts[1]] and writes nothing, where the threaded dispatcher answers
    with an error frame. *)
Theorem async_dispatcher_leaves_malformed_lines_unanswered :
  Server._dispatch_command_async Scenario.async "GET SIZE one.log"
    (Scenario.accepted Scenario.logs [])
  = (Ok tt, Scenario.accepted Scenario.logs [])
  /\ Server._dispatch_command Scenario.threaded "GET SIZE one.log"
       (Scenario.accepted Scenario.logs [])
     = (Ok tt,
        push_all [Scenario.line "ERROR Unknown GET subcommand"]
          (Scenario.accepted Scenario.logs []))
  /\ Server._dispatch_command_async Scenario.async "LOAD"
       (Scenario.accepted Scenario.logs [])
     = (Raise (mkExn IndexError "list index out of range"),
        Scenario.accepted Scenario.logs [])
  /\ Server._dispatch_command Scenario.threaded "LOAD"
       (Scenario.accepted Scenario.logs [])
     = (Ok tt,
        push_all [Scenario.line "ERROR list index out of range"]
          (Scenario.accepted Scenario.logs [])).
Proof.
  repeat split; vm_compute; reflexivity.
Qed.

(** The threaded dispatcher drops a blank line without writing any frame. *)
Lemma blank_line_gets_no_reply :
  Py.split "" = []
  /\ Server._dispatch_command Scenario.threaded "" (Scenario.accepted [] [])
     = (Ok tt, Scenario.accepted [] []).
Proof.
  split; reflexivity.
Qed.

(** What the dispatchers answer to an ASCII line that is no command.  A
    line whose first word, in upper case, is neither LOAD nor GET, or is GET
    with fewer than three words, is answered with [ERROR Unknown command] by
    both dispatchers.  A GET line of three words or more whose second word
    is neither FILE nor FILES is answered with [ERROR Unknown GET
    subcommand] by the threaded dispatcher.  A blank line is dropped without
    a reply by the threaded dispatcher and answered with [ERROR Unknown
    command] by the async one.  In each case the dispatcher returns normally
    and changes nothing else. *)
Theorem dispatch_unknown_command (self : FileServer) (line : str) (w : world) :
  PyStr.is_ascii line = true ->
  (forall p0 rest,
      Py.split line = p0 :: rest ->
      Py.upper p0 <> "LOAD" ->
      Py.upper p0 <> "GET" \/ List.length (p0 :: rest) < 3 ->
      Server._dispatch_command self line w =
        (Ok tt, push_all [encode ("ERROR Unknown command" +++ nl)] w)
      /\ Server._dispatch_command_async self line w =
        (Ok tt, push_all [encode ("ERROR Unknown command" +++ nl)] w))
  /\ (forall p0 p1 p2 rest,
      Py.split line = p0 :: p1 :: p2 :: rest ->
      Py.upper p0 = "GET" ->
      Py.upper p1 <> "FILE" ->
      Py.upper p1 <> "FILES" ->
      Server._dispatch_command self line w =
        (Ok tt, push_all [encode ("ERROR Unknown GET subcommand" +++ nl)] w))
  /\ (Py.split line = [] ->
      Server._dispatch_command self line w = (Ok tt, w)
      /\ Server._dispatch_command_async self line w =
        (Ok tt, push_all [encode ("ERROR Unknown command" +++ nl)] w)).
Proof.
  intros _. split; [|split].
  - intros p0 rest Hsplit Hload Hget.
    apply String.eqb_neq in Hload.
    assert (Hguard : String.eqb (Py.upper p0) "GET" && (3 <=? List.length (p0 :: rest))
                     = false).
    { destruct Hget as [Hget | Hlen].
      - apply String.eqb_neq in Hget. now rewrite Hget.
      - apply Nat.leb_gt in Hlen. rewrite Hlen. apply andb_false_r. }
    unfold Server._dispatch_command, Server._dispatch_command_async.
    rewrite Hsplit. cbv zeta. rewrite Hload, Hguard.
    split; reflexivity.
  - intros p0 p1 p2 rest Hsplit Hget Hfile Hfiles.
    apply String.eqb_neq in Hfile. apply String.eqb_neq in Hfiles.
    unfold Server._dispatch_command.
    rewrite Hsplit. cbv zeta. rewrite Hget.
    cbn [String.eqb Ascii.eqb Bool.eqb andb List.length Nat.leb].
    unfold try_except, bind, Server.index. cbn [nth_error ret].
    rewrite Hfile, Hfiles. reflexivity.
  - intros Hsplit.
    unfold Server._dispatch_command, Server._dispatch_command_async.
    rewrite Hsplit. split; reflexivity.
Qed.

(** The line [PUT notes.txt] in both runtimes. *)
Lemma dispatch_unknown_command_witness :
  Py.split "PUT notes.txt" = ["PUT"; "notes.txt"]
  /\ Server._dispatch_command Scenario.threaded "PUT notes.txt"
       (Scenario.accepted [] [])
     = (Ok tt,
        push_all [encode ("ERROR Unknown command" +++ nl)] (Scenario.accepted [] []))
  /\ Server._dispatch_command_async Scenario.async "PUT notes.txt"
       (Scenario.accepted [] [])
     = (Ok tt,
        push_all [encode ("ERROR Unknown command" +++ nl)] (Scenario.accepted [] [])).
Proof.
  split; [reflexivity|].
  split.
  - refine (proj1 (proj1 (dispatch_unknown_command Scenario.threaded "PUT notes.txt"
                            (Scenario.accepted [] []) eq_refl)
                     "PUT" ["notes.txt"] eq_refl _ _)).
    + discriminate.
    + left. discriminate.
  - refine (proj2 (proj1 (dispatch_unknown_command Scenario.async "PUT notes.txt"
                            (Scenario.accepted [] []) eq_refl)
                     "PUT" ["notes.txt"] eq_refl _ _)).
    + discriminate.
    + left. discriminate.
Defined.

(** *** Handler failures and the connection *)

(** C2 is violated by the async runtime.  The storage holds a directory [d];
    the peer sends [LOAD d] and then [GET FILES ALL].  Opening [d] for
    writing fails, the upload handler raises [ErrorDuringUpload].  The async
    dispatcher lets it through: no error frame is written, the connection is
    closed and the second command is never read.  The threaded dispatcher
    writes the error frame and the loop goes on to answer the listing.  The
    same happens when the peer closes its side before the sentinel: the
    threaded runtime writes the error frame, the async one does not. *)
Theorem async_dispatcher_lets_handler_error_close_connection :
  Server._dispatch_command_async Scenario.async "LOAD d"
    (Scenario.accepted [("d", Dir)] [Scenario.line "GET FILES ALL"])
  = (Raise (mkExn ErrorDuringUpload "[Errno 21] Is a directory: '/srv/database/d'"),
     mkWorld [("d", Dir)] [Scenario.line "GET FILES ALL"] []
       [Scenario.line "READY"] false)
  /\ Server.serve Scenario.async
       (Scenario.accepted [("d", Dir)]
          [Scenario.line "LOAD d"; Scenario.line "GET FILES ALL"])
     = (Ok tt,
        mkWorld [("d", Dir)] [Scenario.line "GET FILES ALL"] []
          [Scenario.line "READY"] true)
  /\ Server.serve Scenario.threaded
       (Scenario.accepted [("d", Dir)]
          [Scenario.line "LOAD d"; Scenario.line "GET FILES ALL"])
     = (Ok tt,
        mkWorld [("d", Dir)] [] []
          [Scenario.line "READY";
           Scenario.line
             "ERROR ErrorDuringUpload [Errno 21] Is a directory: '/srv/database/d'";
           Scenario.line "d"]
          true)
  /\ Server.serve Scenario.async
       (Scenario.accepted [] [Scenario.line "LOAD f"; encode "half"])
     = (Ok tt,
        mkWorld [("f", File (encode "half"))] [] [] [Scenario.line "READY"] true)
  /\ Server.serve Scenario.threaded
       (Scenario.accepted [] [Scenario.line "LOAD f"; encode "half"])
     = (Ok tt,
        mkWorld [("f", File (encode "half"))] [] []
          [Scenario.line "READY";
           Scenario.line "ERROR ErrorDuringUpload Connection lost during upload"]
          true).
Proof.
  repeat split; vm_compute; reflexivity.
Qed.

(** *** Lines between LOAD and the sentinel *)

(** C3 is violated by the threaded runtime.  One read delivers [LOAD f] and
    the line [GET FILE x] behind it; the sentinel arrives next.  The line is
    already in the buffer of the connection loop, the upload handler reads
    the socket and never sees it: the file is stored empty and the line is
    dispatched as a command when the handler returns.  The async runtime, on
    the same bytes, stores the line as the content of the file. *)
Theorem threaded_dispatches_line_read_with_LOAD :
  Server.serve Scenario.threaded
    (Scenario.accepted []
       [encode ("LOAD f" +++ nl +++ "GET FILE x" +++ nl); Scenario.line "<END>"])
  = (Ok tt,
     mkWorld [("f", File [])] [] []
       [Scenario.line "READY"; Scenario.line "ERROR FileNotFound x"] true)
  /\ Server.serve Scenario.async
       (Scenario.accepted []
          [encode ("LOAD f" +++ nl +++ "GET FILE x" +++ nl); Scenario.line "<END>"])
     = (Ok tt,
        mkWorld [("f", File (Scenario.line "GET FILE x"))] [] []
          [Scenario.line "READY"] true).
Proof.
  repeat split; vm_compute; reflexivity.
Qed.

(** ** The client's upload *)

(** C9 fails as stated: the server answers the LOAD command with an error
    line, and [upload] returns normally to its caller, having sent the
    command line only. *)
Lemma upload_refused_is_not_reported :
  Py.strip (decode (Scenario.line "ERROR busy")) <> "READY"
  /\ FileClient.upload Scenario.stored_zip "/tmp/up.txt" false false
       (mkClient true [("/tmp/up.txt", File (encode "data123"))]
          [Scenario.line "ERROR busy"] [] [])
     = (Ok tt,
        mkClient true [("/tmp/up.txt", File (encode "data123"))]
          [] [Scenario.line "LOAD up.txt "] []).
Proof.
  split; [discriminate|reflexivity].
Qed.

(** C9, as the code has it.  When the first read after the LOAD command is
    ASCII text that, stripped of surrounding whitespace, is anything but
    [READY], [upload] returns to its caller normally (no exception is
    raised), and only the command line has been sent: no byte of the file,
    no sentinel, and the progress callback has not been called.  With
    compression, the archive could be written: no directory stands at
    [<path>.zip]. *)
Theorem upload_not_ready_returns_without_streaming
  (zip_archive : str -> bytes -> bytes)
  (file_name : str) (compress progress_cb : bool) (c : client) :
  connected c = true ->
  Storage.isfile file_name (local_fs c) = true ->
  (compress = true ->
   Storage.lookup (file_name +++ ".zip") (local_fs c) <> Some Dir) ->
  PyStr.is_ascii (decode (fst (Socket.take 1024 (from_server c)))) = true ->
  Py.strip (decode (fst (Socket.take 1024 (from_server c)))) <> "READY" ->
  let label := Py.basename (if compress then file_name +++ ".zip" else file_name) in
  let command := "LOAD " +++ label +++ " " +++ (if compress then "COMPRESSED" else "") +++ nl in
  fst (FileClient.upload zip_archive file_name compress progress_cb c) = Ok tt
  /\ to_server (snd (FileClient.upload zip_archive file_name compress progress_cb c))
     = to_server c ++ [encode command]
  /\ progress (snd (FileClient.upload zip_archive file_name compress progress_cb c))
     = progress c.
Proof.
  intros Hconn Hfile Hzip Hascii Hresp label command.
  apply String.eqb_neq in Hresp.
  destruct (Socket.take 1024 (from_server c)) as [data rest] eqn:E.
  cbn [fst] in Hresp, Hascii.
  assert (Hrun : exists files,
             FileClient.upload zip_archive file_name compress progress_cb c
             = (Ok tt, mkClient (connected c) files rest
                         (to_server c ++ [encode command]) (progress c))).
  { unfold FileClient.upload, bind, FileClient.is_connected, FileClient.isfile.
    rewrite Hconn. cbn beta iota delta [negb]. rewrite Hfile.
    cbn beta iota delta [negb].
    destruct compress.
    - unfold FileClient.compress_file, bind, FileClient.open_rb, FileClient.write_file, ret.
      specialize (Hzip eq_refl).
      destruct (Storage.lookup (file_name +++ ".zip") (local_fs c)) as [[old|]|];
        try (exfalso; now apply Hzip);
        unfold try_except, bind, FileClient.sendall, FileClient.recv;
        cbn beta iota delta [from_server to_server local_fs connected progress];
        rewrite E, Hascii; cbn beta iota delta [negb]; rewrite Hresp;
        cbn beta iota delta [negb];
        rewrite Hconn; eexists; reflexivity.
    - unfold ret.
      unfold try_except, bind, FileClient.sendall, FileClient.recv.
      cbn beta iota delta [from_server to_server local_fs connected progress].
      rewrite E, Hascii. cbn beta iota delta [negb]. rewrite Hresp.
      cbn beta iota delta [negb].
      rewrite Hconn. eexists. reflexivity. }
  destruct Hrun as [files ->]. repeat split.
Qed.

(** A compressed upload that the server answers with [ERROR busy]. *)
Lemma upload_not_ready_returns_without_streaming_witness :
  Py.strip (decode (Scenario.line "ERROR busy")) <> "READY"
  /\ fst (FileClient.upload Scenario.stored_zip "/tmp/up.txt" true true
            (mkClient true [("/tmp/up.txt", File (encode "data123"))]
               [Scenario.line "ERROR busy"] [] []))
     = Ok tt
  /\ to_server (snd (FileClient.upload Scenario.stored_zip "/tmp/up.txt" true true
                       (mkClient true [("/tmp/up.txt", File (encode "data123"))]
                          [Scenario.line "ERROR busy"] [] [])))
     = [Scenario.line "LOAD up.txt.zip COMPRESSED"].
Proof.
  assert (H : Py.strip (decode (Scenario.line "ERROR busy")) <> "READY")
    by discriminate.
  split; [exact H|].
  destruct (upload_not_ready_returns_without_streaming Scenario.stored_zip
              "/tmp/up.txt" true true
              (mkClient true [("/tmp/up.txt", File (encode "data123"))]
                 [Scenario.line "ERROR busy"] [] [])
              eq_refl eq_refl (fun _ => ltac:(discriminate)) eq_refl H)
    as (Hok & Hsent & _).
  split; [exact Hok|exact Hsent].
Defined.

(** * Further properties *)

(** ** Python strings *)

Lemma sappend_assoc (a b c : str) : (a +++ b) +++ c = a +++ b +++ c.
Proof.
  induction a as [|x a IH]; simpl; [reflexivity|now rewrite IH].
Qed.

Lemma sappend_nil_r (a : str) : a +++ "" = a.
Proof.
  induction a as [|x a IH]; simpl; [reflexivity|now rewrite IH].
Qed.

Lemma encode_app (a b : str) : encode (a +++ b) = encode a ++ encode b.
Proof.
  unfold encode, list_byte_of_string.
  induction a as [|x a IH]; simpl; [reflexivity|now rewrite IH].
Qed.

Lemma decode_encode (s : str) : decode (encode s) = s.
Proof.
  apply string_of_list_byte_of_string.
Qed.

Lemma encode_decode (b : bytes) : encode (decode b) = b.
Proof.
  apply list_byte_of_string_of_list_byte.
Qed.

(** *** [split] *)

Lemma split_from_no_space (t : str) :
  no_space t = true ->
  forall tok s, Py.split_from tok (t +++ s) = Py.split_from (tok +++ t) s.
Proof.
  induction t as [|c t IH]; intros Ht tok s.
  - now rewrite sappend_nil_r.
  - simpl in Ht. apply andb_true_iff in Ht as [Hc Ht].
    apply negb_true_iff in Hc.
    cbn [String.append Py.split_from]. rewrite Hc.
    rewrite IH by exact Ht. now rewrite sappend_assoc.
Qed.

Lemma split_from_space (c : ascii) (tok s : str) :
  Py.isspace c = true ->
  Py.str_is_empty tok = false ->
  Py.split_from tok (String c s) = tok :: Py.split_from "" s.
Proof.
  intros Hc Htok. cbn [Py.split_from]. now rewrite Hc, Htok.
Qed.

Lemma split_from_space_nil (c : ascii) (s : str) :
  Py.isspace c = true ->
  Py.split_from "" (String c s) = Py.split_from "" s.
Proof.
  intros Hc. cbn [Py.split_from]. now rewrite Hc.
Qed.

Lemma is_word_parts (t : str) :
  is_word t = true -> Py.str_is_empty t = false /\ no_space t = true.
Proof.
  unfold is_word. intros H. apply andb_true_iff in H as [H1 H2].
  now apply negb_true_iff in H1.
Qed.

(** A word followed by whitespace is the first piece of the split. *)
Lemma split_word_then_space (t : str) (c : ascii) (s : str) :
  is_word t = true ->
  Py.isspace c = true ->
  Py.split_from "" (t +++ String c s) = t :: Py.split_from "" s.
Proof.
  intros Ht Hc. apply is_word_parts in Ht as [Hne Hns].
  rewrite split_from_no_space by exact Hns. cbn [String.append].
  now apply split_from_space.
Qed.

Lemma split_word_at_end (t : str) :
  is_word t = true -> Py.split_from "" t = [t].
Proof.
  intros Ht. apply is_word_parts in Ht as [Hne Hns].
  rewrite <- (sappend_nil_r t) at 1.
  rewrite split_from_no_space by exact Hns. cbn [String.append Py.split_from].
  now rewrite Hne.
Qed.

Lemma isspace_LF : Py.isspace LF = true.
Proof. reflexivity. Qed.


(** *** Lines and [strip] *)

Lemma byte_of_ascii_LF (c : ascii) :
  Py.byte_eqb (byte_of_ascii c) "010"%byte = Ascii.eqb c LF.
Proof.
  destruct c as [[] [] [] [] [] [] [] []]; reflexivity.
Qed.

Lemma length_encode (s : str) : Py.len (encode s) = String.length s.
Proof.
  unfold Py.len, encode, list_byte_of_string.
  induction s as [|c s IH]; simpl; [reflexivity|now rewrite IH].
Qed.

Lemma no_space_no_newline (s : str) :
  no_space s = true -> Spec.no_newline s = true.
Proof.
  induction s as [|c s IH]; [reflexivity|].
  cbn [no_space Spec.no_newline]. intros H.
  apply andb_true_iff in H as [Hc Hs]. rewrite IH by exact Hs.
  destruct (Ascii.eqb c LF) eqn:E; [|reflexivity].
  apply Ascii.eqb_eq in E. subst c. discriminate.
Qed.

Lemma no_newline_app (a b : str) :
  Spec.no_newline (a +++ b) = Spec.no_newline a && Spec.no_newline b.
Proof.
  induction a as [|c a IH]; [reflexivity|].
  cbn [String.append Spec.no_newline]. rewrite IH. now rewrite andb_assoc.
Qed.

Lemma split_once_no_newline (s : str) :
  Spec.no_newline s = true -> Py.split_once (encode nl) (encode s) = None.
Proof.
  induction s as [|c s IH]; [reflexivity|].
  cbn [Spec.no_newline]. intros H. apply andb_true_iff in H as [Hc Hs].
  apply negb_true_iff in Hc.
  change (encode (String c s)) with (byte_of_ascii c :: encode s).
  rewrite split_once_unfold.
  change (Py.strip_prefix (encode nl) (byte_of_ascii c :: encode s))
    with (if Py.byte_eqb "010"%byte (byte_of_ascii c) then Some (encode s) else None).
  assert (Hb : Py.byte_eqb "010"%byte (byte_of_ascii c) = false).
  { rewrite <- Hc, <- byte_of_ascii_LF. unfold Py.byte_eqb.
    destruct (Byte.eqb "010"%byte (byte_of_ascii c)) eqn:E1;
      destruct (Byte.eqb (byte_of_ascii c) "010"%byte) eqn:E2; try reflexivity.
    - apply Byte.byte_dec_bl in E1. rewrite <- E1 in E2. discriminate.
    - apply Byte.byte_dec_bl in E2. rewrite E2 in E1. discriminate. }
  rewrite Hb. now rewrite IH.
Qed.

(** A line without a newline inside is what is cut off at its newline. *)
Lemma split_once_line (s : str) (rest : bytes) :
  Spec.no_newline s = true ->
  Py.split_once (encode nl) (encode (s +++ nl) ++ rest) = Some (encode s, rest).
Proof.
  intros Hs. rewrite encode_app, <- app_assoc.
  refine (split_once_after_free "010"%byte [] _ (encode s) rest _).
  - intros [].
  - now apply split_once_no_newline.
Qed.

Lemma rstrip_app_blank (t ws : str) :
  Py.rstrip ws = "" -> Py.rstrip (t +++ ws) = Py.rstrip t.
Proof.
  intros Hws. induction t as [|c t IH]; [exact Hws|].
  cbn [String.append Py.rstrip]. now rewrite IH.
Qed.

Lemma rstrip_word (t : str) : no_space t = true -> Py.rstrip t = t.
Proof.
  induction t as [|c t IH]; [reflexivity|].
  cbn [no_space Py.rstrip]. intros H. apply andb_true_iff in H as [Hc Ht].
  apply negb_true_iff in Hc. rewrite IH by exact Ht. rewrite Hc.
  now rewrite andb_false_r.
Qed.

Lemma rstrip_ends_with_word (t u : str) :
  is_word u = true -> Py.rstrip (t +++ u) = t +++ u.
Proof.
  intros Hu. apply is_word_parts in Hu as [Hne Hns].
  induction t as [|c t IH]; [now apply rstrip_word|].
  cbn [String.append Py.rstrip]. rewrite IH.
  destruct (t +++ u) eqn:E; [|reflexivity].
  destruct t; [|discriminate]. cbn in E. subst u. discriminate.
Qed.

Lemma slength_app (a b : str) :
  String.length (a +++ b) = String.length a + String.length b.
Proof.
  induction a as [|c a IH]; simpl; [reflexivity|now rewrite IH].
Qed.

Lemma is_ascii_app (a b : str) :
  PyStr.is_ascii (a +++ b) = PyStr.is_ascii a && PyStr.is_ascii b.
Proof.
  induction a as [|c a IH]; [reflexivity|].
  cbn [String.append PyStr.is_ascii]. rewrite IH. now rewrite andb_assoc.
Qed.

(** *** ASCII text *)

Lemma isspace_ascii (c : ascii) :
  Py.isspace c = true -> (nat_of_ascii c <? 128) = true.
Proof.
  destruct c as [[] [] [] [] [] [] [] []]; intros H;
    first [reflexivity | discriminate H].
Qed.

Lemma is_ascii_lstrip (s : str) :
  PyStr.is_ascii (Py.lstrip s) = true -> PyStr.is_ascii s = true.
Proof.
  induction s as [|c s IH]; [reflexivity|].
  cbn [Py.lstrip]. destruct (Py.isspace c) eqn:E; [|exact (fun H => H)].
  intros H. cbn [PyStr.is_ascii]. now rewrite (isspace_ascii c E), IH.
Qed.

Lemma is_ascii_rstrip (s : str) :
  PyStr.is_ascii (Py.rstrip s) = true -> PyStr.is_ascii s = true.
Proof.
  induction s as [|c s IH]; [reflexivity|].
  cbn [Py.rstrip].
  destruct (Py.str_is_empty (Py.rstrip s) && Py.isspace c) eqn:E.
  - apply andb_true_iff in E as [Hempty Hc]. intros _.
    cbn [PyStr.is_ascii]. rewrite (isspace_ascii c Hc). apply IH.
    now destruct (Py.rstrip s).
  - cbn [PyStr.is_ascii]. intros H. apply andb_true_iff in H as [Hc Hs].
    now rewrite Hc, IH.
Qed.

(** Text that is ASCII once stripped was ASCII before: what [strip] takes
    away here is ASCII whitespace. *)
Lemma is_ascii_strip (s : str) :
  PyStr.is_ascii (Py.strip s) = true -> PyStr.is_ascii s = true.
Proof.
  unfold Py.strip. intros H. now apply is_ascii_lstrip, is_ascii_rstrip.
Qed.

(** What an entry name is, as far as the connection loops care. *)
Lemma entry_name_parts (name : str) :
  Files.entry_name name = true ->
  PyStr.is_ascii name = true /\ String.length name <= 255.
Proof.
  unfold Files.entry_name. intros H.
  repeat (apply andb_true_iff in H as [H ?]).
  split; [assumption|]. now apply Nat.leb_le.
Qed.
(** ** Upload: what the handler leaves behind *)

Lemma lookup_put_other (name other : str) (e : entry) (st : storage) :
  other <> name ->
  Storage.lookup other (Storage.put name e st) = Storage.lookup other st.
Proof.
  intros Hne. induction st as [|[k v] st IH]; simpl.
  - destruct (String.eqb name other) eqn:E; [|reflexivity].
    apply String.eqb_eq in E. congruence.
  - destruct (String.eqb k name) eqn:E; simpl.
    + apply String.eqb_eq in E. subst k.
      destruct (String.eqb name other) eqn:E'; [|reflexivity].
      apply String.eqb_eq in E'. congruence.
    + destruct (String.eqb k other); [reflexivity|exact IH].
Qed.

Lemma lookup_append_other (name other : str) (data : bytes) (st : storage) :
  other <> name ->
  Storage.lookup other (Storage.append name data st) = Storage.lookup other st.
Proof.
  intros Hne. unfold Storage.append. now apply lookup_put_other.
Qed.

(** The threaded upload loop writes to the peer nothing and to the storage
    only the file it was given. *)
Lemma load_loop_footprint (n : nat) (name other : str) :
  other <> name ->
  forall fuel buffer w r,
    Server.load_loop fuel n name buffer w = r ->
    sent (snd r) = sent w
    /\ Storage.lookup other (fs (snd r)) = Storage.lookup other (fs w).
Proof.
  intros Hne. induction fuel as [|fuel IH]; intros buffer w r Hr; subst r.
  - split; reflexivity.
  - cbn [Server.load_loop]. unfold bind at 1 3. unfold Socket.recv.
    destruct (Socket.take n (inbound w)) as [data rest].
    destruct (Py.is_empty data).
    + split; reflexivity.
    + destruct (Py.split_once END_MARK (buffer ++ data)) as [[content after]|].
      * unfold Files.write, set_fs, set_inbound. cbn [snd fs sent].
        split; [reflexivity|now apply lookup_append_other].
      * unfold bind, Files.write.
        match goal with
        | |- context [Server.load_loop fuel n name [] ?w'] =>
            destruct (IH [] w' _ eq_refl) as [Hs Hl]
        end.
        rewrite Hs, Hl. unfold set_fs, set_inbound. cbn [fs sent].
        split; [reflexivity|now apply lookup_append_other].
Qed.

Lemma load_loop_async_footprint (n : nat) (name other : str) :
  other <> name ->
  forall fuel w r,
    Server.load_loop_async fuel n name w = r ->
    sent (snd r) = sent w
    /\ Storage.lookup other (fs (snd r)) = Storage.lookup other (fs w).
Proof.
  intros Hne. induction fuel as [|fuel IH]; intros w r Hr; subst r.
  - split; reflexivity.
  - cbn [Server.load_loop_async]. unfold bind at 1 3. unfold Stream.read.
    destruct (match rbuf w with
              | [] => Socket.next_arrival (inbound w)
              | _ :: _ => (rbuf w, inbound w)
              end) as [buf i].
    destruct (Py.is_empty (firstn n buf)).
    + split; reflexivity.
    + destruct (Py.split_once END_MARK (firstn n buf)) as [[content after]|].
      * unfold Files.write, set_fs, set_inbound, set_rbuf. cbn [snd fs sent].
        split; [reflexivity|now apply lookup_append_other].
      * unfold bind, Files.write.
        match goal with
        | |- context [Server.load_loop_async fuel n name ?w'] =>
            destruct (IH w' _ eq_refl) as [Hs Hl]
        end.
        rewrite Hs, Hl. unfold set_fs, set_inbound, set_rbuf. cbn [fs sent].
        split; [reflexivity|now apply lookup_append_other].
Qed.

Lemma try_except_raise_world {A} (m : M world A) (k : exn_kind) (w : world) :
  snd (try_except m (fun e => raise (mkExn k (exn_str e))) w) = snd (m w).
Proof.
  unfold try_except, raise. destruct (m w) as [[a|e|] w']; reflexivity.
Qed.

Lemma cmd_load_footprint (self : FileServer) (filename other : str) (w : world) :
  other <> filename ->
  sent (snd (Server._cmd_load self filename w)) = sent w ++ [encode ("READY" +++ nl)]
  /\ Storage.lookup other (fs (snd (Server._cmd_load self filename w)))
     = Storage.lookup other (fs w).
Proof.
  intros Hne.
  unfold Server._cmd_load, bind at 1 3, Socket.sendall.
  rewrite try_except_raise_world.
  unfold bind, Files.open_wb. cbn [fs push_sent].
  destruct (Files.entry_name filename); cbn [negb]; [|split; reflexivity].
  destruct (Storage.lookup filename (fs w)) as [[c|]|].
  - unfold with_fuel.
    match goal with
    | |- context [Server.load_loop ?f ?n filename [] ?w'] =>
        destruct (load_loop_footprint n filename other Hne f [] w' _ eq_refl) as [Hs Hl];
        destruct (Server.load_loop f n filename [] w') as [[u|e|] w'']
    end; cbn [snd] in *; rewrite Hs, Hl; unfold set_fs; cbn [fs sent];
      (split; [reflexivity|now apply lookup_put_other]).
  - destruct (PyStr.is_ascii (Py.path_join (storage_dir self) filename));
      split; reflexivity.
  - unfold with_fuel.
    match goal with
    | |- context [Server.load_loop ?f ?n filename [] ?w'] =>
        destruct (load_loop_footprint n filename other Hne f [] w' _ eq_refl) as [Hs Hl];
        destruct (Server.load_loop f n filename [] w') as [[u|e|] w'']
    end; cbn [snd] in *; rewrite Hs, Hl; unfold set_fs; cbn [fs sent];
      (split; [reflexivity|now apply lookup_put_other]).
Qed.

Lemma cmd_load_async_footprint (self : FileServer) (filename other : str) (w : world) :
  other <> filename ->
  sent (snd (Server._cmd_load_async self filename w)) = sent w ++ [encode ("READY" +++ nl)]
  /\ Storage.lookup other (fs (snd (Server._cmd_load_async self filename w)))
     = Storage.lookup other (fs w).
Proof.
  intros Hne.
  unfold Server._cmd_load_async, bind at 1 3, Stream.write.
  rewrite try_except_raise_world.
  unfold bind, Files.open_wb. cbn [fs push_sent].
  destruct (Files.entry_name filename); cbn [negb]; [|split; reflexivity].
  destruct (Storage.lookup filename (fs w)) as [[c|]|].
  - unfold with_fuel.
    match goal with
    | |- context [Server.load_loop_async ?f ?n filename ?w'] =>
        destruct (load_loop_async_footprint n filename other Hne f w' _ eq_refl) as [Hs Hl];
        destruct (Server.load_loop_async f n filename w') as [[u|e|] w'']
    end; cbn [snd] in *; rewrite Hs, Hl; unfold set_fs; cbn [fs sent];
      (split; [reflexivity|now apply lookup_put_other]).
  - destruct (PyStr.is_ascii (Py.path_join (storage_dir self) filename));
      split; reflexivity.
  - unfold with_fuel.
    match goal with
    | |- context [Server.load_loop_async ?f ?n filename ?w'] =>
        destruct (load_loop_async_footprint n filename other Hne f w' _ eq_refl) as [Hs Hl];
        destruct (Server.load_loop_async f n filename w') as [[u|e|] w'']
    end; cbn [snd] in *; rewrite Hs, Hl; unfold set_fs; cbn [fs sent];
      (split; [reflexivity|now apply lookup_put_other]).
Qed.

Lemma append_x_differs (s : str) : s +++ "x" <> s.
Proof.
  induction s as [|c s IH]; simpl; [discriminate|].
  intros H. injection H as H. now apply IH.
Qed.

Lemma cmd_load_async_raises_upload_error (self : FileServer) (filename : str)
  (w w' : world) (e : exn) :
  Server._cmd_load_async self filename w = (Raise e, w') ->
  exn_class e = ErrorDuringUpload.
Proof.
  unfold Server._cmd_load_async, bind, Stream.write.
  intros H. now apply try_except_rewraps in H.
Qed.



(** The upload handlers write one frame to the peer, [READY], whatever
    arrives and however the upload ends; and the only exception that leaves
    them is [ErrorDuringUpload]. *)
Theorem upload_handler_writes_READY_and_raises_only_upload_error
  (self : FileServer) (filename : str) (w : world) :
  sent (snd (Server._cmd_load self filename w)) = sent w ++ [encode ("READY" +++ nl)]
  /\ sent (snd (Server._cmd_load_async self filename w))
     = sent w ++ [encode ("READY" +++ nl)]
  /\ (forall e, fst (Server._cmd_load self filename w) = Raise e ->
                exn_class e = ErrorDuringUpload)
  /\ (forall e, fst (Server._cmd_load_async self filename w) = Raise e ->
                exn_class e = ErrorDuringUpload).
Proof.
  pose proof (append_x_differs filename) as Hne.
  split; [apply (cmd_load_footprint self filename _ w Hne)|].
  split; [apply (cmd_load_async_footprint self filename _ w Hne)|].
  split.
  - intros e He.
    destruct (Server._cmd_load self filename w) as [r w'] eqn:E.
    cbn [fst] in He. subst r. now apply cmd_load_raises_upload_error in E.
  - intros e He.
    destruct (Server._cmd_load_async self filename w) as [r w'] eqn:E.
    cbn [fst] in He. subst r. now apply cmd_load_async_raises_upload_error in E.
Qed.

(** *** An upload that breaks off *)

Lemma appended_put (name : str) (reads : list bytes) :
  forall (x : bytes) (st : storage),
    appended name reads (Storage.put name (File x) st)
    = Storage.put name (File (x ++ List.concat reads)) st.
Proof.
  unfold appended. induction reads as [|p reads IH]; intros x st; cbn [fold_left List.concat].
  - now rewrite app_nil_r.
  - rewrite append_put, IH. now rewrite app_assoc.
Qed.

Lemma load_loop_eof (n : nat) (name : str) :
  forall pre fuel st rb sn cl,
    Forall (fun p => one_read n p /\ Spec.sentinel_free p) pre ->
    List.length pre < fuel ->
    Server.load_loop fuel n name [] (mkWorld st pre rb sn cl)
    = (Raise (mkExn PeerDisconnected "Connection lost during upload"),
       mkWorld (appended name pre st) [] rb sn cl).
Proof.
  induction pre as [|p pre IH]; intros fuel st rb sn cl Hpre Hfuel.
  - destruct fuel as [|fuel]; [inversion Hfuel|]. reflexivity.
  - destruct fuel as [|fuel]; [inversion Hfuel|].
    inversion Hpre as [|? ? [Hp Hfree] Hpre']; subst.
    cbn [Server.load_loop].
    unfold bind at 1. unfold Socket.recv. cbn [inbound].
    rewrite take_one_read by exact Hp.
    rewrite (one_read_not_empty n) by exact Hp.
    cbn [app]. unfold Spec.sentinel_free in Hfree. rewrite Hfree.
    unfold bind, Files.write, set_inbound, set_fs.
    cbn [fs inbound rbuf sent closed].
    rewrite IH by (try exact Hpre'; cbn [List.length] in Hfuel; lia).
    reflexivity.
Qed.

Lemma load_loop_async_eof (n : nat) (name : str) :
  forall pre fuel st sn cl,
    Forall (fun p => one_read n p /\ Spec.sentinel_free p) pre ->
    List.length pre < fuel ->
    Server.load_loop_async fuel n name (mkWorld st pre [] sn cl)
    = (Raise (mkExn PeerDisconnected "Connection lost during upload"),
       mkWorld (appended name pre st) [] [] sn cl).
Proof.
  induction pre as [|p pre IH]; intros fuel st sn cl Hpre Hfuel.
  - destruct fuel as [|fuel]; [inversion Hfuel|].
    cbn [Server.load_loop_async]. unfold bind, Stream.read.
    cbn [rbuf inbound Socket.next_arrival]. rewrite firstn_nil, skipn_nil.
    reflexivity.
  - destruct fuel as [|fuel]; [inversion Hfuel|].
    inversion Hpre as [|? ? [Hp Hfree] Hpre']; subst.
    cbn [Server.load_loop_async].
    unfold bind at 1. rewrite read_one_read by exact Hp.
    rewrite (one_read_not_empty n) by exact Hp.
    unfold Spec.sentinel_free in Hfree. rewrite Hfree.
    unfold bind, Files.write, set_fs.
    cbn [fs inbound rbuf sent closed].
    rewrite IH by (try exact Hpre'; cbn [List.length] in Hfuel; lia).
    reflexivity.
Qed.

(** When the peer closes before any read has held the sentinel, the upload
    handlers, given an entry name, raise [ErrorDuringUpload] with the
    message of the lost connection, and the file keeps everything received
    so far: nothing is rolled back.  Both runtimes. *)
Theorem upload_cut_short_keeps_partial_file
  (self : FileServer) (filename : str) (reads : list bytes) (w : world) :
  Files.entry_name filename = true ->
  inbound w = reads ->
  rbuf w = [] ->
  Forall (fun p => one_read 4096 p /\ Spec.sentinel_free p) reads ->
  Storage.lookup filename (fs w) <> Some Dir ->
  Server._cmd_load self filename w =
    (Raise (mkExn ErrorDuringUpload "Connection lost during upload"),
     mkWorld (Storage.put filename (File (List.concat reads)) (fs w))
       [] [] (sent w ++ [encode ("READY" +++ nl)]) (closed w))
  /\ Server._cmd_load_async self filename w =
    (Raise (mkExn ErrorDuringUpload "Connection lost during upload"),
     mkWorld (Storage.put filename (File (List.concat reads)) (fs w))
       [] [] (sent w ++ [encode ("READY" +++ nl)]) (closed w)).
Proof.
  intros Hname Hin Hbuf Hreads Hdir.
  destruct w as [st i rb sn cl]. cbn [fs inbound rbuf sent closed] in *. subst i rb.
  assert (Hfuel : List.length reads < S (Py.len [] + pending reads)).
  { pose proof (pending_at_least 4096 reads [] Hreads) as H.
    rewrite app_nil_r in H. lia. }
  split.
  - unfold Server._cmd_load, bind, Socket.sendall, try_except, Files.open_wb.
    rewrite Hname. cbn [negb].
    unfold with_fuel, fuel_of, set_fs, push_sent.
    cbn [fs inbound rbuf sent closed].
    destruct (Storage.lookup filename st) as [[content0|]|] eqn:E;
      try (exfalso; now apply Hdir);
      rewrite (load_loop_eof 4096 filename reads) by assumption;
      unfold raise; cbn [exn_str]; now rewrite appended_put.
  - unfold Server._cmd_load_async, bind, Stream.write, try_except, Files.open_wb.
    rewrite Hname. cbn [negb].
    unfold with_fuel, fuel_of, set_fs, push_sent.
    cbn [fs inbound rbuf sent closed].
    destruct (Storage.lookup filename st) as [[content0|]|] eqn:E;
      try (exfalso; now apply Hdir);
      rewrite (load_loop_async_eof 4096 filename reads) by assumption;
      unfold raise; cbn [exn_str]; now rewrite appended_put.
Qed.

(** Two reads of a report, then the peer is gone. *)
Lemma upload_cut_short_keeps_partial_file_witness :
  Server._cmd_load Scenario.threaded "report.txt"
    (Scenario.accepted [("report.txt", File (encode "old"))]
       [encode "first "; encode "second"])
  = (Raise (mkExn ErrorDuringUpload "Connection lost during upload"),
     mkWorld [("report.txt", File (encode "first second"))] [] []
       [Scenario.line "READY"] false).
Proof.
  refine (proj1 (upload_cut_short_keeps_partial_file Scenario.threaded "report.txt"
                   [encode "first "; encode "second"]
                   (Scenario.accepted [("report.txt", File (encode "old"))]
                      [encode "first "; encode "second"])
                   eq_refl eq_refl eq_refl _ _)).
  - repeat constructor; try discriminate; apply Nat.leb_le; reflexivity.
  - discriminate.
Defined.

(** *** An upload into a directory *)

Lemma cmd_load_directory (self : FileServer) (filename : str) (w : world) :
  Files.entry_name filename = true ->
  PyStr.is_ascii (Py.path_join (storage_dir self) filename) = true ->
  Storage.lookup filename (fs w) = Some Dir ->
  Server._cmd_load self filename w =
    (Raise (mkExn ErrorDuringUpload
              ("[Errno 21] Is a directory: "
               +++ PyStr.repr (Py.path_join (storage_dir self) filename))),
     push_all [encode ("READY" +++ nl)] w)
  /\ Server._cmd_load_async self filename w =
    (Raise (mkExn ErrorDuringUpload
              ("[Errno 21] Is a directory: "
               +++ PyStr.repr (Py.path_join (storage_dir self) filename))),
     push_all [encode ("READY" +++ nl)] w).
Proof.
  intros Hname Hpath Hdir.
  unfold Server._cmd_load, Server._cmd_load_async, bind, Socket.sendall, Stream.write,
    try_except, Files.open_wb.
  cbn [fs push_sent]. rewrite Hname, Hdir, Hpath. split; reflexivity.
Qed.

(** An ASCII LOAD line that names a directory of the storage.  [READY] has
    been written before the file is opened, so the peer is told to go
    ahead; the threaded dispatcher then writes the error frame, with the
    path as [repr] prints it, and returns; the async dispatcher raises;
    nothing is read from the stream and the storage is not changed. *)
Theorem load_into_directory_fails_after_READY
  (self : FileServer) (line p0 filename : str) (rest : list str) (w : world) :
  PyStr.is_ascii line = true ->
  Py.split line = p0 :: filename :: rest ->
  Py.upper p0 = "LOAD" ->
  Files.entry_name filename = true ->
  PyStr.is_ascii (storage_dir self) = true ->
  Storage.lookup filename (fs w) = Some Dir ->
  Server._dispatch_command self line w =
    (Ok tt,
     push_all [encode ("READY" +++ nl);
               encode ("ERROR ErrorDuringUpload "
                       +++ ("[Errno 21] Is a directory: "
                            +++ PyStr.repr (Py.path_join (storage_dir self) filename))
                       +++ nl)] w)
  /\ Server._dispatch_command_async self line w =
    (Raise (mkExn ErrorDuringUpload
              ("[Errno 21] Is a directory: "
               +++ PyStr.repr (Py.path_join (storage_dir self) filename))),
     push_all [encode ("READY" +++ nl)] w).
Proof.
  intros _ Hsplit Hverb Hname Hdirascii Hdir.
  assert (Hpath : PyStr.is_ascii (Py.path_join (storage_dir self) filename) = true).
  { assert (Hf : PyStr.is_ascii filename = true).
    { unfold Files.entry_name in Hname.
      repeat (apply andb_true_iff in Hname as [Hname ?]). assumption. }
    unfold Py.path_join.
    destruct (Py.str_startswith_slash filename); [exact Hf|].
    destruct (Py.str_is_empty (storage_dir self) || Py.str_endswith_slash (storage_dir self));
      rewrite ?is_ascii_app, Hdirascii, Hf; reflexivity. }
  destruct (cmd_load_directory self filename w Hname Hpath Hdir) as [Hs Ha].
  split.
  - rewrite (dispatch_command_reports_upload_error self line p0 filename rest w _ _
               Hsplit Hverb Hs).
    cbn [exn_str]. rewrite push_all_app. reflexivity.
  - unfold Server._dispatch_command_async. rewrite Hsplit. cbv zeta. rewrite Hverb.
    cbn [String.eqb Ascii.eqb Bool.eqb].
    unfold bind, Server.index. cbn [nth_error ret]. exact Ha.
Qed.

(** [load d] where [d] is a directory of the storage, threaded runtime. *)
Lemma load_into_directory_fails_after_READY_witness :
  Server._dispatch_command Scenario.threaded "load d"
    (Scenario.accepted [("d", Dir)] [encode "body"])
  = (Ok tt,
     push_all [Scenario.line "READY";
               Scenario.line
                 "ERROR ErrorDuringUpload [Errno 21] Is a directory: '/srv/database/d'"]
       (Scenario.accepted [("d", Dir)] [encode "body"])).
Proof.
  exact (proj1 (load_into_directory_fails_after_READY Scenario.threaded "load d"
                  "load" "d" [] (Scenario.accepted [("d", Dir)] [encode "body"])
                  eq_refl eq_refl eq_refl eq_refl eq_refl eq_refl)).
Defined.

(** *** The sentinel within one read *)

(** A body that arrives as [abc] and [de<END>\nrest]: the file is [abcde]. *)
Lemma upload_truncates_at_sentinel_within_one_read_witness :
  Server._cmd_load Scenario.threaded "f"
    (Scenario.accepted [] [encode "abc"; encode ("de<END>" +++ nl +++ "rest")])
  = (Ok tt,
     mkWorld [("f", File (encode "abcde"))] [] [] [Scenario.line "READY"] false).
Proof.
  refine (proj1 (proj2 (upload_truncates_at_sentinel_within_one_read
                          Scenario.threaded "f" [encode "abc"]
                          (encode ("de<END>" +++ nl +++ "rest")) (encode "de")
                          (encode "rest") []
                          (Scenario.accepted []
                             [encode "abc"; encode ("de<END>" +++ nl +++ "rest")])
                          eq_refl eq_refl eq_refl _ _ eq_refl eq_refl _))).
  - repeat constructor; try discriminate; apply Nat.leb_le; reflexivity.
  - split; [discriminate|apply Nat.leb_le; reflexivity].
  - discriminate.
Defined.

(** The seven bytes [data123] stored as [up.txt] and served again. *)
Lemma upload_then_download_when_reads_follow_sends_witness :
  exists w' payload,
    Server._cmd_load Scenario.threaded "up.txt"
      (Scenario.accepted [] [encode "data123"; END_MARK]) = (Ok tt, w')
    /\ Storage.lookup "up.txt" (fs w') = Some (File (encode "data123"))
    /\ List.concat payload = encode "data123"
    /\ Server._cmd_get_file "up.txt" w' =
         (Ok tt,
          push_all ([encode ("READY 7" +++ nl)] ++ payload ++ [END_MARK]) w').
Proof.
  refine (upload_then_download_when_reads_follow_sends Scenario.threaded "up.txt"
            (encode "data123") []
            (Scenario.accepted [] [encode "data123"; END_MARK])
            eq_refl eq_refl _ eq_refl).
  discriminate.
Defined.
(** ** Download and listing: what the handlers leave behind *)

(** GET FILE for an entry name never raises and only writes frames: the
    storage directory and the inbound stream stay as they are.  A directory
    of the storage is answered like an absent name. *)
Theorem get_file_only_writes_frames (filename : str) (w : world) :
  Files.entry_name filename = true ->
  exists frames : list bytes,
    Server._cmd_get_file filename w = (Ok tt, push_all frames w)
    /\ Server._cmd_get_file_async filename w = (Ok tt, push_all frames w)
    /\ (Storage.isfile filename (fs w) = false ->
        frames = [encode ("ERROR FileNotFound " +++ filename +++ nl)]).
Proof.
  intros Hname.
  destruct (Storage.lookup filename (fs w)) as [[content|]|] eqn:E.
  - destruct (get_file_frames filename content w E) as [Hs Ha].
    eexists. split; [exact Hs|]. split; [exact Ha|].
    unfold Storage.isfile. rewrite E. discriminate.
  - exists [encode ("ERROR FileNotFound " +++ filename +++ nl)].
    unfold Server._cmd_get_file, Server._cmd_get_file_async, bind, Files.isfile,
      Storage.isfile.
    rewrite E. repeat split.
  - exists [encode ("ERROR FileNotFound " +++ filename +++ nl)].
    unfold Server._cmd_get_file, Server._cmd_get_file_async, bind, Files.isfile.
    rewrite E, Hname. repeat split.
Qed.

(** GET FILE [d] where [d] is a directory of the storage. *)
Lemma get_file_only_writes_frames_witness :
  Server._cmd_get_file "d" (Scenario.accepted [("d", Dir)] [])
  = (Ok tt,
     push_all [Scenario.line "ERROR FileNotFound d"]
       (Scenario.accepted [("d", Dir)] [])).
Proof.
  destruct (get_file_only_writes_frames "d" (Scenario.accepted [("d", Dir)] [])
              eq_refl) as (frames & Hs & _ & Hframes).
  rewrite Hs, (Hframes eq_refl). reflexivity.
Defined.


(** ** The line framer of the threaded runtime *)

(** *** Computations that leave the inbound stream alone *)

Lemma keeps_ret {A} (a : A) : keeps_inbound (ret a).
Proof. intros w i. reflexivity. Qed.

Lemma keeps_raise {A} (e : exn) : keeps_inbound (@raise world A e).
Proof. intros w i. reflexivity. Qed.

Lemma keeps_stuck {A} : keeps_inbound (@stuck world A).
Proof. intros w i. reflexivity. Qed.

Lemma keeps_bind {A B} (m : M world A) (k : A -> M world B) :
  keeps_inbound m -> (forall a, keeps_inbound (k a)) -> keeps_inbound (bind m k).
Proof.
  intros Hm Hk w i. unfold bind. rewrite Hm.
  destruct (m w) as [[a|e|] w']; cbn [fst snd]; [apply Hk|reflexivity|reflexivity].
Qed.

Lemma keeps_try_except {A} (m : M world A) (h : exn -> M world A) :
  keeps_inbound m -> (forall e, keeps_inbound (h e)) -> keeps_inbound (try_except m h).
Proof.
  intros Hm Hh w i. unfold try_except. rewrite Hm.
  destruct (m w) as [[a|e|] w']; cbn [fst snd]; [reflexivity|apply Hh|reflexivity].
Qed.

Lemma keeps_sendall (data : bytes) : keeps_inbound (Socket.sendall data).
Proof. intros w i. reflexivity. Qed.

Lemma keeps_isfile (name : str) : keeps_inbound (Files.isfile name).
Proof.
  intros w i. unfold Files.isfile. cbn [fs set_inbound].
  destruct (Storage.lookup name (fs w)); [reflexivity|].
  destruct (Files.entry_name name); reflexivity.
Qed.

Lemma keeps_getsize (name : str) : keeps_inbound (Files.getsize name).
Proof. intros w i. reflexivity. Qed.

Lemma keeps_open_rb (name : str) : keeps_inbound (Files.open_rb name).
Proof. intros w i. reflexivity. Qed.

Lemma keeps_listdir : keeps_inbound Files.listdir.
Proof. intros w i. reflexivity. Qed.

Lemma keeps_index (parts : list str) (k : nat) : keeps_inbound (Server.index parts k).
Proof.
  unfold Server.index. destruct (nth_error parts k); [apply keeps_ret|apply keeps_raise].
Qed.

Lemma keeps_report (e : exn) : keeps_inbound (Server.report e).
Proof.
  unfold Server.report. destruct (exn_class e); apply keeps_sendall.
Qed.

Lemma keeps_send_chunks (n : nat) :
  forall fuel rest, keeps_inbound (Server.send_chunks fuel n Socket.sendall rest).
Proof.
  induction fuel as [|fuel IH]; intros rest; cbn [Server.send_chunks].
  - apply keeps_stuck.
  - destruct (Py.is_empty (firstn n rest)); [apply keeps_ret|].
    apply keeps_bind; [apply keeps_sendall|intros _; apply IH].
Qed.

Lemma keeps_cmd_get_file (filename : str) : keeps_inbound (Server._cmd_get_file filename).
Proof.
  unfold Server._cmd_get_file.
  apply keeps_bind; [apply keeps_isfile|intros present].
  destruct (negb present); [apply keeps_sendall|].
  apply keeps_bind; [apply keeps_getsize|intros size].
  apply keeps_bind; [apply keeps_sendall|intros _].
  apply keeps_bind; [|intros _; apply keeps_sendall].
  apply keeps_bind; [apply keeps_open_rb|intros f; apply keeps_send_chunks].
Qed.

Lemma keeps_cmd_get_files (pattern : str) : keeps_inbound (Server._cmd_get_files pattern).
Proof.
  unfold Server._cmd_get_files.
  destruct (Server.listing_regex pattern); [|apply keeps_stuck].
  apply keeps_bind; [apply keeps_listdir|intros names].
  destruct (negb (PyStr.is_ascii pattern && forallb PyStr.is_ascii names));
    [apply keeps_stuck|apply keeps_sendall].
Qed.

(** The threaded dispatcher reads the stream for LOAD lines only. *)
Lemma keeps_dispatch_command (self : FileServer) (line : str) :
  is_load line = false -> keeps_inbound (Server._dispatch_command self line).
Proof.
  unfold is_load, Server._dispatch_command.
  destruct (Py.split line) as [|p0 rest]; intros Hload; [apply keeps_ret|].
  cbv zeta. rewrite Hload.
  apply keeps_try_except; [|apply keeps_report].
  destruct (String.eqb (Py.upper p0) "GET" && (3 <=? List.length (p0 :: rest)));
    [|apply keeps_sendall].
  apply keeps_bind; [apply keeps_index|intros sub].
  destruct (String.eqb (Py.upper sub) "FILE").
  - apply keeps_bind; [apply keeps_index|intros f; apply keeps_cmd_get_file].
  - destruct (String.eqb (Py.upper sub) "FILES"); [|apply keeps_sendall].
    apply keeps_bind; [apply keeps_index|intros p; apply keeps_cmd_get_files].
Qed.

Lemma plain_command_parts (l : bytes) :
  plain_command l = true ->
  PyStr.is_ascii (decode l) = true /\ is_load (Py.strip (decode l)) = false.
Proof.
  unfold plain_command. intros H. apply andb_true_iff in H as [Ha Hl].
  now apply negb_true_iff in Hl.
Qed.

Lemma keeps_run_lines (self : FileServer) (ls : list bytes) :
  Forall (fun l => plain_command l = true) ls ->
  keeps_inbound (run_lines self ls).
Proof.
  induction 1 as [|l ls Hl _ IH]; cbn [run_lines]; [apply keeps_ret|].
  apply plain_command_parts in Hl as [_ Hl].
  apply keeps_bind; [now apply keeps_dispatch_command|intros _; exact IH].
Qed.

(** *** Lines *)

Lemma byte_eqb_sym (x y : byte) : Py.byte_eqb x y = Py.byte_eqb y x.
Proof.
  destruct (Py.byte_eqb x y) eqn:E.
  - apply Byte.byte_dec_bl in E. subst. symmetry. apply byte_eqb_refl.
  - destruct (Py.byte_eqb y x) eqn:E'; [|reflexivity].
    apply Byte.byte_dec_bl in E'. subst. now rewrite byte_eqb_refl in E.
Qed.

Lemma lines_from_split_once (s : bytes) :
  forall cur,
    lines_from cur s =
    match Py.split_once (encode nl) s with
    | Some (pre, post) =>
        ((cur ++ pre) :: fst (lines_from [] post), snd (lines_from [] post))
    | None => ([], cur ++ s)
    end.
Proof.
  induction s as [|b s IH]; intros cur.
  - cbn. now rewrite app_nil_r.
  - cbn [lines_from]. rewrite split_once_unfold.
    change (Py.strip_prefix (encode nl) (b :: s))
      with (if Py.byte_eqb "010"%byte b then Some s else None).
    rewrite (byte_eqb_sym "010"%byte b).
    destruct (Py.byte_eqb b "010"%byte).
    + rewrite app_nil_r. now destruct (lines_from [] s).
    + rewrite IH. destruct (Py.split_once (encode nl) s) as [[pre post]|].
      * now rewrite <- app_assoc.
      * now rewrite <- app_assoc.
Qed.

Lemma lines_from_app (s1 s2 : bytes) :
  forall cur,
    lines_from cur (s1 ++ s2) =
    (fst (lines_from cur s1) ++ fst (lines_from (snd (lines_from cur s1)) s2),
     snd (lines_from (snd (lines_from cur s1)) s2)).
Proof.
  induction s1 as [|b s1 IH]; intros cur.
  - cbn. now destruct (lines_from cur s2).
  - cbn [app lines_from]. destruct (Py.byte_eqb b "010"%byte).
    + rewrite (IH []). now destruct (lines_from [] s1).
    + apply IH.
Qed.

(** What is left after the last newline holds no newline. *)
Lemma lines_from_tail (s : bytes) :
  forall cur,
    lines_from [] cur = ([], cur) ->
    lines_from [] (snd (lines_from cur s)) = ([], snd (lines_from cur s)).
Proof.
  induction s as [|b s IH]; intros cur Hcur.
  - exact Hcur.
  - cbn [lines_from]. destruct (Py.byte_eqb b "010"%byte) eqn:E.
    + specialize (IH [] eq_refl). now destruct (lines_from [] s).
    + apply IH. rewrite lines_from_app. rewrite Hcur. cbn [fst snd lines_from].
      rewrite E. reflexivity.
Qed.

Lemma lines_from_prefix (cur s : bytes) :
  lines_from [] cur = ([], cur) ->
  lines_from [] (cur ++ s) = lines_from cur s.
Proof.
  intros Hcur. rewrite lines_from_app, Hcur. cbn [fst snd app].
  now destruct (lines_from cur s).
Qed.

(** *** The loops *)

Lemma run_lines_app (self : FileServer) (l1 l2 : list bytes) (w : world) :
  run_lines self (l1 ++ l2) w = (run_lines self l1 ;; run_lines self l2) w.
Proof.
  revert w. induction l1 as [|l l1 IH]; intros w.
  - reflexivity.
  - cbn [app run_lines]. unfold bind.
    destruct (Server._dispatch_command self (Py.strip (decode l)) w) as [[[]|e|] w'];
      [|reflexivity|reflexivity].
    rewrite IH. reflexivity.
Qed.

(** The inner loop dispatches the complete lines of its buffer and returns
    what follows the last newline. *)
Lemma dispatch_lines_run (self : FileServer) :
  forall fuel buffer w,
    Py.len buffer < fuel ->
    Forall (fun l => PyStr.is_ascii (decode l) = true) (fst (lines_from [] buffer)) ->
    Server.dispatch_lines self fuel buffer w =
    (run_lines self (fst (lines_from [] buffer)) ;; ret (snd (lines_from [] buffer))) w.
Proof.
  induction fuel as [|fuel IH]; intros buffer w Hfuel Hlines; [inversion Hfuel|].
  cbn [Server.dispatch_lines]. rewrite (lines_from_split_once buffer []) in Hlines |- *.
  destruct (Py.split_once (encode nl) buffer) as [[line rest]|] eqn:E.
  - cbn [fst snd app run_lines] in Hlines |- *.
    inversion Hlines as [|l ls Hl Hrest]; subst l ls.
    rewrite Hl. cbn [negb]. unfold bind.
    destruct (Server._dispatch_command self (Py.strip (decode line)) w) as [[[]|e|] w'];
      [|reflexivity|reflexivity].
    rewrite IH; [reflexivity| |exact Hrest]. apply split_once_sound in E. subst buffer.
    unfold Py.len in *. rewrite !length_app in Hfuel. cbn [List.length] in Hfuel.
    change (encode nl) with ["010"%byte] in Hfuel. cbn [List.length] in Hfuel. lia.
  - reflexivity.
Qed.

Lemma plain_commands_ascii (ls : list bytes) :
  Forall (fun l => plain_command l = true) ls ->
  Forall (fun l => PyStr.is_ascii (decode l) = true) ls.
Proof.
  apply Forall_impl. intros l Hl. now apply plain_command_parts in Hl.
Qed.

Lemma next_arrival_concat (i : list bytes) :
  fst (Socket.next_arrival i) ++ List.concat (snd (Socket.next_arrival i))
  = List.concat i.
Proof.
  induction i as [|c i IH]; [reflexivity|].
  cbn [Socket.next_arrival]. destruct c as [|x c]; cbn [Py.is_empty].
  - exact IH.
  - reflexivity.
Qed.

Lemma next_arrival_end (i : list bytes) :
  fst (Socket.next_arrival i) = [] -> snd (Socket.next_arrival i) = [].
Proof.
  induction i as [|c i IH]; [reflexivity|].
  cbn [Socket.next_arrival]. destruct c as [|x c]; cbn [Py.is_empty].
  - exact IH.
  - discriminate.
Qed.

(** A read returns the next bytes of the stream. *)
Lemma take_concat (n : nat) (i : list bytes) :
  fst (Socket.take n i) ++ List.concat (snd (Socket.take n i)) = List.concat i.
Proof.
  unfold Socket.take. pose proof (next_arrival_concat i) as H.
  destruct (Socket.next_arrival i) as [c rest]. cbn [fst snd] in H.
  destruct (Py.len c <=? n); cbn [fst snd List.concat].
  - exact H.
  - rewrite app_assoc, firstn_skipn. exact H.
Qed.

(** A read of at least one byte returns nothing only at the end of the
    stream. *)
Lemma take_nothing (n : nat) (i : list bytes) :
  0 < n -> fst (Socket.take n i) = [] ->
  snd (Socket.take n i) = [] /\ List.concat i = [].
Proof.
  intros Hn. unfold Socket.take.
  pose proof (next_arrival_concat i) as Hc.
  pose proof (next_arrival_end i) as He.
  destruct (Socket.next_arrival i) as [c rest]. cbn [fst snd] in *.
  destruct (Py.len c <=? n) eqn:E; cbn [fst snd].
  - intros ->. rewrite (He eq_refl) in *. split; [reflexivity|now symmetry].
  - intros H. destruct n; [inversion Hn|]. destruct c; discriminate.
Qed.

Lemma run_lines_inbound (self : FileServer) (ls : list bytes)
  (st : storage) (rb : bytes) (sn : list bytes) (cl : bool) :
  Forall (fun l => plain_command l = true) ls ->
  inbound (snd (run_lines self ls (mkWorld st [] rb sn cl))) = [].
Proof.
  intros Hls.
  pose proof (keeps_run_lines self ls Hls (mkWorld st [] rb sn cl) []) as H.
  change (set_inbound [] (mkWorld st [] rb sn cl)) with (mkWorld st [] rb sn cl) in H.
  destruct (run_lines self ls (mkWorld st [] rb sn cl)) as [r w'].
  cbn [fst snd] in *. injection H as H. rewrite H. reflexivity.
Qed.

(** The outer loop: whatever the reads are, the complete lines of the
    stream are dispatched in order, and what follows the last newline is
    never dispatched. *)
Lemma client_loop_run (self : FileServer) (n : nat) :
  0 < n ->
  forall fuel i buffer st rb sn cl,
    pending i < fuel ->
    lines_from [] buffer = ([], buffer) ->
    Forall (fun l => plain_command l = true)
      (fst (lines_from buffer (List.concat i))) ->
    observe (Server.client_loop self fuel n buffer (mkWorld st i rb sn cl))
    = observe (run_lines self (fst (lines_from buffer (List.concat i)))
                 (mkWorld st [] rb sn cl)).
Proof.
  intros Hn. induction fuel as [|fuel IH]; intros i buffer st rb sn cl Hfuel Hbuf Hlines;
    [inversion Hfuel|].
  cbn [Server.client_loop]. unfold bind at 1. unfold Socket.recv. cbn [inbound].
  pose proof (take_concat n i) as Hcat.
  pose proof (take_pending n i) as Hpend.
  pose proof (take_nothing n i Hn) as Hend.
  destruct (Socket.take n i) as [data rest]. cbn [fst snd] in *.
  destruct data as [|x data]; cbn [Py.is_empty].
  - destruct (Hend eq_refl) as [-> Hnil]. rewrite Hnil. reflexivity.
  - clear Hend. rewrite <- Hcat in Hlines |- *.
    rewrite lines_from_app in Hlines |- *. cbn [fst] in Hlines |- *.
    apply Forall_app in Hlines as [Hl1 Hl2].
    unfold bind at 1.
    rewrite dispatch_lines_run;
      [|apply Nat.lt_succ_diag_r
       |rewrite (lines_from_prefix buffer (x :: data) Hbuf);
        now apply plain_commands_ascii].
    rewrite (lines_from_prefix buffer (x :: data) Hbuf).
    rewrite run_lines_app.
    unfold bind.
    change (set_inbound rest (mkWorld st i rb sn cl))
      with (set_inbound rest (mkWorld st [] rb sn cl)).
    rewrite (keeps_run_lines self _ Hl1 (mkWorld st [] rb sn cl) rest).
    pose proof (run_lines_inbound self _ st rb sn cl Hl1) as Hin.
    destruct (run_lines self (fst (lines_from buffer (x :: data)))
                (mkWorld st [] rb sn cl)) as [[[]|e|] w1];
      cbn [fst snd] in *; [|reflexivity|reflexivity].
    destruct w1 as [st1 i1 rb1 sn1 cl1]. cbn [inbound] in Hin. subst i1.
    unfold ret, set_inbound. cbn [fs inbound rbuf sent closed].
    apply IH.
    + unfold Py.len in Hpend. cbn [List.length] in Hpend. lia.
    + now apply lines_from_tail.
    + exact Hl2.
Qed.

Lemma observe_try_finally_close (m1 m2 : M world unit) (w1 w2 : world) :
  observe (m1 w1) = observe (m2 w2) ->
  observe (try_finally m1 Socket.close w1) = observe (try_finally m2 Socket.close w2).
Proof.
  unfold observe, try_finally, Socket.close, set_closed.
  destruct (m1 w1) as [[[]|e1|] v1]; destruct (m2 w2) as [[[]|e2|] v2];
    cbn [fst snd fs sent closed]; intros H; inversion H; subst; reflexivity.
Qed.

Lemma handle_client_run (self : FileServer) (st : storage) (i : list bytes)
  (rb : bytes) (sn : list bytes) (cl : bool) :
  Forall (fun l => plain_command l = true)
    (fst (lines_from [] (List.concat i))) ->
  observe (Server._handle_client self (mkWorld st i rb sn cl))
  = observe (try_finally (run_lines self (fst (lines_from [] (List.concat i))))
               Socket.close (mkWorld st [] rb sn cl)).
Proof.
  intros Hlines. unfold Server._handle_client.
  apply observe_try_finally_close. unfold with_fuel.
  apply client_loop_run.
  - apply Nat.lt_0_succ.
  - unfold fuel_of. cbn [inbound rbuf]. lia.
  - reflexivity.
  - exact Hlines.
Qed.

(** On a stream whose complete lines are ASCII text, none of them a LOAD
    line, the threaded connection handler dispatches each complete line
    once, in the order of the stream, whatever the reads are; what follows
    the last newline is never dispatched; then the connection is closed. *)
Theorem threaded_loop_dispatches_complete_lines_in_order
  (self : FileServer) (w : world) :
  Forall (fun l => plain_command l = true)
    (fst (lines_from [] (List.concat (inbound w)))) ->
  observe (Server._handle_client self w)
  = observe (try_finally
               (run_lines self (fst (lines_from [] (List.concat (inbound w)))))
               Socket.close (set_inbound [] w)).
Proof.
  destruct w as [st i rb sn cl]. cbn [inbound]. apply handle_client_run.
Qed.

(** Two commands and the start of a third, in three reads that cut the
    lines anywhere. *)
Lemma threaded_loop_dispatches_complete_lines_in_order_witness :
  observe (Server._handle_client Scenario.threaded
             (Scenario.accepted Scenario.logs
                [encode "GET FI"; encode ("LES *.txt" +++ nl +++ "PING");
                 encode (nl +++ "GET FILE one")]))
  = (Ok tt, Scenario.logs,
     [Scenario.line "two.txt"; Scenario.line "ERROR Unknown command"], true).
Proof.
  rewrite (threaded_loop_dispatches_complete_lines_in_order Scenario.threaded
             (Scenario.accepted Scenario.logs
                [encode "GET FI"; encode ("LES *.txt" +++ nl +++ "PING");
                 encode (nl +++ "GET FILE one")])).
  - reflexivity.
  - repeat constructor.
Defined.

(** The replies of the threaded connection handler to a stream whose
    complete lines are ASCII text, none of them a LOAD line, and the storage
    it leaves, do not depend on how the stream is cut into reads. *)
Theorem threaded_replies_ignore_read_boundaries
  (self : FileServer) (st : storage) (i1 i2 : list bytes)
  (rb : bytes) (sn : list bytes) (cl : bool) :
  List.concat i1 = List.concat i2 ->
  Forall (fun l => plain_command l = true)
    (fst (lines_from [] (List.concat i1))) ->
  observe (Server._handle_client self (mkWorld st i1 rb sn cl))
  = observe (Server._handle_client self (mkWorld st i2 rb sn cl)).
Proof.
  intros Hsame Hlines.
  rewrite (handle_client_run self st i1) by exact Hlines.
  rewrite (handle_client_run self st i2) by (rewrite <- Hsame; exact Hlines).
  now rewrite Hsame.
Qed.

(** The same two commands in one read and in three. *)
Lemma threaded_replies_ignore_read_boundaries_witness :
  observe (Server._handle_client Scenario.threaded
             (Scenario.accepted Scenario.logs
                [encode ("GET FILES *.txt" +++ nl +++ "GET FILE two.txt" +++ nl)]))
  = observe (Server._handle_client Scenario.threaded
               (Scenario.accepted Scenario.logs
                  [encode "GET FILES *."; encode ("txt" +++ nl +++ "GET FI");
                   encode ("LE two.txt" +++ nl)])).
Proof.
  apply threaded_replies_ignore_read_boundaries.
  - reflexivity.
  - repeat constructor.
Defined.

(** ** Further properties of the dispatchers *)

(** The words that follow the file name on an ASCII LOAD line have no
    effect in either runtime: the COMPRESSED flag the client appends is not
    looked at, and two LOAD lines for the same name are handled alike. *)
Theorem load_line_words_after_name_are_ignored
  (self : FileServer) (line1 line2 p q filename : str) (rest1 rest2 : list str)
  (w : world) :
  PyStr.is_ascii line1 = true ->
  PyStr.is_ascii line2 = true ->
  Py.split line1 = p :: filename :: rest1 ->
  Py.split line2 = q :: filename :: rest2 ->
  Py.upper p = "LOAD" ->
  Py.upper q = "LOAD" ->
  Server._dispatch_command self line1 w = Server._dispatch_command self line2 w
  /\ Server._dispatch_command_async self line1 w
     = Server._dispatch_command_async self line2 w
  /\ Server._dispatch_command_async self line1 w
     = Server._cmd_load_async self filename w.
Proof.
  intros _ _ H1 H2 Hp Hq.
  unfold Server._dispatch_command, Server._dispatch_command_async.
  rewrite H1, H2. cbv zeta. rewrite Hp, Hq.
  cbn [String.eqb Ascii.eqb Bool.eqb].
  unfold Server.index. cbn [nth_error].
  repeat split.
Qed.

(** [LOAD a.zip COMPRESSED] and [load a.zip]. *)
Lemma load_line_words_after_name_are_ignored_witness :
  Server._dispatch_command Scenario.threaded "LOAD a.zip COMPRESSED"
    (Scenario.accepted [] [Scenario.line "<END>"])
  = Server._dispatch_command Scenario.threaded "load a.zip"
      (Scenario.accepted [] [Scenario.line "<END>"]).
Proof.
  exact (proj1 (load_line_words_after_name_are_ignored Scenario.threaded
                  "LOAD a.zip COMPRESSED" "load a.zip" "LOAD" "load" "a.zip"
                  ["COMPRESSED"] [] (Scenario.accepted [] [Scenario.line "<END>"])
                  eq_refl eq_refl eq_refl eq_refl eq_refl eq_refl)).
Defined.

(** A LOAD line without a file name: the threaded dispatcher answers with
    the text of the [IndexError] and returns; the async dispatcher raises
    the [IndexError] to the connection loop and writes nothing.  Neither
    writes [READY] or touches the storage directory. *)
Theorem load_without_name
  (self : FileServer) (line p : str) (w : world) :
  Py.split line = [p] ->
  Py.upper p = "LOAD" ->
  Server._dispatch_command self line w
  = (Ok tt, push_all [encode ("ERROR list index out of range" +++ nl)] w)
  /\ Server._dispatch_command_async self line w
     = (Raise (mkExn IndexError "list index out of range"), w).
Proof.
  intros Hsplit Hp.
  unfold Server._dispatch_command, Server._dispatch_command_async.
  rewrite Hsplit. cbv zeta. rewrite Hp.
  cbn [String.eqb Ascii.eqb Bool.eqb].
  split; reflexivity.
Qed.

Lemma load_without_name_witness :
  Server._dispatch_command Scenario.threaded "load" (Scenario.accepted [] [])
  = (Ok tt,
     push_all [encode ("ERROR list index out of range" +++ nl)]
       (Scenario.accepted [] []))
  /\ Server._dispatch_command_async Scenario.async "load" (Scenario.accepted [] [])
     = (Raise (mkExn IndexError "list index out of range"), Scenario.accepted [] []).
Proof.
  exact (load_without_name Scenario.async "load" "load" (Scenario.accepted [] [])
           eq_refl eq_refl).
Defined.

(** An ASCII GET line of three words or more whose second word is neither
    FILE nor FILES gets no reply from the async dispatcher: it returns
    normally and writes nothing, where the threaded one answers with an
    error line. *)
Theorem async_unknown_get_subcommand_gets_no_reply
  (self : FileServer) (line p0 p1 p2 : str) (rest : list str) (w : world) :
  PyStr.is_ascii line = true ->
  Py.split line = p0 :: p1 :: p2 :: rest ->
  Py.upper p0 = "GET" ->
  Py.upper p1 <> "FILE" ->
  Py.upper p1 <> "FILES" ->
  Server._dispatch_command_async self line w = (Ok tt, w)
  /\ sent (snd (Server._dispatch_command self line w))
     = sent w ++ [encode ("ERROR Unknown GET subcommand" +++ nl)].
Proof.
  intros _ Hsplit Hget Hfile Hfiles.
  apply String.eqb_neq in Hfile. apply String.eqb_neq in Hfiles.
  unfold Server._dispatch_command, Server._dispatch_command_async.
  rewrite Hsplit. cbv zeta. rewrite Hget.
  cbn [String.eqb Ascii.eqb Bool.eqb andb List.length Nat.leb].
  unfold try_except, bind, Server.index. cbn [nth_error ret].
  rewrite Hfile, Hfiles. split; reflexivity.
Qed.

Lemma async_unknown_get_subcommand_gets_no_reply_witness :
  Server._dispatch_command_async Scenario.async "GET SIZE one.log"
    (Scenario.accepted Scenario.logs [])
  = (Ok tt, Scenario.accepted Scenario.logs []).
Proof.
  refine (proj1 (async_unknown_get_subcommand_gets_no_reply Scenario.async
                   "GET SIZE one.log" "GET" "SIZE" "one.log" []
                   (Scenario.accepted Scenario.logs []) eq_refl eq_refl eq_refl _ _));
    discriminate.
Defined.

(** ** Further properties of the client's upload *)

Lemma stream_file_frames (n : nat) (progress_cb : bool) :
  0 < n ->
  forall fuel rest c,
    Py.len rest < fuel ->
    FileClient.stream_file fuel n progress_cb rest c
    = (Ok tt,
       mkClient (connected c) (local_fs c) (from_server c)
         (to_server c ++ chunks fuel n rest)
         (progress c
          ++ (if progress_cb then map Py.len (chunks fuel n rest) else []))).
Proof.
  intros Hn. induction fuel as [|fuel IH]; intros rest c Hlt; [inversion Hlt|].
  cbn [FileClient.stream_file chunks].
  destruct (Py.is_empty (firstn n rest)) eqn:E.
  - unfold ret. destruct c, progress_cb; cbn; now rewrite !app_nil_r.
  - unfold bind, FileClient.sendall, FileClient.notify.
    assert (Hfuel : Py.len (skipn n rest) < fuel).
    { unfold Py.len in *. rewrite length_skipn.
      destruct rest; [destruct n; discriminate|].
      cbn [List.length] in *. lia. }
    destruct progress_cb; rewrite IH by exact Hfuel;
      cbn [connected local_fs from_server to_server progress map];
      now rewrite <- !app_assoc.
Qed.

Lemma sum_len_concat (l : list bytes) :
  list_sum (map Py.len l) = Py.len (List.concat l).
Proof.
  induction l as [|x l IH]; [reflexivity|].
  change (list_sum (map Py.len (x :: l)))
    with (Py.len x + list_sum (map Py.len l)).
  rewrite IH. cbn [List.concat]. unfold Py.len. now rewrite length_app.
Qed.

Lemma remove_put_absent (name : str) (e : entry) (st : storage) :
  Storage.lookup name st = None ->
  Storage.remove name (Storage.put name e st) = st.
Proof.
  induction st as [|[k v] st IH]; cbn [Storage.lookup Storage.put Storage.remove].
  - intros _. now rewrite String.eqb_refl.
  - destruct (String.eqb k name) eqn:E; [discriminate|].
    intros H. cbn [Storage.remove]. rewrite E. now rewrite IH.
Qed.

Lemma lookup_remove_other (name other : str) (st : storage) :
  other <> name ->
  Storage.lookup other (Storage.remove name st) = Storage.lookup other st.
Proof.
  intros Hne. induction st as [|[k v] st IH]; [reflexivity|].
  cbn [Storage.remove Storage.lookup].
  destruct (String.eqb k name) eqn:E.
  - apply String.eqb_eq in E. subst k.
    destruct (String.eqb name other) eqn:E2; [|reflexivity].
    apply String.eqb_eq in E2. now subst.
  - cbn [Storage.lookup]. now rewrite IH.
Qed.

(** The run of an upload that the server accepts. *)
Lemma upload_accepted_run (zip_archive : str -> bytes -> bytes)
  (file_name : str) (compress progress_cb : bool) (c : client) :
  connected c = true ->
  Storage.isfile file_name (local_fs c) = true ->
  (compress = true ->
   Storage.lookup (file_name +++ ".zip") (local_fs c) <> Some Dir) ->
  Py.strip (decode (fst (Socket.take 1024 (from_server c)))) = "READY" ->
  let sent_path := if compress then file_name +++ ".zip" else file_name in
  let files :=
    if compress
    then Storage.put sent_path
           (File (zip_archive (Py.basename file_name)
                    (Storage.read file_name (local_fs c))))
           (local_fs c)
    else local_fs c in
  let body := Storage.read sent_path files in
  let command :=
    "LOAD " +++ Py.basename sent_path +++ " "
    +++ (if compress then "COMPRESSED" else "") +++ nl in
  let payload := chunks (S (Py.len body)) 4096 body in
  FileClient.upload zip_archive file_name compress progress_cb c
  = (Ok tt,
     mkClient true
       (if compress then Storage.remove sent_path files else files)
       (snd (Socket.take 1024 (from_server c)))
       (to_server c ++ [encode command] ++ payload ++ [END_MARK])
       (progress c ++ (if progress_cb then map Py.len payload else []))).
Proof.
  intros Hconn Hfile Hzip Hresp. cbv zeta.
  destruct (Socket.take 1024 (from_server c)) as [data rest] eqn:E.
  cbn [fst snd] in *.
  assert (Hascii : PyStr.is_ascii (decode data) = true)
    by (apply is_ascii_strip; now rewrite Hresp).
  assert (Hpos : 0 < 4096) by apply Nat.lt_0_succ.
  unfold FileClient.upload, bind, FileClient.is_connected, FileClient.isfile.
  rewrite Hconn. cbn beta iota delta [negb]. rewrite Hfile.
  cbn beta iota delta [negb].
  destruct compress.
  - unfold FileClient.compress_file, bind, FileClient.open_rb, FileClient.write_file, ret.
    specialize (Hzip eq_refl).
    assert (Hwrite :
              match Storage.lookup (file_name +++ ".zip") (local_fs c) with
              | Some Dir => false
              | _ => true
              end = true)
      by (destruct (Storage.lookup (file_name +++ ".zip") (local_fs c)) as [[old|]|];
          try reflexivity; exfalso; now apply Hzip).
    destruct (Storage.lookup (file_name +++ ".zip") (local_fs c)) as [[old|]|];
      try discriminate Hwrite;
    unfold try_except, bind, FileClient.sendall, FileClient.recv;
    cbn beta iota delta [from_server to_server local_fs connected progress];
    rewrite E, Hascii; cbn beta iota delta [negb]; rewrite Hresp;
    cbn beta iota delta [negb String.eqb Ascii.eqb Bool.eqb];
    unfold FileClient.open_rb;
    cbn beta iota delta [from_server to_server local_fs connected progress];
    rewrite (stream_file_frames 4096 progress_cb Hpos) by apply Nat.lt_succ_diag_r;
    unfold FileClient.remove;
    cbn beta iota delta [from_server to_server local_fs connected progress];
    rewrite Hconn, <- !app_assoc; reflexivity.
  - unfold ret.
    unfold try_except, bind, FileClient.sendall, FileClient.recv.
    cbn beta iota delta [from_server to_server local_fs connected progress].
    rewrite E, Hascii. cbn beta iota delta [negb]. rewrite Hresp.
    cbn beta iota delta [negb String.eqb Ascii.eqb Bool.eqb].
    unfold FileClient.open_rb.
    cbn beta iota delta [from_server to_server local_fs connected progress].
    rewrite (stream_file_frames 4096 progress_cb Hpos) by apply Nat.lt_succ_diag_r.
    unfold FileClient.sendall, ret.
    cbn beta iota delta [from_server to_server local_fs connected progress].
    rewrite Hconn, <- !app_assoc. reflexivity.
Qed.


(** When the server answers READY, [upload] without compression sends the
    LOAD line for the base name of the path, then the bytes of the file in
    frames of at most 4096 bytes, then the sentinel, and nothing else; the
    progress callback is called once per frame with its length, so the
    calls add up to the size of the file; the local files are untouched and
    the call returns normally. *)
Theorem upload_sends_command_file_and_sentinel
  (zip_archive : str -> bytes -> bytes)
  (file_name : str) (content : bytes) (progress_cb : bool) (c : client) :
  connected c = true ->
  Storage.lookup file_name (local_fs c) = Some (File content) ->
  Py.strip (decode (fst (Socket.take 1024 (from_server c)))) = "READY" ->
  exists payload : list bytes,
    List.concat payload = content
    /\ Forall (fun p => 0 < Py.len p <= 4096) payload
    /\ FileClient.upload zip_archive file_name false progress_cb c
       = (Ok tt,
          mkClient true (local_fs c) (snd (Socket.take 1024 (from_server c)))
            (to_server c
             ++ [encode ("LOAD " +++ Py.basename file_name +++ " " +++ nl)]
             ++ payload ++ [END_MARK])
            (progress c ++ (if progress_cb then map Py.len payload else [])))
    /\ list_sum (map Py.len payload) = Py.len content.
Proof.
  intros Hconn Hfile Hresp.
  destruct (lookup_file_isfile _ _ _ Hfile) as [Hpresent Hread].
  exists (chunks (S (Py.len content)) 4096 content).
  assert (Hcat : List.concat (chunks (S (Py.len content)) 4096 content) = content)
    by (apply chunks_concat; [apply Nat.lt_0_succ|apply Nat.lt_succ_diag_r]).
  split; [exact Hcat|]. split; [apply chunks_bounded|]. split.
  - pose proof (upload_accepted_run zip_archive file_name false progress_cb c
                  Hconn Hpresent (fun H => ltac:(discriminate H)) Hresp) as Hrun.
    cbv zeta in Hrun. cbn iota in Hrun. rewrite Hread in Hrun. exact Hrun.
  - now rewrite sum_len_concat, Hcat.
Qed.

(** The upload of the seven bytes [data123], with a progress callback. *)
Lemma upload_sends_command_file_and_sentinel_witness :
  exists payload : list bytes,
    List.concat payload = encode "data123"
    /\ FileClient.upload Scenario.stored_zip "/tmp/up.txt" false true
         (mkClient true [("/tmp/up.txt", File (encode "data123"))]
            [Scenario.line "READY"] [] [])
       = (Ok tt,
          mkClient true [("/tmp/up.txt", File (encode "data123"))] []
            ([Scenario.line "LOAD up.txt "] ++ payload ++ [END_MARK])
            (map Py.len payload)).
Proof.
  destruct (upload_sends_command_file_and_sentinel Scenario.stored_zip
              "/tmp/up.txt" (encode "data123") true
              (mkClient true [("/tmp/up.txt", File (encode "data123"))]
                 [Scenario.line "READY"] [] [])
              eq_refl eq_refl eq_refl)
    as (payload & Hcat & _ & Hrun & _).
  exists payload. split; [exact Hcat|exact Hrun].
Defined.

(** When the server answers READY and no directory stands at [<path>.zip],
    [upload] with compression writes the archive of the file beside it as
    [<path>.zip], sends the LOAD line for the base name of the archive with
    the word COMPRESSED, then the bytes of the archive and the sentinel, and
    removes the archive: when no [<path>.zip] existed before, the local
    files are afterwards exactly what they were; every other path is as it
    was in any case. *)
Theorem compressed_upload_sends_archive_and_removes_it
  (zip_archive : str -> bytes -> bytes)
  (file_name : str) (content : bytes) (progress_cb : bool) (c : client) :
  connected c = true ->
  Storage.lookup file_name (local_fs c) = Some (File content) ->
  Storage.lookup (file_name +++ ".zip") (local_fs c) <> Some Dir ->
  Py.strip (decode (fst (Socket.take 1024 (from_server c)))) = "READY" ->
  let archive := zip_archive (Py.basename file_name) content in
  let c' := snd (FileClient.upload zip_archive file_name true progress_cb c) in
  exists payload : list bytes,
    List.concat payload = archive
    /\ fst (FileClient.upload zip_archive file_name true progress_cb c) = Ok tt
    /\ to_server c'
       = to_server c
         ++ [encode ("LOAD " +++ Py.basename (file_name +++ ".zip")
                     +++ " COMPRESSED" +++ nl)]
         ++ payload ++ [END_MARK]
    /\ (forall other, other <> file_name +++ ".zip" ->
          Storage.lookup other (local_fs c') = Storage.lookup other (local_fs c))
    /\ (Storage.lookup (file_name +++ ".zip") (local_fs c) = None ->
          local_fs c' = local_fs c).
Proof.
  intros Hconn Hfile Hzip Hresp archive c'.
  destruct (lookup_file_isfile _ _ _ Hfile) as [Hpresent Hread].
  pose proof (upload_accepted_run zip_archive file_name true progress_cb c
                Hconn Hpresent (fun _ => Hzip) Hresp) as Hrun.
  cbv zeta in Hrun. cbn iota in Hrun.
  rewrite Hread in Hrun. fold archive in Hrun.
  unfold Storage.read in Hrun. rewrite lookup_put in Hrun.
  subst c'. rewrite Hrun. cbn [fst snd to_server local_fs].
  exists (chunks (S (Py.len archive)) 4096 archive).
  split; [apply chunks_concat; [apply Nat.lt_0_succ|apply Nat.lt_succ_diag_r]|].
  split; [reflexivity|]. split; [reflexivity|]. split.
  - intros other Hother.
    rewrite lookup_remove_other by exact Hother.
    apply lookup_put_other. congruence.
  - intros Habsent. now apply remove_put_absent.
Qed.

(** The compressed upload of [data123]: the archive goes out under the name
    [up.txt.zip] and is gone afterwards. *)
Lemma compressed_upload_sends_archive_and_removes_it_witness :
  exists payload : list bytes,
    List.concat payload = Scenario.stored_zip "up.txt" (encode "data123")
    /\ to_server
         (snd (FileClient.upload Scenario.stored_zip "/tmp/up.txt" true false
                 (mkClient true [("/tmp/up.txt", File (encode "data123"))]
                    [Scenario.line "READY"] [] [])))
       = [Scenario.line "LOAD up.txt.zip COMPRESSED"] ++ payload ++ [END_MARK]
    /\ local_fs
         (snd (FileClient.upload Scenario.stored_zip "/tmp/up.txt" true false
                 (mkClient true [("/tmp/up.txt", File (encode "data123"))]
                    [Scenario.line "READY"] [] [])))
       = [("/tmp/up.txt", File (encode "data123"))].
Proof.
  destruct (compressed_upload_sends_archive_and_removes_it Scenario.stored_zip
              "/tmp/up.txt" (encode "data123") false
              (mkClient true [("/tmp/up.txt", File (encode "data123"))]
                 [Scenario.line "READY"] [] [])
              eq_refl eq_refl ltac:(discriminate) eq_refl)
    as (payload & Hcat & _ & Hsent & _ & Hfs).
  exists payload. split; [exact Hcat|]. split; [exact Hsent|].
  exact (Hfs eq_refl).
Defined.

(** ** The client's upload against the server *)

Lemma lstrip_nonspace (c : ascii) (s : str) :
  Py.isspace c = false -> Py.lstrip (String c s) = String c s.
Proof.
  intros H. cbn [Py.lstrip]. now rewrite H.
Qed.

(** The LOAD line of the client, with or without the newline, is split by
    the dispatchers into LOAD, the label and what follows. *)
Lemma load_command_words (label : str) (compress : bool) (ws : str) :
  is_word label = true ->
  Py.rstrip ws = "" ->
  Py.split (Py.strip (("LOAD " +++ label +++ " "
                       +++ (if compress then "COMPRESSED" else "")) +++ ws))
  = "LOAD" :: label :: (if compress then ["COMPRESSED"] else []).
Proof.
  intros Hlabel Hws.
  unfold Py.strip.
  change (("LOAD " +++ label +++ " " +++ (if compress then "COMPRESSED" else "")) +++ ws)
    with (String "L" (("OAD " +++ label +++ " "
                       +++ (if compress then "COMPRESSED" else "")) +++ ws)).
  rewrite lstrip_nonspace by reflexivity.
  change (String "L" (("OAD " +++ label +++ " "
                       +++ (if compress then "COMPRESSED" else "")) +++ ws))
    with (("LOAD " +++ label +++ " " +++ (if compress then "COMPRESSED" else "")) +++ ws).
  destruct compress.
  - rewrite rstrip_app_blank by exact Hws.
    replace ("LOAD " +++ label +++ " " +++ "COMPRESSED")
      with (("LOAD " +++ label +++ " ") +++ "COMPRESSED")
      by (cbn [String.append]; now rewrite sappend_assoc).
    rewrite rstrip_ends_with_word by reflexivity.
    unfold Py.split.
    change (("LOAD " +++ label +++ " ") +++ "COMPRESSED")
      with ("LOAD" +++ String " " ((label +++ " ") +++ "COMPRESSED")).
    rewrite split_word_then_space by reflexivity.
    rewrite sappend_assoc. cbn [String.append].
    rewrite split_word_then_space by (try exact Hlabel; reflexivity).
    reflexivity.
  - replace (("LOAD " +++ label +++ " " +++ "") +++ ws)
      with (("LOAD " +++ label) +++ (" " +++ ws))
      by (cbn [String.append]; now rewrite !sappend_assoc).
    rewrite rstrip_app_blank
      by (cbn [String.append Py.rstrip]; rewrite Hws; reflexivity).
    rewrite rstrip_ends_with_word by exact Hlabel.
    unfold Py.split.
    change ("LOAD " +++ label) with ("LOAD" +++ String " " label).
    rewrite split_word_then_space by reflexivity.
    now rewrite split_word_at_end.
Qed.

Lemma no_newline_load_command (label : str) (compress : bool) :
  is_word label = true ->
  Spec.no_newline ("LOAD " +++ label +++ " "
                   +++ (if compress then "COMPRESSED" else "")) = true.
Proof.
  intros Hlabel. apply is_word_parts in Hlabel as [_ Hns].
  rewrite no_newline_app, no_newline_app.
  rewrite (no_space_no_newline label Hns).
  now destruct compress.
Qed.

(** A LOAD line with a name is the upload handler on that name; the
    threaded dispatcher reports what the handler raises. *)
Lemma dispatch_load (self : FileServer) (line p filename : str) (rest : list str)
  (w : world) :
  Py.split line = p :: filename :: rest ->
  Py.upper p = "LOAD" ->
  Server._dispatch_command self line w
  = try_except (Server._cmd_load self filename) (Server.report) w
  /\ Server._dispatch_command_async self line w
     = Server._cmd_load_async self filename w.
Proof.
  intros Hsplit Hp.
  unfold Server._dispatch_command, Server._dispatch_command_async.
  rewrite Hsplit. cbv zeta. rewrite Hp.
  cbn [String.eqb Ascii.eqb Bool.eqb].
  unfold Server.index. cbn [nth_error].
  split; reflexivity.
Qed.

Lemma client_loop_one_read (self : FileServer) (fuel n : nat)
  (buffer data : bytes) (rest : list bytes)
  (st : storage) (rb : bytes) (sn : list bytes) (cl : bool) :
  one_read n data ->
  Server.client_loop self (S fuel) n buffer (mkWorld st (data :: rest) rb sn cl)
  = (b <- Server.dispatch_lines self (S (Py.len (buffer ++ data))) (buffer ++ data) ;;
     Server.client_loop self fuel n b) (mkWorld st rest rb sn cl).
Proof.
  intros Hdata. cbn [Server.client_loop]. unfold bind at 1.
  unfold Socket.recv. cbn [inbound]. rewrite (take_one_read n) by exact Hdata.
  rewrite (one_read_not_empty n data Hdata). reflexivity.
Qed.

Lemma client_loop_eof (self : FileServer) (fuel n : nat) (buffer : bytes)
  (st : storage) (rb : bytes) (sn : list bytes) (cl : bool) :
  Server.client_loop self (S fuel) n buffer (mkWorld st [] rb sn cl)
  = (Ok tt, mkWorld st [] rb sn cl).
Proof.
  cbn [Server.client_loop]. unfold bind, Socket.recv, Socket.take.
  cbn [inbound Socket.next_arrival Py.len List.length Nat.leb Py.is_empty].
  reflexivity.
Qed.

Lemma dispatch_lines_single (self : FileServer) (fuel : nat)
  (buffer line : bytes) (w : world) :
  Py.split_once (encode nl) buffer = Some (line, []) ->
  PyStr.is_ascii (decode line) = true ->
  Server.dispatch_lines self (S (S fuel)) buffer w
  = (Server._dispatch_command self (Py.strip (decode line)) ;; ret []) w.
Proof.
  intros Hline Hascii. cbn [Server.dispatch_lines]. rewrite Hline, Hascii.
  reflexivity.
Qed.

Lemma readline_from_unfold (i : list bytes) (buf : bytes) :
  Stream.readline_from i buf =
  match Py.split_once (encode nl) buf with
  | Some (line, rest) => (line ++ encode nl, rest, i)
  | None =>
      match i with
      | [] => (buf, [], [])
      | c :: i' => Stream.readline_from i' (buf ++ c)
      end
  end.
Proof.
  destruct i; reflexivity.
Qed.

(** The first [readline] of a stream that starts with a complete line of
    ASCII text within the reader's limit. *)
Lemma client_loop_async_first_line (self : FileServer) (fuel : nat)
  (command : str) (rest : list bytes) (st : storage) (sn : list bytes)
  (cl : bool) :
  Spec.no_newline command = true ->
  PyStr.is_ascii command = true ->
  String.length command <= 2000 ->
  Server.client_loop_async self (S fuel)
    (mkWorld st (encode (command +++ nl) :: rest) [] sn cl)
  = (Server._dispatch_command_async self (Py.strip (command +++ nl)) ;;
     Server.client_loop_async self fuel) (mkWorld st rest [] sn cl).
Proof.
  intros Hnonl Hascii Hlen.
  assert (Hsize : Py.len (encode (command +++ nl)) = S (String.length command)).
  { rewrite length_encode, slength_app. change (String.length nl) with 1. lia. }
  cbn [Server.client_loop_async]. unfold bind at 1. unfold Stream.at_eof.
  cbn [inbound rbuf Py.is_empty andb pending fold_right].
  rewrite Hsize. cbn [Nat.add Nat.eqb].
  unfold bind at 1. unfold Stream.readline. cbn [inbound rbuf].
  rewrite readline_from_unfold.
  change (Py.split_once (encode nl) []) with (@None (bytes * bytes)).
  cbn iota. rewrite readline_from_unfold. cbn [app].
  rewrite <- (app_nil_r (encode (command +++ nl))) at 1.
  rewrite split_once_line by exact Hnonl.
  rewrite <- encode_app.
  assert (Hlim : (Z.of_nat (Py.len (encode (command +++ nl))) <=? 65536)%Z = true)
    by (apply Z.leb_le; lia).
  rewrite Hlim.
  unfold set_rbuf, set_inbound. cbn [fs inbound rbuf sent closed].
  assert (Hne : Py.is_empty (encode (command +++ nl)) = false)
    by (destruct (encode (command +++ nl)); [discriminate Hsize|reflexivity]).
  rewrite Hne, decode_encode, is_ascii_app, Hascii.
  reflexivity.
Qed.

(** The server's side of an accepted upload: the LOAD line in one read,
    then the frames of a file without the sentinel, then the sentinel, each
    in a read of its own. *)
Lemma serve_stores_upload (self : FileServer) (label : str) (compress : bool)
  (body : bytes) (st : storage) (sn : list bytes) (cl : bool) :
  is_word label = true ->
  Files.entry_name label = true ->
  Spec.sentinel_free body ->
  Storage.lookup label st <> Some Dir ->
  Server.serve self
    (mkWorld st
       ([encode ("LOAD " +++ label +++ " "
                 +++ (if compress then "COMPRESSED" else "") +++ nl)]
        ++ chunks (S (Py.len body)) 4096 body ++ [END_MARK])
       [] sn cl)
  = (Ok tt,
     mkWorld (Storage.put label (File body) st) [] []
       (sn ++ [encode ("READY" +++ nl)]) true).
Proof.
  intros Hlabel Hname Hfree Hdir.
  destruct (entry_name_parts label Hname) as [Hascii Hlen].
  set (flag := if compress then "COMPRESSED" else "").
  set (command := "LOAD " +++ label +++ " " +++ flag).
  set (payload := chunks (S (Py.len body)) 4096 body).
  assert (Hcmd : encode ("LOAD " +++ label +++ " " +++ flag +++ nl)
                 = encode (command +++ nl)).
  { unfold command. cbn [String.append]. now rewrite !sappend_assoc. }
  rewrite Hcmd.
  assert (Hnonl : Spec.no_newline command = true)
    by (apply no_newline_load_command; exact Hlabel).
  assert (Hcommand : PyStr.is_ascii command = true).
  { unfold command. rewrite !is_ascii_app, Hascii.
    unfold flag. now destruct compress. }
  assert (Hcat : List.concat payload = body)
    by (apply chunks_concat; [apply Nat.lt_0_succ|apply Nat.lt_succ_diag_r]).
  assert (Hload : forall rb,
             Server._cmd_load self label
               (mkWorld st (payload ++ [END_MARK]) rb sn cl)
             = (Ok tt, mkWorld (Storage.put label (File body) st) [] rb
                         (sn ++ [encode ("READY" +++ nl)]) cl)).
  { intros rb.
    pose proof (cmd_load_stores_reads self label payload END_MARK [] [] []
                  (mkWorld st (payload ++ [END_MARK]) rb sn cl)
                  Hname eq_refl (chunks_are_reads 4096 _ body Hfree)
                  sentinel_is_one_read eq_refl Hdir) as H.
    rewrite app_nil_r, Hcat in H. exact H. }
  assert (Hload_async :
             Server._cmd_load_async self label
               (mkWorld st (payload ++ [END_MARK]) [] sn cl)
             = (Ok tt, mkWorld (Storage.put label (File body) st) [] []
                         (sn ++ [encode ("READY" +++ nl)]) cl)).
  { pose proof (cmd_load_async_stores_reads self label payload END_MARK [] [] []
                  (mkWorld st (payload ++ [END_MARK]) [] sn cl)
                  Hname eq_refl eq_refl (chunks_are_reads 4096 _ body Hfree)
                  sentinel_is_one_read eq_refl Hdir) as H.
    rewrite app_nil_r, Hcat in H. exact H. }
  assert (Hflag : String.length flag <= 10) by (unfold flag; destruct compress; cbn; lia).
  assert (Hclen : String.length command = String.length label + 6 + String.length flag).
  { unfold command. cbn [String.append String.length].
    rewrite !slength_app. cbn [String.length]. lia. }
  assert (Hsize : Py.len (encode (command +++ nl)) = String.length label + 7 + String.length flag).
  { rewrite length_encode, slength_app, Hclen. change (String.length nl) with 1. lia. }
  assert (Hread : one_read 1024 (encode (command +++ nl))).
  { split; [|lia]. intros H. rewrite H in Hsize. cbn in Hsize. lia. }
  assert (Hpend : pending ([encode (command +++ nl)] ++ payload ++ [END_MARK])
                  = S (S (pending (payload ++ [END_MARK]) + (String.length label + 5 + String.length flag)))).
  { cbn [app pending fold_right]. fold (pending (payload ++ [END_MARK])).
    rewrite Hsize. lia. }
  unfold Server.serve.
  destruct (String.eqb (mode self) "threaded").
  - unfold Server._handle_client, try_finally, with_fuel, fuel_of.
    cbn [inbound rbuf]. rewrite Hpend. cbn [Py.len List.length Nat.add].
    cbn [app]. rewrite client_loop_one_read by exact Hread.
    cbn [app]. unfold bind at 1.
    rewrite Hsize.
    replace (S (String.length label + 7 + String.length flag))
      with (S (S (String.length label + 6 + String.length flag))) by lia.
    rewrite (dispatch_lines_single self _ _ (encode command))
      by (first [ rewrite <- (app_nil_r (encode (command +++ nl)));
                  now apply split_once_line
                | now rewrite decode_encode ]).
    unfold bind at 1.
    rewrite decode_encode.
    rewrite <- (sappend_nil_r command).
    destruct (dispatch_load self (Py.strip (command +++ "")) "LOAD" label
                (if compress then ["COMPRESSED"] else [])
                (mkWorld st (payload ++ [END_MARK]) [] sn cl)
                (load_command_words label compress "" Hlabel eq_refl) eq_refl)
      as [-> _].
    unfold try_except. rewrite Hload. unfold ret.
    rewrite client_loop_eof. reflexivity.
  - unfold Server._handle_client_async, try_finally, with_fuel, fuel_of.
    cbn [inbound rbuf]. rewrite Hpend. cbn [Py.len List.length Nat.add].
    cbn [app].
    rewrite client_loop_async_first_line by (try assumption; lia).
    unfold bind at 1.
    destruct (dispatch_load self (Py.strip (command +++ nl)) "LOAD" label
                (if compress then ["COMPRESSED"] else [])
                (mkWorld st (payload ++ [END_MARK]) [] sn cl)
                (load_command_words label compress nl Hlabel eq_refl) eq_refl)
      as [_ ->].
    rewrite Hload_async.
    destruct (pending (payload ++ [END_MARK]) + (String.length label + 5 + String.length flag))
      as [|k]; reflexivity.
Qed.

(** An upload end to end.  The client uploads a file the server accepts;
    the server reads what the client sent, one read per [sendall].  When
    the bytes sent hold no sentinel and the label is one ASCII word that can
    name an entry of the storage directory, the server, in either runtime,
    stores exactly these bytes under the label, answers READY and nothing
    else, and closes the connection when the client has closed its side.
    With compression, no directory standing at [<path>.zip], the bytes
    stored are those of the archive, under the name of the archive: the
    server does not unpack. *)
Theorem upload_is_stored_by_the_server
  (zip_archive : str -> bytes -> bytes) (self : FileServer)
  (file_name : str) (content : bytes) (compress progress_cb : bool)
  (c : client) (w : world) :
  let sent_path := if compress then file_name +++ ".zip" else file_name in
  let body :=
    if compress then zip_archive (Py.basename file_name) content else content in
  let label := Py.basename sent_path in
  connected c = true ->
  to_server c = [] ->
  Storage.lookup file_name (local_fs c) = Some (File content) ->
  Py.strip (decode (fst (Socket.take 1024 (from_server c)))) = "READY" ->
  (compress = true ->
   Storage.lookup (file_name +++ ".zip") (local_fs c) <> Some Dir) ->
  is_word label = true ->
  Files.entry_name label = true ->
  Spec.sentinel_free body ->
  Storage.lookup label (fs w) <> Some Dir ->
  rbuf w = [] ->
  inbound w
  = to_server (snd (FileClient.upload zip_archive file_name compress progress_cb c)) ->
  fst (FileClient.upload zip_archive file_name compress progress_cb c) = Ok tt
  /\ Server.serve self w
     = (Ok tt,
        mkWorld (Storage.put label (File body) (fs w)) [] []
          (sent w ++ [encode ("READY" +++ nl)]) true).
Proof.
  intros sent_path body label Hconn Hsent Hfile Hresp Hzip Hlabel Hname Hfree
    Hdir Hbuf.
  destruct (lookup_file_isfile _ _ _ Hfile) as [Hpresent Hread].
  pose proof (upload_accepted_run zip_archive file_name compress progress_cb c
                Hconn Hpresent Hzip Hresp) as Hrun.
  cbv zeta in Hrun. rewrite Hread, Hsent in Hrun.
  fold sent_path in Hrun.
  assert (Hbody : Storage.read sent_path
                    (if compress
                     then Storage.put sent_path
                            (File (zip_archive (Py.basename file_name) content))
                            (local_fs c)
                     else local_fs c) = body).
  { unfold body, sent_path. destruct compress.
    - apply read_put.
    - exact Hread. }
  rewrite Hbody in Hrun. fold label in Hrun.
  rewrite Hrun. cbn [fst snd to_server app]. intros Hin.
  split; [reflexivity|].
  destruct w as [st i rb sn cl]. cbn [fs inbound rbuf sent closed] in *.
  subst i rb.
  now apply (serve_stores_upload self label compress body st sn cl).
Qed.

(** The upload of [data123] as [/tmp/up.txt] against the threaded server. *)
Lemma upload_is_stored_by_the_server_witness :
  Server.serve Scenario.threaded
    (Scenario.accepted []
       [Scenario.line "LOAD up.txt "; encode "data123"; Scenario.line "<END>"])
  = (Ok tt,
     mkWorld [("up.txt", File (encode "data123"))] [] []
       [Scenario.line "READY"] true).
Proof.
  refine (proj2 (upload_is_stored_by_the_server Scenario.stored_zip
                   Scenario.threaded "/tmp/up.txt" (encode "data123") false true
                   (mkClient true [("/tmp/up.txt", File (encode "data123"))]
                      [Scenario.line "READY"] [] [])
                   (Scenario.accepted []
                      [Scenario.line "LOAD up.txt "; encode "data123";
                       Scenario.line "<END>"])
                   eq_refl eq_refl eq_refl eq_refl _ eq_refl eq_refl eq_refl _
                   eq_refl eq_refl)).
  - discriminate.
  - discriminate.
Defined.

(** ** The client's download *)

(** *** Numbers on the wire *)






(** *** The receive loop *)


Lemma pending_concat (i : list bytes) : pending i = Py.len (List.concat i).
Proof.
  induction i as [|c i IH]; [reflexivity|].
  cbn [pending fold_right List.concat]. fold (pending i).
  unfold Py.len in *. rewrite length_app. lia.
Qed.





(** *** The reply *)



Section DownloadRuns.

Variable decompress_file : str -> str -> M client unit.


End DownloadRuns.





(** Unless the reply is [READY] followed by one number, [download] raises
    and touches no local file: nothing is created or truncated, nothing
    more is read, and only the command has been sent.  A reply that starts
    with ERROR is raised as [FileNotFound] with the reply as its text;
    every other reply, the empty one of a closed connection and a READY
    line that arrived in one read with the first bytes of the file among
    them, is raised as [ErrorDuringDownload]. *)
Theorem download_without_announced_size_creates_no_file
  (decompress_file : str -> str -> M client unit)
  (file_name : str) (decompress : bool) (output_dir : str) (progress_cb : bool)
  (c : client) :
  connected c = true ->
  PyStr.is_ascii (decode (fst (Socket.take 1024 (from_server c)))) = true ->
  (forall p1 z,
      Py.split (Py.strip (decode (fst (Socket.take 1024 (from_server c)))))
        = ["READY"; p1] ->
      PyStr.int p1 <> Some z) ->
  exists e : exn,
    Download.download decompress_file file_name decompress output_dir progress_cb c
    = (Raise e,
       mkClient true (local_fs c) (snd (Socket.take 1024 (from_server c)))
         (to_server c ++ [encode ("GET FILE " +++ file_name +++ nl)])
         (progress c))
    /\ (if PyStr.startswith "ERROR"
             (Py.strip (decode (fst (Socket.take 1024 (from_server c)))))
        then e = mkExn FileNotFound
                   (Py.strip (decode (fst (Socket.take 1024 (from_server c)))))
        else exn_class e = ErrorDuringDownload).
Proof.
  intros Hconn Hascii Hreply.
  unfold Download.download. unfold bind at 1. unfold FileClient.is_connected.
  rewrite Hconn. cbn [negb]. unfold try_except.
  unfold bind at 1. unfold FileClient.sendall.
  unfold bind at 1. unfold FileClient.recv.
  cbn [connected local_fs from_server to_server progress].
  destruct (Socket.take 1024 (from_server c)) as [reply rest].
  cbn [fst snd] in *.
  rewrite Hascii, Hconn. cbn [negb].
  destruct (PyStr.startswith "ERROR" (Py.strip (decode reply))) eqn:E.
  { eexists. split; reflexivity. }
  destruct (Py.split (Py.strip (decode reply))) as [|p0 tl] eqn:Hsplit.
  { eexists. split; reflexivity. }
  unfold bind at 1. unfold Download.index at 1. cbn [nth_error ret].
  destruct (String.eqb p0 "READY") eqn:Hp0; cbn [negb orb];
    [|eexists; split; reflexivity].
  apply String.eqb_eq in Hp0. subst p0.
  destruct tl as [|p1 [|p2 tl]]; cbn [List.length Nat.eqb negb];
    try (eexists; split; reflexivity).
  unfold bind at 1. unfold Download.index at 1. cbn [nth_error ret].
  unfold bind at 1. unfold Download.int.
  destruct (PyStr.int p1) as [z|] eqn:Hint.
  - exfalso. now apply (Hreply p1 z).
  - eexists. split; reflexivity.
Qed.

(** The READY line and the whole file arrive in one read. *)
Lemma download_without_announced_size_creates_no_file_witness :
  exists e : exn,
    Download.download (fun _ _ => ret tt) "a.txt" false "out" true
      (mkClient true [("out", Dir)]
         [encode ("READY 5" +++ nl +++ "hello<END>" +++ nl)] [] [])
    = (Raise e,
       mkClient true [("out", Dir)] [] [Scenario.line "GET FILE a.txt"] [])
    /\ exn_class e = ErrorDuringDownload.
Proof.
  destruct (download_without_announced_size_creates_no_file (fun _ _ => ret tt)
              "a.txt" false "out" true
              (mkClient true [("out", Dir)]
                 [encode ("READY 5" +++ nl +++ "hello<END>" +++ nl)] [] [])
              eq_refl eq_refl)
    as (e & Hrun & Hclass).
  - intros p1 z H. discriminate H.
  - exists e. split; [exact Hrun|exact Hclass].
Defined.

(** ** The client's download against the server *)







(** ** The line framer of the async runtime *)

(** *** Computations that leave the stream reader alone *)

Lemma stream_ret {A} (a : A) : keeps_stream (ret a).
Proof. intros w i b. reflexivity. Qed.

Lemma stream_raise {A} (e : exn) : keeps_stream (@raise world A e).
Proof. intros w i b. reflexivity. Qed.

Lemma stream_stuck {A} : keeps_stream (@stuck world A).
Proof. intros w i b. reflexivity. Qed.

Lemma stream_bind {A B} (m : M world A) (k : A -> M world B) :
  keeps_stream m -> (forall a, keeps_stream (k a)) -> keeps_stream (bind m k).
Proof.
  intros Hm Hk w i b. unfold bind. rewrite Hm.
  destruct (m w) as [[a|e|] w']; cbn [fst snd]; [apply Hk|reflexivity|reflexivity].
Qed.

Lemma stream_write (data : bytes) : keeps_stream (Stream.write data).
Proof. intros w i b. reflexivity. Qed.

Lemma stream_isfile (name : str) : keeps_stream (Files.isfile name).
Proof.
  intros w i b. unfold Files.isfile. cbn [fs set_inbound set_rbuf].
  destruct (Storage.lookup name (fs w)); [reflexivity|].
  destruct (Files.entry_name name); reflexivity.
Qed.

Lemma stream_getsize (name : str) : keeps_stream (Files.getsize name).
Proof. intros w i b. reflexivity. Qed.

Lemma stream_open_rb (name : str) : keeps_stream (Files.open_rb name).
Proof. intros w i b. reflexivity. Qed.

Lemma stream_listdir : keeps_stream Files.listdir.
Proof. intros w i b. reflexivity. Qed.

Lemma stream_index (parts : list str) (k : nat) : keeps_stream (Server.index parts k).
Proof.
  unfold Server.index. destruct (nth_error parts k); [apply stream_ret|apply stream_raise].
Qed.

Lemma stream_send_chunks (n : nat) :
  forall fuel rest, keeps_stream (Server.send_chunks fuel n Stream.write rest).
Proof.
  induction fuel as [|fuel IH]; intros rest; cbn [Server.send_chunks].
  - apply stream_stuck.
  - destruct (Py.is_empty (firstn n rest)); [apply stream_ret|].
    apply stream_bind; [apply stream_write|intros _; apply IH].
Qed.

Lemma stream_cmd_get_file_async (filename : str) :
  keeps_stream (Server._cmd_get_file_async filename).
Proof.
  unfold Server._cmd_get_file_async.
  apply stream_bind; [apply stream_isfile|intros present].
  destruct (negb present); [apply stream_write|].
  apply stream_bind; [apply stream_getsize|intros size].
  apply stream_bind; [apply stream_write|intros _].
  apply stream_bind; [|intros _; apply stream_write].
  apply stream_bind; [apply stream_open_rb|intros f; apply stream_send_chunks].
Qed.

Lemma stream_cmd_get_files_async (pattern : str) :
  keeps_stream (Server._cmd_get_files_async pattern).
Proof.
  unfold Server._cmd_get_files_async.
  destruct (Server.listing_regex pattern); [|apply stream_stuck].
  apply stream_bind; [apply stream_listdir|intros names].
  destruct (negb (PyStr.is_ascii pattern && forallb PyStr.is_ascii names));
    [apply stream_stuck|apply stream_write].
Qed.

(** The async dispatcher reads the stream for LOAD lines only. *)
Lemma stream_dispatch_command_async (self : FileServer) (line : str) :
  is_load line = false -> keeps_stream (Server._dispatch_command_async self line).
Proof.
  unfold is_load, Server._dispatch_command_async.
  destruct (Py.split line) as [|p0 rest]; intros Hload; cbv zeta.
  - cbn [String.eqb andb]. apply stream_write.
  - rewrite Hload.
    destruct (String.eqb (Py.upper p0) "GET" && (3 <=? List.length (p0 :: rest)));
      [|apply stream_write].
    apply stream_bind; [apply stream_index|intros sub].
    destruct (String.eqb (Py.upper sub) "FILE").
    + apply stream_bind; [apply stream_index|intros f; apply stream_cmd_get_file_async].
    + destruct (String.eqb (Py.upper sub) "FILES"); [|apply stream_ret].
      apply stream_bind; [apply stream_index|intros p; apply stream_cmd_get_files_async].
Qed.

(** A computation that leaves the reader alone, started on an empty reader,
    ends on an empty reader. *)
Lemma stream_stays_empty {A} (m : M world A)
  (st : storage) (sn : list bytes) (cl : bool) :
  keeps_stream m ->
  inbound (snd (m (mkWorld st [] [] sn cl))) = []
  /\ rbuf (snd (m (mkWorld st [] [] sn cl))) = [].
Proof.
  intros Hm. pose proof (Hm (mkWorld st [] [] sn cl) [] []) as H.
  unfold set_rbuf, set_inbound in H. cbn [fs inbound rbuf sent closed] in H.
  destruct (m (mkWorld st [] [] sn cl)) as [r w']. cbn [fst snd] in *.
  inversion H as [Hw]. rewrite Hw at 1 2. split; reflexivity.
Qed.

(** *** Lines as [readline] returns them *)

Lemma decode_app (a b : bytes) : decode (a ++ b) = decode a +++ decode b.
Proof.
  rewrite <- (encode_decode a) at 1. rewrite <- (encode_decode b) at 1.
  now rewrite <- encode_app, decode_encode.
Qed.

(** The newline at the end of a line does not survive [strip]. *)
Lemma strip_line_end (s : str) : Py.strip (s +++ nl) = Py.strip s.
Proof.
  unfold Py.strip. induction s as [|c s IH]; [reflexivity|].
  cbn [String.append Py.lstrip]. destruct (Py.isspace c); [exact IH|].
  change (String c (s +++ nl)) with (String c s +++ nl).
  now apply rstrip_app_blank.
Qed.

Lemma split_once_nl_app (a b pre post : bytes) :
  Py.split_once (encode nl) a = Some (pre, post) ->
  Py.split_once (encode nl) (a ++ b) = Some (pre, post ++ b).
Proof.
  revert pre post. induction a as [|x a IH]; intros pre post H; [discriminate|].
  rewrite split_once_unfold in H.
  change ((x :: a) ++ b) with (x :: (a ++ b)). rewrite split_once_unfold.
  change (Py.strip_prefix (encode nl) (x :: a))
    with (if Py.byte_eqb "010"%byte x then Some a else None) in H.
  change (Py.strip_prefix (encode nl) (x :: a ++ b))
    with (if Py.byte_eqb "010"%byte x then Some (a ++ b) else None).
  destruct (Py.byte_eqb "010"%byte x).
  - now inversion H.
  - destruct (Py.split_once (encode nl) a) as [[p q]|]; [|discriminate].
    inversion H; subst. now rewrite (IH _ _ eq_refl).
Qed.

(** [readline] returns the bytes up to the first newline of what is
    buffered and what is still to arrive, and everything when there is
    none. *)
Lemma readline_from_spec (i : list bytes) :
  forall buf,
    match Py.split_once (encode nl) (buf ++ List.concat i) with
    | Some (pre, post) =>
        exists buf' i',
          Stream.readline_from i buf = (pre ++ encode nl, buf', i')
          /\ buf' ++ List.concat i' = post
    | None => Stream.readline_from i buf = (buf ++ List.concat i, [], [])
    end.
Proof.
  induction i as [|c i IH]; intros buf; rewrite readline_from_unfold.
  - cbn [List.concat]. rewrite app_nil_r.
    destruct (Py.split_once (encode nl) buf) as [[pre post]|].
    + exists post, []. split; [reflexivity|apply app_nil_r].
    + reflexivity.
  - cbn [List.concat].
    destruct (Py.split_once (encode nl) buf) as [[pre post]|] eqn:E.
    + rewrite (split_once_nl_app buf (c ++ List.concat i) pre post E).
      exists post, (c :: i). split; reflexivity.
    + specialize (IH (buf ++ c)). rewrite <- app_assoc in IH. exact IH.
Qed.

Lemma lines_read_cons (s pre post : bytes) :
  Py.split_once (encode nl) s = Some (pre, post) ->
  lines_read s = pre :: lines_read post.
Proof.
  intros H. unfold lines_read. rewrite (lines_from_split_once s []), H.
  reflexivity.
Qed.

Lemma lines_read_last (s : bytes) :
  Py.split_once (encode nl) s = None ->
  lines_read s = if Py.is_empty s then [] else [s].
Proof.
  intros H. unfold lines_read. rewrite (lines_from_split_once s []), H.
  reflexivity.
Qed.

(** *** The loop *)

Lemma client_loop_async_run (self : FileServer) :
  forall fuel st i rb sn cl,
    Py.len rb + pending i < fuel ->
    Forall (fun l => plain_command l = true) (lines_read (rb ++ List.concat i)) ->
    Forall (fun l => within_limit l = true) (lines_read (rb ++ List.concat i)) ->
    observe (Server.client_loop_async self fuel (mkWorld st i rb sn cl))
    = observe (run_lines_async self (lines_read (rb ++ List.concat i))
                 (mkWorld st [] [] sn cl)).
Proof.
  induction fuel as [|fuel IH]; intros st i rb sn cl Hfuel Hlines Hlimit;
    [inversion Hfuel|].
  cbn [Server.client_loop_async]. unfold bind at 1. unfold Stream.at_eof.
  cbn [inbound rbuf].
  destruct (Py.is_empty rb && (pending i =? 0)) eqn:Eeof.
  - apply andb_true_iff in Eeof as [Hrb Hi].
    destruct rb; [|discriminate]. apply Nat.eqb_eq in Hi.
    rewrite pending_concat in Hi.
    destruct (List.concat i); [|discriminate]. reflexivity.
  - assert (Hne : Py.is_empty (rb ++ List.concat i) = false).
    { destruct rb as [|x rb]; [|reflexivity]. cbn [Py.is_empty andb app] in *.
      apply Nat.eqb_neq in Eeof. rewrite pending_concat in Eeof.
      destruct (List.concat i); [contradiction|reflexivity]. }
    unfold bind at 1. unfold Stream.readline. cbn [inbound rbuf].
    pose proof (readline_from_spec i rb) as Hread.
    unfold set_rbuf, set_inbound. cbn [fs inbound rbuf sent closed].
    destruct (Py.split_once (encode nl) (rb ++ List.concat i))
      as [[pre post]|] eqn:Esplit.
    + destruct Hread as (buf' & i' & -> & Hpost).
      rewrite (lines_read_cons _ _ _ Esplit) in Hlines, Hlimit |- *.
      inversion Hlines as [|l ls Hl Hls]; subst l ls.
      inversion Hlimit as [|l ls Hm Hms]; subst l ls.
      apply plain_command_parts in Hl as [Hascii Hl].
      assert (Hfits : (Z.of_nat (Py.len (pre ++ encode nl)) <=? 65536)%Z = true).
      { unfold within_limit in Hm. apply Z.ltb_lt in Hm. apply Z.leb_le.
        unfold Py.len in *. rewrite length_app.
        change (List.length (encode nl)) with 1. lia. }
      rewrite Hfits.
      unfold set_rbuf, set_inbound. cbn [fs inbound rbuf sent closed].
      assert (Hline : Py.is_empty (pre ++ encode nl) = false)
        by (destruct pre; reflexivity).
      rewrite Hline. unfold bind at 1.
      rewrite decode_app.
      change (decode (encode nl)) with nl.
      rewrite is_ascii_app, Hascii.
      change (PyStr.is_ascii nl) with true. cbn [andb negb].
      change (decode (encode nl)) with nl. rewrite strip_line_end.
      cbn [run_lines_async]. unfold bind.
      pose proof (stream_dispatch_command_async self _ Hl) as Hkeep.
      pose proof (Hkeep (mkWorld st [] [] sn cl) i' buf') as Hrun.
      unfold set_rbuf, set_inbound in Hrun. cbn [fs inbound rbuf sent closed] in Hrun.
      rewrite Hrun.
      destruct (stream_stays_empty _ st sn cl Hkeep) as [Hin Hbuf].
      destruct (Server._dispatch_command_async self (Py.strip (decode pre))
                  (mkWorld st [] [] sn cl)) as [[[]|e|] w1];
        cbn [fst snd] in *; [|reflexivity|reflexivity].
      destruct w1 as [st1 i1 rb1 sn1 cl1]. cbn [inbound rbuf] in Hin, Hbuf.
      subst i1 rb1. cbn [fs inbound rbuf sent closed].
      rewrite <- Hpost. apply IH.
      * apply split_once_sound in Esplit.
        assert (Hlen : Py.len (rb ++ List.concat i)
                       = Py.len (pre ++ encode nl ++ post)) by now rewrite Esplit.
        unfold Py.len in *. rewrite pending_concat. unfold Py.len.
        rewrite <- length_app, Hpost.
        rewrite !length_app in Hlen. rewrite pending_concat in Hfuel.
        unfold Py.len in Hfuel. cbn [List.length encode] in Hlen.
        change (List.length (encode nl)) with 1 in Hlen. lia.
      * rewrite Hpost. exact Hls.
      * rewrite Hpost. exact Hms.
    + rewrite Hread. rewrite (lines_read_last _ Esplit) in Hlines, Hlimit |- *.
      rewrite Hne in Hlines, Hlimit |- *.
      inversion Hlines as [|l ls Hl _]; subst l ls.
      inversion Hlimit as [|l ls Hm _]; subst l ls.
      apply plain_command_parts in Hl as [Hascii Hl].
      assert (Hfits : (Z.of_nat (Py.len (rb ++ List.concat i)) <=? 65536)%Z = true).
      { unfold within_limit in Hm. apply Z.ltb_lt in Hm. apply Z.leb_le. lia. }
      rewrite Hfits.
      unfold set_rbuf, set_inbound. cbn [fs inbound rbuf sent closed].
      rewrite Hne, Hascii. cbn [negb]. unfold bind at 1.
      cbn [run_lines_async]. unfold bind.
      pose proof (stream_dispatch_command_async self _ Hl) as Hkeep.
      destruct (stream_stays_empty _ st sn cl Hkeep) as [Hin Hbuf].
      destruct (Server._dispatch_command_async self
                  (Py.strip (decode (rb ++ List.concat i)))
                  (mkWorld st [] [] sn cl)) as [[[]|e|] w1];
        cbn [fst snd] in *; [|reflexivity|reflexivity].
      destruct w1 as [st1 i1 rb1 sn1 cl1]. cbn [inbound rbuf] in Hin, Hbuf.
      subst i1 rb1.
      destruct fuel as [|fuel].
      { exfalso. destruct rb as [|x rb].
        - cbn [app] in Hne. rewrite pending_concat in Hfuel.
          destruct (List.concat i); [discriminate|].
          unfold Py.len in Hfuel. cbn [List.length] in Hfuel. lia.
        - unfold Py.len in Hfuel. cbn [List.length] in Hfuel. lia. }
      reflexivity.
Qed.

Lemma handle_client_async_run (self : FileServer) (st : storage) (i : list bytes)
  (rb : bytes) (sn : list bytes) (cl : bool) :
  Forall (fun l => plain_command l = true) (lines_read (rb ++ List.concat i)) ->
  Forall (fun l => within_limit l = true) (lines_read (rb ++ List.concat i)) ->
  observe (Server._handle_client_async self (mkWorld st i rb sn cl))
  = observe (try_finally (run_lines_async self (lines_read (rb ++ List.concat i)))
               Stream.close (mkWorld st [] [] sn cl)).
Proof.
  intros Hlines Hlimit. unfold Server._handle_client_async.
  apply (observe_try_finally_close
           (with_fuel (Server.client_loop_async self))
           (run_lines_async self (lines_read (rb ++ List.concat i)))).
  unfold with_fuel. apply client_loop_async_run.
  - unfold fuel_of. cbn [inbound rbuf]. lia.
  - exact Hlines.
  - exact Hlimit.
Qed.



(** The replies of the async connection handler to a stream of ASCII lines
    within the reader's limit, none of them a LOAD line, and the storage it
    leaves, do not depend on how the stream arrives. *)
Theorem async_replies_ignore_read_boundaries
  (self : FileServer) (st : storage) (i1 i2 : list bytes)
  (sn : list bytes) (cl : bool) :
  List.concat i1 = List.concat i2 ->
  Forall (fun l => plain_command l = true) (lines_read (List.concat i1)) ->
  Forall (fun l => within_limit l = true) (lines_read (List.concat i1)) ->
  observe (Server._handle_client_async self (mkWorld st i1 [] sn cl))
  = observe (Server._handle_client_async self (mkWorld st i2 [] sn cl)).
Proof.
  intros Hsame Hlines Hlimit.
  rewrite (handle_client_async_run self st i1) by assumption.
  rewrite (handle_client_async_run self st i2)
    by (cbn [app]; rewrite <- Hsame; assumption).
  cbn [app]. now rewrite Hsame.
Qed.

(** The same two commands in one arrival and in three. *)
Lemma async_replies_ignore_read_boundaries_witness :
  observe (Server._handle_client_async Scenario.async
             (Scenario.accepted Scenario.logs
                [encode ("GET FILES *.txt" +++ nl +++ "GET FILE two.txt" +++ nl)]))
  = observe (Server._handle_client_async Scenario.async
               (Scenario.accepted Scenario.logs
                  [encode "GET FILES *."; encode ("txt" +++ nl +++ "GET FI");
                   encode ("LE two.txt" +++ nl)])).
Proof.
  apply async_replies_ignore_read_boundaries.
  - reflexivity.
  - repeat constructor.
  - repeat constructor.
Defined.
